(** * Shiptech-PMS: the project stores' task-tree operations

  A shallow embedding of the two zustand stores of the repository:

  - [TaskStore]: the store with the uniform recursive [Task] type
    ([getTaskByPath], [addTask], [updateTask], [deleteTask],
    [updateProject] with its cleaning step, [fetchUserTasks]);
  - [DeliverableStore]: [src/store/projectStore.ts], the store with the
    [Deliverable]/[SubTask] types ([getItemByPath], [addSubTask],
    [updateSubTask], [deleteSubTask]).

  Data follows the TypeScript interfaces: a required field has its declared
  type, an optional field ([hours?: number]) is an [option]; a guard the
  code puts on a required field ([task.children || []],
  [Boolean(task.completed)]) therefore reads the field.  The Firestore
  collection is the list of its documents in the order [getDocs] lists
  them.  Store calls are taken to reach the backend, so the failures
  modelled are the ones the stores raise themselves; of the zustand state
  only what [fetchUserTasks] sets is kept. *)

From Stdlib Require Import List String Ascii Bool Arith Lia Floats.
Import ListNotations.
Open Scope string_scope.
Open Scope bool_scope.
Open Scope list_scope.

(** ** JavaScript values the stores rely on *)

Module JS.

(** A JavaScript [number] is an IEEE double. *)
Definition number : Set := float.

(** ToBoolean: the empty string is falsy; [0], [-0] and [NaN] are falsy. *)
Definition truthy_string (s : string) : bool :=
  match s with EmptyString => false | String _ _ => true end.

Definition truthy_number (x : number) : bool :=
  negb (PrimFloat.is_nan x || PrimFloat.eqb x 0%float).

(** [a || b] on two strings. *)
Definition or_string (a b : string) : string :=
  if truthy_string a then a else b.

(** [x || d] where [x] is an optional field: [undefined] is falsy. *)
Definition or_else {A : Type} (truthy : A -> bool) (x : option A) (d : A) : A :=
  match x with
  | Some v => if truthy v then v else d
  | None => d
  end.

(** A field that can be absent ([undefined]), [null], or hold a value. *)
Inductive nullable (A : Type) : Type :=
| undefined : nullable A
| null : nullable A
| value : A -> nullable A.
Arguments undefined {A}.
Arguments null {A}.
Arguments value {A} _.

(** [x || null]. *)
Definition or_null {A : Type} (truthy : A -> bool) (x : nullable A) : nullable A :=
  match x with
  | value v => if truthy v then value v else null
  | _ => null
  end.

(** The result of an async store operation: it resolves, or it rejects
    with [new Error(msg)]. *)
Inductive outcome (A : Type) : Type :=
| Ok : A -> outcome A
| Throw : string -> outcome A.
Arguments Ok {A} _.
Arguments Throw {A} _.

(** [l.length > 0]. *)
Definition has_items {A : Type} (l : list A) : bool :=
  match l with [] => false | _ :: _ => true end.

End JS.

Import JS.

(** ** The store with the recursive [Task] type *)

Module TaskStore.

Record User : Type := mkUser {
  uid : string;
  fullName : string;
  email : string
}.

(** [interface Task].  [deadline] is declared [deadline?: string]; the
    cleaning step of [updateProject] writes [null] for it, so a task read
    back from the backend carries [null]. *)
Unset Elimination Schemes.
Inductive Task : Type := mkTask {
  id : string;
  name : string;
  description : string;
  hours : option number;
  costPerHour : option number;
  assignedTo : option (list User);
  deadline : nullable string;
  completed : bool;
  children : list Task;
  projectId : option string
}.
Set Elimination Schemes.

Section Task_induction.
Variable P : Task -> Prop.
Hypothesis step :
  forall i n d h c a dl cp ch pj,
    Forall P ch -> P (mkTask i n d h c a dl cp ch pj).

Fixpoint Task_ind (t : Task) : P t :=
  match t with
  | mkTask i n d h c a dl cp ch pj =>
      step i n d h c a dl cp ch pj
        ((fix all (l : list Task) : Forall P l :=
            match l with
            | [] => Forall_nil P
            | x :: r => Forall_cons x (Task_ind x) (all r)
            end) ch)
  end.
End Task_induction.

(** [{ ...task, children: c }] *)
Definition with_children (task : Task) (c : list Task) : Task :=
  mkTask (id task) (name task) (description task) (hours task)
         (costPerHour task) (assignedTo task) (deadline task)
         (completed task) c (projectId task).

(** [{ ...task, completed: b }] *)
Definition with_completed (task : Task) (b : bool) : Task :=
  mkTask (id task) (name task) (description task) (hours task)
         (costPerHour task) (assignedTo task) (deadline task)
         b (children task) (projectId task).

(** [{ ...task, projectId }] *)
Definition with_projectId (task : Task) (p : string) : Task :=
  mkTask (id task) (name task) (description task) (hours task)
         (costPerHour task) (assignedTo task) (deadline task)
         (completed task) (children task) (Some p).

Record Customer : Type := mkCustomer {
  cname : string;
  phone : string;
  address : string
}.

(** [interface Project]; [docId] is the backend-assigned [id], [internalId]
    is [__id]. The [type] tag is the constant ['project']. *)
Record Project : Type := mkProject {
  docId : string;
  internalId : string;
  pname : string;
  pdescription : string;
  customer : Customer;
  tasks : list Task;
  createdAt : string
}.

Record PathItem : Type := mkPathItem { pid : string }.

(** The ['projects'] collection. *)
Definition Firestore : Type := list Project.

(** *** fetchProject *)

Definition fetchProject (db : Firestore) (projectId : string) : option Project :=
  find (fun p => String.eqb (docId p) projectId) db.

(** *** updateProject: the cleaning step *)

Definition cleanUser (user : User) : User :=
  mkUser (uid user) (fullName user) (email user).

(** One element of [cleanTasks]' [map]: the object literal has exactly the
    nine keys below, so [projectId] is not carried over. *)
Fixpoint cleanTask (task : Task) : Task :=
  {| id := id task;
     name := or_string (name task) "";
     description := or_string (description task) "";
     hours := Some (or_else truthy_number (hours task) 0%float);
     costPerHour := Some (or_else truthy_number (costPerHour task) 0%float);
     assignedTo := Some match assignedTo task with
                        | Some users => map cleanUser users
                        | None => []
                        end;
     deadline := or_null truthy_string (deadline task);
     completed := completed task;
     children := map cleanTask (children task);
     projectId := None |}.

Definition cleanTasks (tasks : list Task) : list Task := map cleanTask tasks.

(** [cleanProjectData]: the fields written by [updateDoc]. *)
Record ProjectData : Type := mkProjectData {
  cd_name : string;
  cd_description : string;
  cd_customer : Customer;
  cd_tasks : list Task
}.

Definition cleanProjectData (projectData : Project) : ProjectData :=
  {| cd_name := or_string (pname projectData) "";
     cd_description := or_string (pdescription projectData) "";
     cd_customer :=
       {| cname := or_string (cname (customer projectData)) "";
          phone := or_string (phone (customer projectData)) "";
          address := or_string (address (customer projectData)) "" |};
     cd_tasks := cleanTasks (tasks projectData) |}.

(** [updateDoc(docRef, cleanProjectData)] replaces the written fields of the
    document and keeps the others.  The mutators call [updateProject] on a
    document they have just fetched. *)
Definition updateDoc (p : Project) (d : ProjectData) : Project :=
  {| docId := docId p;
     internalId := internalId p;
     pname := cd_name d;
     pdescription := cd_description d;
     customer := cd_customer d;
     tasks := cd_tasks d;
     createdAt := createdAt p |}.

Definition updateProject (db : Firestore) (id : string) (projectData : Project)
  : Firestore :=
  map (fun p => if String.eqb (docId p) id
                then updateDoc p (cleanProjectData projectData)
                else p) db.

(** *** getTaskByPath *)

(** The [for (const pathItem of path)] loop, with its two variables. *)
Fixpoint getTaskByPath_loop (current : option Task) (items : list Task)
         (path : list PathItem) : option Task :=
  match path with
  | [] => current
  | pathItem :: rest =>
      match find (fun item => String.eqb (id item) (pid pathItem)) items with
      | None => None
      | Some found => getTaskByPath_loop (Some found) (children found) rest
      end
  end.

Definition getTaskByPath_in (project : option Project) (path : list PathItem)
  : option Task :=
  match project with
  | None => None
  | Some p => getTaskByPath_loop None (tasks p) path
  end.

Definition getTaskByPath (db : Firestore) (projectId : string)
           (path : list PathItem) : option Task :=
  getTaskByPath_in (fetchProject db projectId) path.

(** *** addTask *)

(** [Omit<Task, 'id' | 'children' | 'completed'>] *)
Record TaskData : Type := mkTaskData {
  d_name : string;
  d_description : string;
  d_hours : option number;
  d_costPerHour : option number;
  d_assignedTo : option (list User);
  d_deadline : nullable string;
  d_projectId : option string
}.

(** [newTask]; [uuid] is the value of [crypto.randomUUID()]. *)
Definition newTask (taskData : TaskData) (uuid : string) : Task :=
  {| id := uuid;
     name := or_string (d_name taskData) "";
     description := or_string (d_description taskData) "";
     hours := d_hours taskData;
     costPerHour := d_costPerHour taskData;
     assignedTo := d_assignedTo taskData;
     deadline := d_deadline taskData;
     completed := false;
     children := [];
     projectId := d_projectId taskData |}.

Fixpoint updateNestedTasks (newTask : Task) (tasks : list Task)
         (currentPath : list PathItem) : list Task :=
  match currentPath with
  | [] => tasks ++ [newTask]
  | first :: rest =>
      map (fun task =>
             if String.eqb (id task) (pid first)
             then with_children task
                    (updateNestedTasks newTask (children task) rest)
             else task) tasks
  end.

(** [{ ...project, tasks: t }] *)
Definition with_tasks (project : Project) (t : list Task) : Project :=
  mkProject (docId project) (internalId project) (pname project)
            (pdescription project) (customer project) t (createdAt project).

Definition addTask_updatedTasks (project : Project) (path : list PathItem)
           (newTask : Task) : list Task :=
  match path with
  | [] => tasks project ++ [newTask]
  | _ :: _ => updateNestedTasks newTask (tasks project) path
  end.

Definition addTask (db : Firestore) (projectId : string) (path : list PathItem)
           (taskData : TaskData) (uuid : string) : outcome Firestore :=
  match fetchProject db projectId with
  | None => Throw "Project not found"
  | Some project =>
      Ok (updateProject db projectId
            (with_tasks project
               (addTask_updatedTasks project path (newTask taskData uuid))))
  end.

(** *** updateTask *)

(** [Partial<Task>]: [None] (for [deadline], [undefined]) is a key the patch
    does not carry. *)
Record TaskPatch : Type := mkTaskPatch {
  p_id : option string;
  p_name : option string;
  p_description : option string;
  p_hours : option number;
  p_costPerHour : option number;
  p_assignedTo : option (list User);
  p_deadline : nullable string;
  p_completed : option bool;
  p_children : option (list Task);
  p_projectId : option string
}.

(** A key of [data] spread over the same key of [task]. *)
Definition spread {A : Type} (old : A) (new : option A) : A :=
  match new with Some v => v | None => old end.

Definition spread_opt {A : Type} (old new : option A) : option A :=
  match new with Some v => Some v | None => old end.

Definition spread_nullable {A : Type} (old new : nullable A) : nullable A :=
  match new with undefined => old | _ => new end.

(** The object literal
    [{ ...task, ...data, name: data.name || task.name,
       description: data.description || task.description,
       children: task.children || [] }]. *)
Definition patchTask (data : TaskPatch) (task : Task) : Task :=
  {| id := spread (id task) (p_id data);
     name := or_else truthy_string (p_name data) (name task);
     description := or_else truthy_string (p_description data) (description task);
     hours := spread_opt (hours task) (p_hours data);
     costPerHour := spread_opt (costPerHour task) (p_costPerHour data);
     assignedTo := spread_opt (assignedTo task) (p_assignedTo data);
     deadline := spread_nullable (deadline task) (p_deadline data);
     completed := spread (completed task) (p_completed data);
     children := children task;
     projectId := spread_opt (projectId task) (p_projectId data) |}.

(** The callback of the [map] in [updateNestedTask]. *)
Fixpoint updateNestedTask_cb (taskId : string) (data : TaskPatch) (task : Task)
  : Task :=
  if String.eqb (id task) taskId then patchTask data task
  else if has_items (children task)
       then with_children task
              (map (updateNestedTask_cb taskId data) (children task))
       else task.

Definition updateNestedTask (taskId : string) (data : TaskPatch)
           (tasks : list Task) : list Task :=
  map (updateNestedTask_cb taskId data) tasks.

(** The [path] argument is not read. *)
Definition updateTask (db : Firestore) (projectId : string)
           (path : list PathItem) (taskId : string) (data : TaskPatch)
  : outcome Firestore :=
  match fetchProject db projectId with
  | None => Throw "Project not found"
  | Some project =>
      Ok (updateProject db projectId
            (with_tasks project (updateNestedTask taskId data (tasks project))))
  end.

(** [{ completed: c }] *)
Definition onlyCompleted (c : bool) : TaskPatch :=
  {| p_id := None; p_name := None; p_description := None; p_hours := None;
     p_costPerHour := None; p_assignedTo := None; p_deadline := undefined;
     p_completed := Some c; p_children := None; p_projectId := None |}.

(** *** deleteTask *)

(** The callback of the [filter] in [deleteNestedTask] returns whether the
    task is kept, and on the way assigns [task.children] in place.
    [deleteNestedTask_keep] is its return value, [deleteNestedTask_after] is
    the task object once the callback has run. *)
Definition deleteNestedTask_keep (taskId : string) (task : Task) : bool :=
  negb (String.eqb (id task) taskId).

Fixpoint deleteNestedTask_after (taskId : string) (task : Task) : Task :=
  if String.eqb (id task) taskId then task
  else if has_items (children task)
       then with_children task
              (filter (deleteNestedTask_keep taskId)
                 (map (deleteNestedTask_after taskId) (children task)))
       else task.

(** The array [deleteNestedTask] returns. *)
Definition deleteNestedTask (taskId : string) (tasks : list Task) : list Task :=
  filter (deleteNestedTask_keep taskId)
         (map (deleteNestedTask_after taskId) tasks).

(** The objects of the argument array once [deleteNestedTask] has returned. *)
Definition deleteNestedTask_input_after (taskId : string) (tasks : list Task)
  : list Task :=
  map (deleteNestedTask_after taskId) tasks.

(** The [path] argument is not read. *)
Definition deleteTask (db : Firestore) (projectId : string)
           (path : list PathItem) (taskId : string) : outcome Firestore :=
  match fetchProject db projectId with
  | None => Throw "Project not found"
  | Some project =>
      Ok (updateProject db projectId
            (with_tasks project (deleteNestedTask taskId (tasks project))))
  end.

(** *** toggleTaskCompletion *)

Definition toggleTaskCompletion (db : Firestore) (projectId : string)
           (path : list PathItem) : outcome Firestore :=
  match getTaskByPath db projectId path with
  | None => Throw "Task not found"
  | Some task =>
      updateTask db projectId (removelast path)
                 (pid (last path (mkPathItem "")))
                 (onlyCompleted (negb (completed task)))
  end.

(** *** fetchUserTasks *)

(** [task.assignedTo?.some(user => user.id === currentUser.uid)] *)
Definition isAssigned (currentUid : string) (task : Task) : bool :=
  match assignedTo task with
  | Some users => existsb (fun user => String.eqb (uid user) currentUid) users
  | None => false
  end.

(** One step of the [reduce] in [findUserTasks]. *)
Definition findUserTasks_step (currentUid projectId : string)
           (childTasks : list Task) (acc : list Task) (task : Task) : list Task :=
  (if isAssigned currentUid task
   then acc ++ [with_projectId task projectId]
   else acc) ++ childTasks.

(** [findUserTasks(task.children, projectId)] *)
Fixpoint findUserTasks_children (currentUid projectId : string) (task : Task)
  : list Task :=
  fold_left
    (fun acc child =>
       findUserTasks_step currentUid projectId
         (findUserTasks_children currentUid projectId child) acc child)
    (children task) [].

Definition findUserTasks (currentUid : string) (tasks : list Task)
           (projectId : string) : list Task :=
  fold_left
    (fun acc task =>
       findUserTasks_step currentUid projectId
         (findUserTasks_children currentUid projectId task) acc task)
    tasks [].

(** The part of the store's state [fetchUserTasks] sets. *)
Record ProjectState : Type := mkProjectState {
  userTasks : list Task;
  loading : bool;
  error : option string
}.

(** [currentUser] is [auth.currentUser]'s uid, [projects] the documents
    [getDocs] returned. *)
Definition fetchUserTasks (currentUser : option string) (projects : Firestore)
           (st : ProjectState) : ProjectState :=
  match currentUser with
  | None =>
      {| userTasks := userTasks st; loading := false;
         error := Some "No user logged in" |}
  | Some currentUid =>
      {| userTasks :=
           fold_left
             (fun acc project =>
                acc ++ findUserTasks currentUid (tasks project) (docId project))
             projects [];
         loading := false;
         error := None |}
  end.

(** *** deleteProject *)

(** [deleteDoc(doc(db, 'projects', id))] *)
Definition deleteProject (db : Firestore) (id : string) : Firestore :=
  filter (fun project => negb (String.eqb (docId project) id)) db.

(** *** createProject *)

(** [Omit<Project, 'id' | '__id' | 'createdAt' | 'tasks'>] *)
Record NewProjectData : Type := mkNewProjectData {
  n_name : string;
  n_description : string;
  n_customer : Customer
}.

(** [digits] is [Math.random().toString().slice(2, 8)], [now] is
    [new Date().toISOString()], [docRefId] the id [addDoc] gives the new
    document. *)
Definition createProject (db : Firestore) (projectData : NewProjectData)
           (digits now docRefId : string) : Firestore :=
  db ++ [{| docId := docRefId;
            internalId := "p-" ++ digits;
            pname := n_name projectData;
            pdescription := n_description projectData;
            customer := n_customer projectData;
            tasks := [];
            createdAt := now |}].

End TaskStore.

(** ** The store with the [Deliverable] / [SubTask] types
    ([src/store/projectStore.ts]) *)

Module DeliverableStore.

Record User : Type := mkUser {
  uid : string;
  fullName : string;
  email : string
}.

(** [Deliverable | SubTask]: the tree functions of this store take either,
    and read only [id] and [subTasks].  A [SubTask] has no [hours] and no
    [costPerHour], and its [description] is optional. *)
Unset Elimination Schemes.
Inductive Item : Type := mkItem {
  id : string;
  name : string;
  description : option string;
  hours : option number;
  costPerHour : option number;
  assignedTo : option User;
  deadline : option string;
  completed : bool;
  subTasks : list Item
}.
Set Elimination Schemes.

Section Item_induction.
Variable P : Item -> Prop.
Hypothesis step :
  forall i n d h c a dl cp st,
    Forall P st -> P (mkItem i n d h c a dl cp st).

Fixpoint Item_ind (t : Item) : P t :=
  match t with
  | mkItem i n d h c a dl cp st =>
      step i n d h c a dl cp st
        ((fix all (l : list Item) : Forall P l :=
            match l with
            | [] => Forall_nil P
            | x :: r => Forall_cons x (Item_ind x) (all r)
            end) st)
  end.
End Item_induction.

(** [{ ...item, subTasks: s }] *)
Definition with_subTasks (item : Item) (s : list Item) : Item :=
  mkItem (id item) (name item) (description item) (hours item)
         (costPerHour item) (assignedTo item) (deadline item)
         (completed item) s.

(** [{ ...item, completed: b }] *)
Definition with_completed (item : Item) (b : bool) : Item :=
  mkItem (id item) (name item) (description item) (hours item)
         (costPerHour item) (assignedTo item) (deadline item)
         b (subTasks item).

Record Customer : Type := mkCustomer {
  cname : string;
  phone : string;
  address : string
}.

Record Project : Type := mkProject {
  docId : string;
  internalId : string;
  pname : string;
  pdescription : string;
  customer : Customer;
  deliverables : list Item;
  createdAt : string
}.

Inductive ItemType : Type := deliverable | subtask.

Definition is_deliverable (t : ItemType) : bool :=
  match t with deliverable => true | subtask => false end.

Record PathItem : Type := mkPathItem { ptype : ItemType; pid : string }.

Definition Firestore : Type := list Project.

Definition fetchProject (db : Firestore) (projectId : string) : option Project :=
  find (fun p => String.eqb (docId p) projectId) db.

(** [{ ...project, deliverables: d }] *)
Definition with_deliverables (project : Project) (d : list Item) : Project :=
  mkProject (docId project) (internalId project) (pname project)
            (pdescription project) (customer project) d (createdAt project).

(** [updateDoc(docRef, projectData)]: this store writes the document as it
    is handed over; a fetch reads it back under the document's own id. *)
Definition updateProject (db : Firestore) (id : string) (projectData : Project)
  : Firestore :=
  map (fun p => if String.eqb (docId p) id
                then mkProject (docId p) (internalId projectData)
                       (pname projectData) (pdescription projectData)
                       (customer projectData) (deliverables projectData)
                       (createdAt projectData)
                else p) db.

(** *** getItemByPath *)

(** The [for (let i = 0; i < path.length; i++)] loop from index [i] on. *)
Fixpoint getItemByPath_loop (project : Project) (i : nat)
         (currentItem : option Item) (path : list PathItem) : option Item :=
  match path with
  | [] => currentItem
  | p :: rest =>
      let currentItem' :=
        if Nat.eqb i 0 && is_deliverable (ptype p)
        then find (fun d => String.eqb (id d) (pid p)) (deliverables project)
        else match currentItem with
             | Some c => find (fun t => String.eqb (id t) (pid p)) (subTasks c)
             | None => currentItem
             end in
      match currentItem' with
      | None => None
      | Some _ => getItemByPath_loop project (S i) currentItem' rest
      end
  end.

Definition getItemByPath_in (project : option Project) (path : list PathItem)
  : option Item :=
  match project with
  | None => None
  | Some p => getItemByPath_loop p 0 None path
  end.

Definition getItemByPath (db : Firestore) (projectId : string)
           (path : list PathItem) : option Item :=
  getItemByPath_in (fetchProject db projectId) path.

(** *** addSubTask *)

(** [Omit<SubTask, 'id' | 'subTasks' | 'completed'>] *)
Record SubTaskData : Type := mkSubTaskData {
  d_name : string;
  d_description : option string;
  d_assignedTo : option User;
  d_deadline : option string
}.

Definition newTask (task : SubTaskData) (uuid : string) : Item :=
  {| id := uuid;
     name := d_name task;
     description := d_description task;
     hours := None;
     costPerHour := None;
     assignedTo := d_assignedTo task;
     deadline := d_deadline task;
     completed := false;
     subTasks := [] |}.

(** The callback of the [map] in [addTaskToItem]; [target] is
    [parentTaskId || deliverableId]. *)
Fixpoint addTaskToItem_cb (target : string) (newTask : Item) (item : Item)
  : Item :=
  if String.eqb (id item) target
  then with_subTasks item (subTasks item ++ [newTask])
  else if has_items (subTasks item)
       then with_subTasks item
              (map (addTaskToItem_cb target newTask) (subTasks item))
       else item.

Definition addTaskToItem (target : string) (newTask : Item) (items : list Item)
  : list Item :=
  map (addTaskToItem_cb target newTask) items.

(** This store's mutators catch what they throw and record the message:
    the result is the collection and the [error] left in the state. *)
Definition addSubTask (db : Firestore) (projectId deliverableId : string)
           (parentTaskId : option string) (task : SubTaskData) (uuid : string)
  : Firestore * option string :=
  match fetchProject db projectId with
  | None => (db, Some "Project not found")
  | Some project =>
      (updateProject db projectId
         (with_deliverables project
            (addTaskToItem (or_else truthy_string parentTaskId deliverableId)
                           (newTask task uuid) (deliverables project))),
       None)
  end.

(** *** updateSubTask *)

(** [Partial<SubTask>] *)
Record SubTaskPatch : Type := mkSubTaskPatch {
  p_id : option string;
  p_name : option string;
  p_description : option string;
  p_assignedTo : option User;
  p_deadline : option string;
  p_completed : option bool;
  p_subTasks : option (list Item)
}.

Definition spread {A : Type} (old : A) (new : option A) : A :=
  match new with Some v => v | None => old end.

Definition spread_opt {A : Type} (old new : option A) : option A :=
  match new with Some v => Some v | None => old end.

(** [{ ...item, ...data }] *)
Definition patchItem (data : SubTaskPatch) (item : Item) : Item :=
  {| id := spread (id item) (p_id data);
     name := spread (name item) (p_name data);
     description := spread_opt (description item) (p_description data);
     hours := hours item;
     costPerHour := costPerHour item;
     assignedTo := spread_opt (assignedTo item) (p_assignedTo data);
     deadline := spread_opt (deadline item) (p_deadline data);
     completed := spread (completed item) (p_completed data);
     subTasks := spread (subTasks item) (p_subTasks data) |}.

(** The callback of the [map] in [updateTaskInItem]. *)
Fixpoint updateTaskInItem_cb (taskId : string) (data : SubTaskPatch)
         (item : Item) : Item :=
  if String.eqb (id item) taskId then patchItem data item
  else if has_items (subTasks item)
       then with_subTasks item
              (map (updateTaskInItem_cb taskId data) (subTasks item))
       else item.

Definition updateTaskInItem (taskId : string) (data : SubTaskPatch)
           (items : list Item) : list Item :=
  map (updateTaskInItem_cb taskId data) items.

(** The [deliverableId] argument is not read. *)
Definition updateSubTask (db : Firestore) (projectId deliverableId : string)
           (taskId : string) (data : SubTaskPatch) : Firestore * option string :=
  match fetchProject db projectId with
  | None => (db, Some "Project not found")
  | Some project =>
      (updateProject db projectId
         (with_deliverables project
            (updateTaskInItem taskId data (deliverables project))),
       None)
  end.

(** [{ completed: c }] *)
Definition onlyCompleted (c : bool) : SubTaskPatch :=
  {| p_id := None; p_name := None; p_description := None;
     p_assignedTo := None; p_deadline := None; p_completed := Some c;
     p_subTasks := None |}.

(** *** deleteSubTask *)

(** The callback of the outer [map] in [deleteTaskFromItem]:
    [{ ...item, subTasks: item.subTasks.filter(t => t.id !== taskId)
         .map(t => ({ ...t, subTasks: deleteTaskFromItem(t.subTasks) })) }].
    The [filter] and the inner [map] are one pass here
    ([deleteTaskFromItem_cb_eq] below gives the source's form). *)
Fixpoint deleteTaskFromItem_cb (taskId : string) (item : Item) : Item :=
  with_subTasks item
    ((fix pass (l : list Item) : list Item :=
        match l with
        | [] => []
        | t :: r =>
            if negb (String.eqb (id t) taskId)
            then with_subTasks t
                   (map (deleteTaskFromItem_cb taskId) (subTasks t)) :: pass r
            else pass r
        end) (subTasks item)).

Definition deleteTaskFromItem (taskId : string) (items : list Item)
  : list Item :=
  map (deleteTaskFromItem_cb taskId) items.

(** The [deliverableId] argument is not read. *)
Definition deleteSubTask (db : Firestore) (projectId deliverableId : string)
           (taskId : string) : Firestore * option string :=
  match fetchProject db projectId with
  | None => (db, Some "Project not found")
  | Some project =>
      (updateProject db projectId
         (with_deliverables project
            (deleteTaskFromItem taskId (deliverables project))),
       None)
  end.

(** *** deleteProject *)

Definition deleteProject (db : Firestore) (id : string) : Firestore :=
  filter (fun project => negb (String.eqb (docId project) id)) db.

(** *** addDeliverable *)

(** [Omit<Deliverable, 'id' | 'subTasks' | 'completed'>] *)
Record DeliverableData : Type := mkDeliverableData {
  dd_name : string;
  dd_description : string;
  dd_hours : option number;
  dd_costPerHour : option number;
  dd_assignedTo : option User;
  dd_deadline : option string
}.

Definition newDeliverable (deliverable : DeliverableData) (uuid : string)
  : Item :=
  {| id := uuid;
     name := dd_name deliverable;
     description := Some (dd_description deliverable);
     hours := dd_hours deliverable;
     costPerHour := dd_costPerHour deliverable;
     assignedTo := dd_assignedTo deliverable;
     deadline := dd_deadline deliverable;
     completed := false;
     subTasks := [] |}.

Definition addDeliverable (db : Firestore) (projectId : string)
           (deliverable : DeliverableData) (uuid : string)
  : Firestore * option string :=
  match fetchProject db projectId with
  | None => (db, Some "Project not found")
  | Some project =>
      (updateProject db projectId
         (with_deliverables project
            (deliverables project ++ [newDeliverable deliverable uuid])),
       None)
  end.

(** *** updateDeliverable *)

(** [Partial<Deliverable>] *)
Record DeliverablePatch : Type := mkDeliverablePatch {
  q_id : option string;
  q_name : option string;
  q_description : option string;
  q_hours : option number;
  q_costPerHour : option number;
  q_assignedTo : option User;
  q_deadline : option string;
  q_completed : option bool;
  q_subTasks : option (list Item)
}.

(** [{ ...d, ...data }] *)
Definition patchDeliverable (data : DeliverablePatch) (d : Item) : Item :=
  {| id := spread (id d) (q_id data);
     name := spread (name d) (q_name data);
     description := spread_opt (description d) (q_description data);
     hours := spread_opt (hours d) (q_hours data);
     costPerHour := spread_opt (costPerHour d) (q_costPerHour data);
     assignedTo := spread_opt (assignedTo d) (q_assignedTo data);
     deadline := spread_opt (deadline d) (q_deadline data);
     completed := spread (completed d) (q_completed data);
     subTasks := spread (subTasks d) (q_subTasks data) |}.

Definition updateDeliverable (db : Firestore) (projectId deliverableId : string)
           (data : DeliverablePatch) : Firestore * option string :=
  match fetchProject db projectId with
  | None => (db, Some "Project not found")
  | Some project =>
      (updateProject db projectId
         (with_deliverables project
            (map (fun d => if String.eqb (id d) deliverableId
                           then patchDeliverable data d else d)
                 (deliverables project))),
       None)
  end.

(** *** deleteDeliverable *)

Definition deleteDeliverable (db : Firestore) (projectId deliverableId : string)
  : Firestore * option string :=
  match fetchProject db projectId with
  | None => (db, Some "Project not found")
  | Some project =>
      (updateProject db projectId
         (with_deliverables project
            (filter (fun d => negb (String.eqb (id d) deliverableId))
                    (deliverables project))),
       None)
  end.

End DeliverableStore.

(** ** The deliverable page ([DeliverableDetails]): the path in the URL *)

Module DeliverableDetails.
Import DeliverableStore.

(** [s.split(sep)] for a one-character separator: the pieces between the
    occurrences of [sep]; never the empty array. *)
Fixpoint split (sep : Ascii.ascii) (s : string) : list string :=
  match s with
  | EmptyString => [""]
  | String c rest =>
      if Ascii.eqb c sep then "" :: split sep rest
      else match split sep rest with
           | piece :: pieces => String c piece :: pieces
           | [] => [String c ""]
           end
  end.

(** [pieces.join(sep)] *)
Fixpoint join (sep : string) (pieces : list string) : string :=
  match pieces with
  | [] => ""
  | [piece] => piece
  | piece :: more => (piece ++ sep ++ join sep more)%string
  end.

(** What [path.split('/').map(p => { const [type, id] = p.split(':'); ... })]
    yields before the cast of [type]: the text before the first [':'], and
    the text between the first and the second [':'], [undefined] when there
    is no [':']. *)
Record Segment : Type := mkSegment {
  stype : string;
  sid : option string
}.

Definition parseSegment (p : string) : Segment :=
  let parts := split ":"%char p in
  mkSegment (hd "" parts) (nth_error parts 1).

(** The expression [path.split('/').map(...)] itself.  The page evaluates
    it only past a guard on [path], which [pathArray] below carries. *)
Definition parsePath (path : string) : list Segment :=
  map parseSegment (split "/"%char path).

(** What [pathArray] is bound to in [loadItem], [handleAddTask],
    [handleEditTask] and [handleDeleteTask]: each of them starts with the
    guard [if (!projectId || !path) return;] and parses the text only past
    it ([handleEditTask] also returns there when no task is being edited).
    [projectId] and [path] are the values of [useParams], [undefined] when
    the route carries none; [None] is the [return] at the guard. *)
Definition pathArray (projectId path : option string)
  : option (list Segment) :=
  match projectId, path with
  | Some i, Some p =>
      if negb (truthy_string i) || negb (truthy_string p) then None
      else Some (parsePath p)
  | _, _ => None
  end.

(** The two values of [PathItem.type], as text. *)
Definition typeName (t : ItemType) : string :=
  match t with deliverable => "deliverable" | subtask => "subtask" end.

(** [newPath.map(p => `${p.type}:${p.id}`).join('/')] *)
Definition pathString (newPath : list PathItem) : string :=
  join "/" (map (fun p => (typeName (ptype p) ++ ":" ++ pid p)%string) newPath).

(** The segment a path item is written as. *)
Definition segmentOf (p : PathItem) : Segment :=
  mkSegment (typeName (ptype p)) (Some (pid p)).

(** [handleTaskClick]: the path navigated to. *)
Definition handleTaskClick (currentPath : list PathItem) (taskId : string)
  : string :=
  pathString (currentPath ++ [mkPathItem subtask taskId]).

End DeliverableDetails.

(** ** Notions the properties are stated with *)

Module TaskTree.
Import TaskStore.

(** The path resolver as the specification words it: for each segment find
    the node of the current candidate list whose id matches and descend into
    its children; the empty path names no node. *)
Fixpoint resolve (root : list Task) (path : list string) : option Task :=
  match path with
  | [] => None
  | seg :: rest =>
      match find (fun n => String.eqb (id n) seg) root with
      | None => None
      | Some n =>
          match rest with
          | [] => Some n
          | _ :: _ => resolve (children n) rest
          end
      end
  end.

(** The candidate list once the segments of [pre] have been matched. *)
Definition candidates (root : list Task) (pre : list string)
  : option (list Task) :=
  match pre with
  | [] => Some root
  | _ :: _ => option_map children (resolve root pre)
  end.

(** A node with the id [taskId] occurs in the tree. *)
Fixpoint occurs_in (taskId : string) (t : Task) : bool :=
  String.eqb (id t) taskId || existsb (occurs_in taskId) (children t).

Definition occurs (taskId : string) (tasks : list Task) : bool :=
  existsb (occurs_in taskId) tasks.

(** The node at a position: [i :: rest] is the node at [rest] below the
    [i]-th node of the list.  Positions name every node of a tree, also the
    ones an id path cannot tell apart. *)
Fixpoint node_at (tasks : list Task) (pos : list nat) : option Task :=
  match pos with
  | [] => None
  | i :: rest =>
      match nth_error tasks i with
      | None => None
      | Some t =>
          match rest with
          | [] => Some t
          | _ :: _ => node_at (children t) rest
          end
      end
  end.

(** The node at a position none of whose proper ancestors has the id
    [taskId]: the nodes a scan that stops at the first match on each branch
    arrives at. *)
Fixpoint scan_at (taskId : string) (tasks : list Task) (pos : list nat)
  : option Task :=
  match pos with
  | [] => None
  | i :: rest =>
      match nth_error tasks i with
      | None => None
      | Some t =>
          match rest with
          | [] => Some t
          | _ :: _ =>
              if String.eqb (id t) taskId then None
              else scan_at taskId (children t) rest
          end
      end
  end.

(** The nodes that are neither a node with the id [taskId] nor below one,
    in depth-first order. *)
Fixpoint survivors_of (taskId : string) (t : Task) : list Task :=
  if String.eqb (id t) taskId then []
  else t :: flat_map (survivors_of taskId) (children t).

Definition survivors (taskId : string) (tasks : list Task) : list Task :=
  flat_map (survivors_of taskId) tasks.

(** No two siblings share an id, at any level. *)
Fixpoint distinct (l : list string) : bool :=
  match l with
  | [] => true
  | x :: r => negb (existsb (String.eqb x) r) && distinct r
  end.

Fixpoint siblings_unique_in (t : Task) : bool :=
  distinct (map id (children t)) && forallb siblings_unique_in (children t).

Definition siblings_unique (tasks : list Task) : bool :=
  distinct (map id tasks) && forallb siblings_unique_in tasks.

(** Depth-first traversal, a parent before its children. *)
Fixpoint preorder_of (t : Task) : list Task :=
  t :: flat_map preorder_of (children t).

Definition preorder (tasks : list Task) : list Task :=
  flat_map preorder_of tasks.

(** What one task adds to the result of [findUserTasks]: itself, with the
    project id, when it is assigned, then what its children add. *)
Definition contribution (currentUid projectId : string) (task : Task)
  : list Task :=
  (if isAssigned currentUid task then [with_projectId task projectId] else [])
  ++ findUserTasks currentUid (children task) projectId.

(** The default substitutions of the specification: an unset [hours] or
    [costPerHour] becomes [0], an unset [assignedTo] the empty list, an unset
    [deadline] [null]; nothing else changes. *)
Fixpoint withDefaults (t : Task) : Task :=
  {| id := id t;
     name := name t;
     description := description t;
     hours := Some (match hours t with Some h => h | None => 0%float end);
     costPerHour :=
       Some (match costPerHour t with Some h => h | None => 0%float end);
     assignedTo :=
       Some (match assignedTo t with Some users => users | None => [] end);
     deadline := match deadline t with undefined => null | d => d end;
     completed := completed t;
     children := map withDefaults (children t);
     projectId := projectId t |}.

(** Every key of the persisted task object holds a value, in the task and
    below it. *)
Definition is_set {A : Type} (x : option A) : bool :=
  match x with Some _ => true | None => false end.

Definition is_defined {A : Type} (x : nullable A) : bool :=
  match x with undefined => false | _ => true end.

Fixpoint fields_set (t : Task) : bool :=
  is_set (hours t) && is_set (costPerHour t) && is_set (assignedTo t)
  && is_defined (deadline t) && forallb fields_set (children t).

(** What the cleaning step treats as unset: a falsy number, an empty
    [deadline] string, and the transient [projectId]. *)
Definition unset_falsy_number (x : option number) : option number :=
  match x with
  | Some h => if truthy_number h then Some h else None
  | None => None
  end.

Definition unset_falsy_deadline (x : nullable string) : nullable string :=
  match x with
  | value s => if truthy_string s then value s else undefined
  | d => d
  end.

Fixpoint unset_falsy (t : Task) : Task :=
  {| id := id t;
     name := name t;
     description := description t;
     hours := unset_falsy_number (hours t);
     costPerHour := unset_falsy_number (costPerHour t);
     assignedTo := assignedTo t;
     deadline := unset_falsy_deadline (deadline t);
     completed := completed t;
     children := map unset_falsy (children t);
     projectId := None |}.

(** The values the cleaning step writes back as they are: a number that is
    [0] or truthy, a [deadline] that is not the empty string, no
    [projectId]. *)
Definition kept_number (x : option number) : bool :=
  match x with
  | Some h => PrimFloat.Leibniz.eqb h 0%float || truthy_number h
  | None => true
  end.

Definition kept_deadline (x : nullable string) : bool :=
  match x with
  | value s => truthy_string s
  | _ => true
  end.

Fixpoint kept_by_cleaning (t : Task) : bool :=
  kept_number (hours t) && kept_number (costPerHour t)
  && kept_deadline (deadline t) && negb (is_set (projectId t))
  && forallb kept_by_cleaning (children t).


(** The assignment list of the node contains a user with the id. *)
Definition lists_user (userId : string) (t : Task) : bool :=
  match assignedTo t with
  | Some users =>
      if in_dec String.string_dec userId (map uid users) then true else false
  | None => false
  end.

(** The node, annotated with the id of the project that owns it. *)
Definition annotated (owner : string) (t : Task) : Task :=
  mkTask (id t) (name t) (description t) (hours t) (costPerHour t)
         (assignedTo t) (deadline t) (completed t) (children t) (Some owner).

End TaskTree.

Module ItemTree.
Import DeliverableStore.

Fixpoint resolve (root : list Item) (path : list string) : option Item :=
  match path with
  | [] => None
  | seg :: rest =>
      match find (fun n => String.eqb (id n) seg) root with
      | None => None
      | Some n =>
          match rest with
          | [] => Some n
          | _ :: _ => resolve (subTasks n) rest
          end
      end
  end.

Definition candidates (root : list Item) (pre : list string)
  : option (list Item) :=
  match pre with
  | [] => Some root
  | _ :: _ => option_map subTasks (resolve root pre)
  end.

Fixpoint occurs_in (taskId : string) (t : Item) : bool :=
  String.eqb (id t) taskId || existsb (occurs_in taskId) (subTasks t).

Definition occurs (taskId : string) (items : list Item) : bool :=
  existsb (occurs_in taskId) items.

Fixpoint node_at (items : list Item) (pos : list nat) : option Item :=
  match pos with
  | [] => None
  | i :: rest =>
      match nth_error items i with
      | None => None
      | Some t =>
          match rest with
          | [] => Some t
          | _ :: _ => node_at (subTasks t) rest
          end
      end
  end.

Fixpoint scan_at (taskId : string) (items : list Item) (pos : list nat)
  : option Item :=
  match pos with
  | [] => None
  | i :: rest =>
      match nth_error items i with
      | None => None
      | Some t =>
          match rest with
          | [] => Some t
          | _ :: _ =>
              if String.eqb (id t) taskId then None
              else scan_at taskId (subTasks t) rest
          end
      end
  end.

(** The segments of a path that [deleteTaskFromItem] compares with the id
    it removes: every second one, from the second on ([filtered] says
    whether the list the next segment is looked up in went through the
    [filter]). *)
Fixpoint spared (taskId : string) (filtered : bool) (path : list string)
  : bool :=
  match path with
  | [] => true
  | seg :: rest =>
      (if filtered then negb (String.eqb seg taskId) else true)
      && spared taskId (negb filtered) rest
  end.

End ItemTree.

Module PathText.

(** The character occurs in the text. *)
Fixpoint has_char (c : Ascii.ascii) (s : string) : bool :=
  match s with
  | EmptyString => false
  | String a rest => Ascii.eqb a c || has_char c rest
  end.

(** An id that the path text can carry: neither separator occurs in it. *)
Definition plain (s : string) : bool :=
  negb (has_char "/"%char s) && negb (has_char ":"%char s).

End PathText.

(** ** Sample trees *)

Module Samples.

(** A task with the given id, name and children, nothing else set. *)
Definition task (i n : string) (ch : list TaskStore.Task) : TaskStore.Task :=
  TaskStore.mkTask i n "" None None None undefined false ch None.

Definition project (ts : list TaskStore.Task) : TaskStore.Project :=
  TaskStore.mkProject "p1" "p-000001" "Hull survey" ""
    (TaskStore.mkCustomer "" "" "") ts "2024-01-01T00:00:00.000Z".

(** A deliverable or sub-task with the given id, name and sub-tasks. *)
Definition item (i n : string) (st : list DeliverableStore.Item)
  : DeliverableStore.Item :=
  DeliverableStore.mkItem i n None None None None None false st.

Definition iproject (ds : list DeliverableStore.Item)
  : DeliverableStore.Project :=
  DeliverableStore.mkProject "p1" "p-000001" "Hull survey" ""
    (DeliverableStore.mkCustomer "" "" "") ds "2024-01-01T00:00:00.000Z".

(** The form data of a new task named [n]. *)
Definition taskData (n : string) : TaskStore.TaskData :=
  TaskStore.mkTaskData n "" None None None undefined None.

(** The tree of the specification's scenarios: ["a"] with the child ["b"]. *)
Definition a_b : list TaskStore.Task := [task "a" "Hull" [task "b" "Keel" []]].

(** Two branches, each holding a node with the id ["dup"]. *)
Definition two_branches : list TaskStore.Task :=
  [task "a" "Hull" [task "dup" "Plates" []];
   task "b" "Deck" [task "dup" "Rails" []]].

Definition two_deliverables : list DeliverableStore.Item :=
  [item "d1" "Drawings" [item "dup" "Plans" []];
   item "d2" "Manuals" [item "dup" "Index" []]].

(** A task all of whose persisted fields are set, with the given deadline
    and [projectId]. *)
Definition filled (dl : nullable string) (pj : option string) : TaskStore.Task :=
  TaskStore.mkTask "t1" "Survey" "Hull survey" (Some 8%float) (Some 40%float)
    (Some [TaskStore.mkUser "u1" "Ada" "ada@example.org"]) dl false [] pj.

End Samples.

(** ** Path resolution *)

Section PathResolution.
Import TaskStore.

Lemma getTaskByPath_loop_resolve :
  forall path current items,
    getTaskByPath_loop current items path =
    match path with
    | [] => current
    | _ :: _ => TaskTree.resolve items (map pid path)
    end.
Proof.
  induction path as [|p rest IH]; intros current items; [reflexivity|].
  simpl. destruct (find _ items) as [found|]; [|reflexivity].
  rewrite IH. destruct rest; reflexivity.
Qed.

Lemma getTaskByPath_in_resolve :
  forall project path,
    getTaskByPath_in (Some project) path =
    TaskTree.resolve (tasks project) (map pid path).
Proof.
  intros project path. unfold getTaskByPath_in.
  rewrite getTaskByPath_loop_resolve. destruct path; reflexivity.
Qed.

Lemma resolve_app_candidates :
  forall pre root seg post,
    TaskTree.resolve root (pre ++ seg :: post) =
    match TaskTree.candidates root pre with
    | None => None
    | Some items => TaskTree.resolve items (seg :: post)
    end.
Proof.
  induction pre as [|a pre IH]; intros root seg post; [reflexivity|].
  unfold TaskTree.candidates.
  rewrite <- app_comm_cons. cbn [TaskTree.resolve].
  destruct (find _ root) as [n|]; [|reflexivity].
  destruct pre as [|b pre]; [reflexivity|].
  cbn [option_map].
  specialize (IH (children n) seg post).
  rewrite <- app_comm_cons in IH |- *.
  rewrite IH. unfold TaskTree.candidates.
  destruct (TaskTree.resolve (children n) (b :: pre)); reflexivity.
Qed.

Lemma getTaskByPath_fails_at :
  forall root pre seg post items,
    TaskTree.candidates root pre = Some items ->
    find (fun n => String.eqb (id n) seg) items = None ->
    TaskTree.resolve root (pre ++ seg :: post) = None.
Proof.
  intros root pre seg post items Hc Hf.
  rewrite resolve_app_candidates, Hc. cbn [TaskTree.resolve].
  rewrite Hf. reflexivity.
Qed.

End PathResolution.

Section ItemPathResolution.
Import DeliverableStore.

Lemma getItemByPath_loop_below :
  forall project path i c,
    getItemByPath_loop project (S i) (Some c) path =
    match path with
    | [] => Some c
    | _ :: _ => ItemTree.resolve (subTasks c) (map pid path)
    end.
Proof.
  intros project. induction path as [|p rest IH]; intros i c; [reflexivity|].
  cbn [getItemByPath_loop Nat.eqb andb map ItemTree.resolve].
  destruct (find _ (subTasks c)) as [t|]; [|reflexivity].
  rewrite IH. destruct rest; reflexivity.
Qed.

Lemma getItemByPath_in_resolve :
  forall project path,
    getItemByPath_in (Some project) path =
    match path with
    | [] => None
    | p :: _ =>
        if is_deliverable (ptype p)
        then ItemTree.resolve (deliverables project) (map pid path)
        else None
    end.
Proof.
  intros project [|p rest]; [reflexivity|].
  unfold getItemByPath_in.
  cbn [getItemByPath_loop Nat.eqb andb map ItemTree.resolve].
  destruct (is_deliverable (ptype p)); [|reflexivity].
  destruct (find _ (deliverables project)) as [d|]; [|reflexivity].
  rewrite getItemByPath_loop_below. destruct rest; reflexivity.
Qed.

Lemma item_resolve_app_candidates :
  forall pre root seg post,
    ItemTree.resolve root (pre ++ seg :: post) =
    match ItemTree.candidates root pre with
    | None => None
    | Some items => ItemTree.resolve items (seg :: post)
    end.
Proof.
  induction pre as [|a pre IH]; intros root seg post; [reflexivity|].
  unfold ItemTree.candidates.
  rewrite <- app_comm_cons. cbn [ItemTree.resolve].
  destruct (find _ root) as [n|]; [|reflexivity].
  destruct pre as [|b pre]; [reflexivity|].
  cbn [option_map].
  specialize (IH (subTasks n) seg post).
  rewrite <- app_comm_cons in IH |- *.
  rewrite IH. unfold ItemTree.candidates.
  destruct (ItemTree.resolve (subTasks n) (b :: pre)); reflexivity.
Qed.

Lemma getItemByPath_fails_at :
  forall root pre seg post items,
    ItemTree.candidates root pre = Some items ->
    find (fun n => String.eqb (id n) seg) items = None ->
    ItemTree.resolve root (pre ++ seg :: post) = None.
Proof.
  intros root pre seg post items Hc Hf.
  rewrite item_resolve_app_candidates, Hc. cbn [ItemTree.resolve].
  rewrite Hf. reflexivity.
Qed.

End ItemPathResolution.

(** C1, as stated, fails for [getItemByPath]: the path
    [[{type: 'subtask', id: 'd1'}]] names, by its ids, the deliverable
    ['d1'], and the resolver returns [null]. *)
Lemma getItemByPath_subtask_first :
  DeliverableStore.getItemByPath
    [Samples.iproject [Samples.item "d1" "Drawings" []]] "p1"
    [DeliverableStore.mkPathItem DeliverableStore.subtask "d1"] = None
  /\ ItemTree.resolve [Samples.item "d1" "Drawings" []] ["d1"]
     = Some (Samples.item "d1" "Drawings" []).
Proof. split; reflexivity. Qed.

(** C1 (amended). Path resolution is a total function into [option] (a
    missing id gives [None], never an exception).  [getTaskByPath] returns
    the node reached by matching each segment's id in the current candidate
    list and descending into its children, and [None] when the project is
    absent; [getItemByPath] does the same when the first segment is tagged
    ['deliverable'] and returns [None] for every path whose first segment is
    tagged ['subtask'].  Both return [None] for the empty path, and for a
    path one of whose segments matches nothing in its candidate list. *)
Theorem path_resolution :
  forall (db : TaskStore.Firestore) (idb : DeliverableStore.Firestore)
         (projectId : string) (path : list TaskStore.PathItem)
         (ipath : list DeliverableStore.PathItem),
    TaskStore.getTaskByPath db projectId path =
      match TaskStore.fetchProject db projectId with
      | None => None
      | Some project =>
          TaskTree.resolve (TaskStore.tasks project) (map TaskStore.pid path)
      end
    /\ TaskStore.getTaskByPath db projectId [] = None
    /\ DeliverableStore.getItemByPath idb projectId ipath =
      match DeliverableStore.fetchProject idb projectId, ipath with
      | Some project, p :: _ =>
          if DeliverableStore.is_deliverable (DeliverableStore.ptype p)
          then ItemTree.resolve (DeliverableStore.deliverables project)
                 (map DeliverableStore.pid ipath)
          else None
      | _, _ => None
      end
    /\ DeliverableStore.getItemByPath idb projectId [] = None
    /\ (forall project pre seg post items,
          TaskTree.candidates (TaskStore.tasks project)
            (map TaskStore.pid pre) = Some items ->
          find (fun n => String.eqb (TaskStore.id n) (TaskStore.pid seg)) items
          = None ->
          TaskStore.getTaskByPath_in (Some project) (pre ++ seg :: post) = None)
    /\ (forall project pre seg post items,
          ItemTree.candidates (DeliverableStore.deliverables project)
            (map DeliverableStore.pid pre) = Some items ->
          find (fun n => String.eqb (DeliverableStore.id n)
                           (DeliverableStore.pid seg)) items
          = None ->
          DeliverableStore.getItemByPath_in (Some project) (pre ++ seg :: post)
          = None).
Proof.
  intros db idb projectId path ipath.
  split; [|split; [|split; [|split; [|split]]]].
  - unfold TaskStore.getTaskByPath.
    destruct (TaskStore.fetchProject db projectId) as [project|];
      [apply getTaskByPath_in_resolve | reflexivity].
  - unfold TaskStore.getTaskByPath.
    destruct (TaskStore.fetchProject db projectId); reflexivity.
  - unfold DeliverableStore.getItemByPath.
    destruct (DeliverableStore.fetchProject idb projectId) as [project|].
    + rewrite getItemByPath_in_resolve. destruct ipath; reflexivity.
    + reflexivity.
  - unfold DeliverableStore.getItemByPath.
    destruct (DeliverableStore.fetchProject idb projectId); reflexivity.
  - intros project pre seg post items Hc Hf.
    rewrite getTaskByPath_in_resolve, map_app. cbn [map].
    exact (getTaskByPath_fails_at _ _ _ _ _ Hc Hf).
  - intros project pre seg post items Hc Hf.
    rewrite getItemByPath_in_resolve.
    destruct (pre ++ seg :: post) as [|p l] eqn:E; [reflexivity|].
    destruct (DeliverableStore.is_deliverable (DeliverableStore.ptype p));
      [|reflexivity].
    rewrite <- E, map_app. cbn [map].
    exact (getItemByPath_fails_at _ _ _ _ _ Hc Hf).
Qed.

Lemma path_resolution_witness :
  TaskStore.getTaskByPath_in (Some (Samples.project Samples.a_b))
    ([TaskStore.mkPathItem "a"] ++ TaskStore.mkPathItem "z"
       :: [TaskStore.mkPathItem "b"]) = None.
Proof.
  exact (proj1 (proj2 (proj2 (proj2 (proj2
           (path_resolution [] [] "p1" [] [])))))
           (Samples.project Samples.a_b)
           [TaskStore.mkPathItem "a"] (TaskStore.mkPathItem "z")
           [TaskStore.mkPathItem "b"] [Samples.task "b" "Keel" []]
           eq_refl eq_refl).
Defined.

(** ** List facts *)

Section ListFacts.
Context {A : Type}.

Lemma map_fixed (f : A -> A) (l : list A) :
  Forall (fun x => f x = x) l -> map f l = l.
Proof.
  induction 1 as [|x l Hx _ IH]; [reflexivity|].
  simpl. rewrite Hx, IH. reflexivity.
Qed.

Lemma existsb_false_Forall (f : A -> bool) (l : list A) :
  existsb f l = false -> Forall (fun x => f x = false) l.
Proof.
  induction l as [|x l IH]; simpl; intros H; [constructor|].
  apply orb_false_iff in H as [Hx Hl]. constructor; auto.
Qed.

Lemma Forall_existsb_false (f : A -> bool) (l : list A) :
  Forall (fun x => f x = false) l -> existsb f l = false.
Proof.
  induction 1 as [|x l Hx _ IH]; [reflexivity|].
  simpl. rewrite Hx, IH. reflexivity.
Qed.

Lemma filter_all (f : A -> bool) (l : list A) :
  Forall (fun x => f x = true) l -> filter f l = l.
Proof.
  induction 1 as [|x l Hx _ IH]; [reflexivity|].
  simpl. rewrite Hx, IH. reflexivity.
Qed.

Lemma Forall_impl2 (P Q R : A -> Prop) (l : list A) :
  (forall x, P x -> Q x -> R x) -> Forall P l -> Forall Q l -> Forall R l.
Proof.
  intros H HP. induction HP as [|x l Hx _ IH]; intros HQ; [constructor|].
  inversion HQ; subst. constructor; auto.
Qed.

Lemma has_items_false (l : list A) : has_items l = false -> l = [].
Proof. destruct l; [reflexivity | discriminate]. Qed.

End ListFacts.

(** ** Deletion *)

Section TaskDeletion.
Import TaskStore.
Variable taskId : string.

Lemma with_children_same (t : Task) : with_children t (children t) = t.
Proof. destruct t; reflexivity. Qed.

Lemma with_tasks_same (p : Project) : with_tasks p (tasks p) = p.
Proof. destruct p; reflexivity. Qed.

(** The callback as the source writes it, the recursive call on the
    children being [deleteNestedTask] itself. *)
Lemma deleteNestedTask_after_eq (task : Task) :
  deleteNestedTask_after taskId task =
  if String.eqb (id task) taskId then task
  else if has_items (children task)
       then with_children task (deleteNestedTask taskId (children task))
       else task.
Proof. destruct task; reflexivity. Qed.

Lemma deleteNestedTask_after_id (task : Task) :
  id (deleteNestedTask_after taskId task) = id task.
Proof.
  rewrite deleteNestedTask_after_eq.
  destruct (String.eqb (id task) taskId); [reflexivity|].
  destruct (has_items (children task)); reflexivity.
Qed.

Lemma deleteNestedTask_after_children (task : Task) :
  String.eqb (id task) taskId = false ->
  deleteNestedTask_after taskId task =
  with_children task (deleteNestedTask taskId (children task)).
Proof.
  intros H. rewrite deleteNestedTask_after_eq, H.
  destruct (has_items (children task)) eqn:E; [reflexivity|].
  apply has_items_false in E. rewrite E.
  change (deleteNestedTask taskId []) with (@nil Task).
  rewrite <- E. symmetry. apply with_children_same.
Qed.

Lemma occurs_in_false (t : Task) :
  TaskTree.occurs_in taskId t = false ->
  String.eqb (id t) taskId = false /\ TaskTree.occurs taskId (children t) = false.
Proof.
  destruct t; simpl. intros H. apply orb_false_iff in H. exact H.
Qed.

Lemma deleteNestedTask_after_absent (t : Task) :
  TaskTree.occurs_in taskId t = false -> deleteNestedTask_after taskId t = t.
Proof.
  induction t as [i n d h c a dl cp ch pj IH] using Task_ind.
  intros H. apply occurs_in_false in H as [Hid Hch]. simpl in Hid, Hch.
  rewrite deleteNestedTask_after_children by exact Hid.
  cbn [children]. unfold deleteNestedTask.
  apply existsb_false_Forall in Hch.
  assert (Hmap : map (deleteNestedTask_after taskId) ch = ch).
  { apply map_fixed. revert Hch. apply Forall_impl2 with (2 := IH). auto. }
  rewrite Hmap, filter_all; [reflexivity|].
  revert Hch. apply Forall_impl. intros x Hx.
  apply occurs_in_false in Hx as [Hx _].
  unfold deleteNestedTask_keep. rewrite Hx. reflexivity.
Qed.

Lemma deleteNestedTask_input_after_absent (tasks : list Task) :
  TaskTree.occurs taskId tasks = false ->
  deleteNestedTask_input_after taskId tasks = tasks.
Proof.
  intros H. apply existsb_false_Forall in H.
  apply map_fixed. revert H. apply Forall_impl.
  exact deleteNestedTask_after_absent.
Qed.

Lemma deleteNestedTask_absent (tasks : list Task) :
  TaskTree.occurs taskId tasks = false ->
  deleteNestedTask taskId tasks = tasks.
Proof.
  intros H. unfold deleteNestedTask.
  fold (deleteNestedTask_input_after taskId tasks).
  rewrite deleteNestedTask_input_after_absent by exact H.
  apply existsb_false_Forall in H. apply filter_all.
  revert H. apply Forall_impl. intros x Hx.
  apply occurs_in_false in Hx as [Hx _].
  unfold deleteNestedTask_keep. rewrite Hx. reflexivity.
Qed.

(** No node with the id is left, at any depth. *)
Lemma deleteNestedTask_after_clears (t : Task) :
  String.eqb (id t) taskId = false ->
  TaskTree.occurs_in taskId (deleteNestedTask_after taskId t) = false.
Proof.
  induction t as [i n d h c a dl cp ch pj IH] using Task_ind.
  intros Hid. rewrite deleteNestedTask_after_children by exact Hid.
  simpl in Hid. cbn [TaskTree.occurs_in with_children id children].
  rewrite Hid. cbn [orb]. unfold deleteNestedTask.
  apply Forall_existsb_false.
  induction IH as [|x l Hx _ IHl]; [constructor|].
  cbn [map filter]. unfold deleteNestedTask_keep at 1.
  rewrite deleteNestedTask_after_id.
  destruct (String.eqb (id x) taskId) eqn:E; cbn [negb]; [exact IHl|].
  constructor; [apply Hx; reflexivity | exact IHl].
Qed.

Lemma deleteNestedTask_clears (tasks : list Task) :
  TaskTree.occurs taskId (deleteNestedTask taskId tasks) = false.
Proof.
  unfold deleteNestedTask, TaskTree.occurs.
  apply Forall_existsb_false.
  induction tasks as [|x l IHl]; [constructor|].
  cbn [map filter]. unfold deleteNestedTask_keep at 1.
  rewrite deleteNestedTask_after_id.
  destruct (String.eqb (id x) taskId) eqn:E; cbn [negb]; [exact IHl|].
  constructor; [apply deleteNestedTask_after_clears; exact E | exact IHl].
Qed.

Lemma survivors_of_eq (t : Task) :
  TaskTree.survivors_of taskId t
  = if String.eqb (id t) taskId then []
    else t :: flat_map (TaskTree.survivors_of taskId) (children t).
Proof. destruct t; reflexivity. Qed.

Lemma preorder_of_eq (t : Task) :
  TaskTree.preorder_of t = t :: TaskTree.preorder (children t).
Proof. destruct t; reflexivity. Qed.

(** The nodes of the returned tree, in depth-first order, are the nodes of
    the input that are neither a node with the id nor below one, each as the
    callback left it (its children pruned). *)
Lemma preorder_pruned (l : list Task) :
  Forall (fun t =>
            String.eqb (id t) taskId = false ->
            TaskTree.preorder_of (deleteNestedTask_after taskId t)
            = map (deleteNestedTask_after taskId)
                  (TaskTree.survivors_of taskId t)) l ->
  TaskTree.preorder (deleteNestedTask taskId l)
  = map (deleteNestedTask_after taskId) (TaskTree.survivors taskId l).
Proof.
  unfold TaskTree.preorder, TaskTree.survivors, deleteNestedTask.
  induction 1 as [|x l Hx _ IHl]; [reflexivity|].
  cbn [map filter flat_map]. unfold deleteNestedTask_keep at 1.
  rewrite deleteNestedTask_after_id, map_app, <- IHl, survivors_of_eq.
  destruct (String.eqb (id x) taskId) eqn:E; cbn [negb].
  - reflexivity.
  - cbn [flat_map]. rewrite (Hx eq_refl), survivors_of_eq, E. reflexivity.
Qed.

Lemma preorder_deleteNestedTask_after (t : Task) :
  String.eqb (id t) taskId = false ->
  TaskTree.preorder_of (deleteNestedTask_after taskId t)
  = map (deleteNestedTask_after taskId) (TaskTree.survivors_of taskId t).
Proof.
  induction t as [i n d h c a dl cp ch pj IH] using Task_ind.
  intros Hid. rewrite survivors_of_eq, Hid. cbn [map].
  rewrite deleteNestedTask_after_children by exact Hid.
  rewrite preorder_of_eq. cbn [with_children children]. f_equal.
  apply preorder_pruned. exact IH.
Qed.

Lemma survivors_of_other (t : Task) :
  Forall (fun n => String.eqb (id n) taskId = false)
         (TaskTree.survivors_of taskId t).
Proof.
  induction t as [i n d h c a dl cp ch pj IH] using Task_ind.
  rewrite survivors_of_eq. cbn [id children].
  destruct (String.eqb i taskId) eqn:E; [constructor|].
  constructor; [exact E|].
  induction IH as [|x l Hx _ IHl]; [constructor|].
  cbn [flat_map]. apply Forall_app. split; assumption.
Qed.

Lemma preorder_deleteNestedTask (tasks : list Task) :
  TaskTree.preorder (deleteNestedTask taskId tasks)
  = map (fun n => with_children n (deleteNestedTask taskId (children n)))
        (TaskTree.survivors taskId tasks).
Proof.
  rewrite preorder_pruned.
  - apply map_ext_in. intros n Hn.
    apply deleteNestedTask_after_children.
    unfold TaskTree.survivors in Hn.
    apply in_flat_map in Hn as [t [_ Hn]].
    pose proof (survivors_of_other t) as F.
    rewrite Forall_forall in F. apply F. exact Hn.
  - apply Forall_forall. intros t _. apply preorder_deleteNestedTask_after.
Qed.

End TaskDeletion.

Section ItemDeletion.
Import DeliverableStore.
Variable taskId : string.

Lemma with_subTasks_same (t : Item) : with_subTasks t (subTasks t) = t.
Proof. destruct t; reflexivity. Qed.

Lemma with_deliverables_same (p : Project) :
  with_deliverables p (deliverables p) = p.
Proof. destruct p; reflexivity. Qed.

(** The callback as the source writes it: [filter], then [map] with the
    recursive call on each remaining sub-task's own sub-tasks. *)
Lemma deleteTaskFromItem_cb_eq (item : Item) :
  deleteTaskFromItem_cb taskId item =
  with_subTasks item
    (map (fun t => with_subTasks t (deleteTaskFromItem taskId (subTasks t)))
         (filter (fun t => negb (String.eqb (id t) taskId)) (subTasks item))).
Proof.
  destruct item as [i n d h c a dl cp st]. cbn [deleteTaskFromItem_cb subTasks].
  f_equal. induction st as [|t r IH]; [reflexivity|].
  cbn [filter]. destruct (negb (String.eqb (id t) taskId)).
  - cbn [map]. rewrite IH. reflexivity.
  - exact IH.
Qed.

Lemma item_occurs_in_false (t : Item) :
  ItemTree.occurs_in taskId t = false ->
  String.eqb (id t) taskId = false /\ ItemTree.occurs taskId (subTasks t) = false.
Proof.
  destruct t; simpl. intros H. apply orb_false_iff in H. exact H.
Qed.

Lemma deleteTaskFromItem_cb_absent (t : Item) :
  ItemTree.occurs_in taskId t = false ->
  deleteTaskFromItem_cb taskId t = t
  /\ deleteTaskFromItem taskId (subTasks t) = subTasks t.
Proof.
  induction t as [i n d h c a dl cp st IH] using Item_ind.
  intros H. apply item_occurs_in_false in H as [_ Hst].
  cbn [subTasks] in *. apply existsb_false_Forall in Hst.
  assert (Hall : Forall (fun t =>
            (String.eqb (id t) taskId = false
             /\ deleteTaskFromItem_cb taskId t = t)
            /\ deleteTaskFromItem taskId (subTasks t) = subTasks t) st).
  { revert Hst. apply Forall_impl2 with (2 := IH). intros x Hx Ho.
    destruct (Hx Ho) as [H1 H2].
    apply item_occurs_in_false in Ho as [Ho _]. auto. }
  split.
  - rewrite deleteTaskFromItem_cb_eq. cbn [subTasks].
    rewrite filter_all.
    + rewrite map_fixed; [reflexivity|].
      revert Hall. apply Forall_impl. intros x [_ Hx].
      rewrite Hx. apply with_subTasks_same.
    + revert Hall. apply Forall_impl. intros x [[Hx _] _].
      rewrite Hx. reflexivity.
  - unfold deleteTaskFromItem. apply map_fixed.
    revert Hall. apply Forall_impl. intros x [[_ Hx] _]. exact Hx.
Qed.

Lemma deleteTaskFromItem_absent (items : list Item) :
  ItemTree.occurs taskId items = false ->
  deleteTaskFromItem taskId items = items.
Proof.
  intros H. apply existsb_false_Forall in H.
  unfold deleteTaskFromItem. apply map_fixed.
  revert H. apply Forall_impl. intros x Hx.
  apply deleteTaskFromItem_cb_absent. exact Hx.
Qed.

(** After [deleteTaskFromItem] no item of the list has a direct sub-task
    with the id. *)
Lemma deleteTaskFromItem_direct (items : list Item) :
  forallb (fun d => forallb (fun t => negb (String.eqb (id t) taskId))
                            (subTasks d))
          (deleteTaskFromItem taskId items) = true.
Proof.
  unfold deleteTaskFromItem. apply forallb_forall. intros d Hd.
  apply in_map_iff in Hd as [item [Hd _]]. subst d.
  rewrite deleteTaskFromItem_cb_eq. cbn [subTasks with_subTasks].
  apply forallb_forall. intros t Ht.
  apply in_map_iff in Ht as [u [Ht Hu]]. subst t.
  apply filter_In in Hu as [_ Hu]. exact Hu.
Qed.

End ItemDeletion.

(** C6. Deleting an id that occurs nowhere in the tree returns the tree
    itself and raises nothing: [deleteNestedTask] returns its argument and
    leaves the argument's objects as they were, and [deleteTask] resolves
    having written the fetched document back; [deleteTaskFromItem] returns
    its argument, and [deleteSubTask] records no error. *)
Theorem delete_absent_id :
  forall (taskId : string),
    (forall tasks,
        TaskTree.occurs taskId tasks = false ->
        TaskStore.deleteNestedTask taskId tasks = tasks
        /\ TaskStore.deleteNestedTask_input_after taskId tasks = tasks)
    /\ (forall db projectId path project,
          TaskStore.fetchProject db projectId = Some project ->
          TaskTree.occurs taskId (TaskStore.tasks project) = false ->
          TaskStore.deleteTask db projectId path taskId
          = Ok (TaskStore.updateProject db projectId project))
    /\ (forall items,
          ItemTree.occurs taskId items = false ->
          DeliverableStore.deleteTaskFromItem taskId items = items)
    /\ (forall db projectId deliverableId project,
          DeliverableStore.fetchProject db projectId = Some project ->
          ItemTree.occurs taskId (DeliverableStore.deliverables project) = false ->
          DeliverableStore.deleteSubTask db projectId deliverableId taskId
          = (DeliverableStore.updateProject db projectId project, None)).
Proof.
  intros taskId. split; [|split; [|split]].
  - intros tasks H. split.
    + apply deleteNestedTask_absent. exact H.
    + apply deleteNestedTask_input_after_absent. exact H.
  - intros db projectId path project Hf H. unfold TaskStore.deleteTask.
    rewrite Hf, (deleteNestedTask_absent taskId _ H), with_tasks_same.
    reflexivity.
  - intros items H. apply deleteTaskFromItem_absent. exact H.
  - intros db projectId deliverableId project Hf H.
    unfold DeliverableStore.deleteSubTask.
    rewrite Hf, (deleteTaskFromItem_absent taskId _ H), with_deliverables_same.
    reflexivity.
Qed.

Lemma delete_absent_id_witness :
  (TaskStore.deleteNestedTask "z" Samples.a_b = Samples.a_b
   /\ TaskStore.deleteNestedTask_input_after "z" Samples.a_b = Samples.a_b)
  /\ DeliverableStore.deleteTaskFromItem "z"
       [Samples.item "d1" "Drawings" [Samples.item "s1" "Frames" []]]
     = [Samples.item "d1" "Drawings" [Samples.item "s1" "Frames" []]].
Proof.
  exact (conj
    (proj1 (delete_absent_id "z") Samples.a_b eq_refl)
    (proj1 (proj2 (proj2 (delete_absent_id "z")))
       [Samples.item "d1" "Drawings" [Samples.item "s1" "Frames" []]]
       eq_refl)).
Defined.

(** C3, as stated, fails: with the id ["dup"] in the branches ["a"] and
    ["b"], deleting ["dup"] with the path [[{id: 'a'}]] hands [updateProject]
    a tree from which the node below ["b"] is gone too; [deleteSubTask] does
    the same to the deliverable it was not called for. *)
Lemma deleteTask_reaches_other_branch :
  TaskStore.deleteTask [Samples.project Samples.two_branches] "p1"
    [TaskStore.mkPathItem "a"] "dup"
  = Ok (TaskStore.updateProject [Samples.project Samples.two_branches] "p1"
          (Samples.project
             [Samples.task "a" "Hull" []; Samples.task "b" "Deck" []]))
  /\ DeliverableStore.deleteSubTask
       [Samples.iproject Samples.two_deliverables] "p1" "d1" "dup"
     = ([Samples.iproject
           [Samples.item "d1" "Drawings" []; Samples.item "d2" "Manuals" []]],
        None).
Proof. split; reflexivity. Qed.

(** C3 (amended). Deletion goes by id over the whole tree and does not read
    the path.  [deleteTask] gives the same result whatever path is supplied;
    the tree it returns holds no node with the id, at any depth and in any
    branch, and its nodes are, in depth-first order, exactly the nodes of
    the input that are neither a node with the id nor below one, each with
    its own fields and its children pruned in the same way.
    [deleteSubTask] gives the same result whatever deliverable id is
    supplied, and in the list it returns no item has a direct sub-task with
    the id. *)
Theorem delete_ignores_path :
  forall (taskId projectId : string)
         (db : TaskStore.Firestore) (path path' : list TaskStore.PathItem)
         (tasks : list TaskStore.Task)
         (idb : DeliverableStore.Firestore) (deliverableId deliverableId' : string)
         (items : list DeliverableStore.Item),
    TaskStore.deleteTask db projectId path taskId
    = TaskStore.deleteTask db projectId path' taskId
    /\ TaskTree.occurs taskId (TaskStore.deleteNestedTask taskId tasks) = false
    /\ TaskTree.preorder (TaskStore.deleteNestedTask taskId tasks)
       = map (fun n =>
                TaskStore.with_children n
                  (TaskStore.deleteNestedTask taskId (TaskStore.children n)))
             (TaskTree.survivors taskId tasks)
    /\ DeliverableStore.deleteSubTask idb projectId deliverableId taskId
       = DeliverableStore.deleteSubTask idb projectId deliverableId' taskId
    /\ forallb
         (fun d =>
            forallb (fun t => negb (String.eqb (DeliverableStore.id t) taskId))
                    (DeliverableStore.subTasks d))
         (DeliverableStore.deleteTaskFromItem taskId items) = true.
Proof.
  intros. split; [reflexivity|].
  split; [apply deleteNestedTask_clears|].
  split; [apply preorder_deleteNestedTask|].
  split; [reflexivity|]. apply deleteTaskFromItem_direct.
Qed.

(** ** What the mutators leave alone *)

Section TaskFrame.
Import TaskStore.
Variables (taskId : string) (data : TaskPatch) (nt : Task).

Lemma deleteNestedTask_app (l1 l2 : list Task) :
  deleteNestedTask taskId (l1 ++ l2) =
  deleteNestedTask taskId l1 ++ deleteNestedTask taskId l2.
Proof. unfold deleteNestedTask. rewrite map_app, filter_app. reflexivity. Qed.

Lemma deleteNestedTask_cons_other (t : Task) (l : list Task) :
  String.eqb (id t) taskId = false ->
  deleteNestedTask taskId (t :: l) =
  with_children t (deleteNestedTask taskId (children t))
  :: deleteNestedTask taskId l.
Proof.
  intros H. unfold deleteNestedTask at 1. cbn [map filter].
  unfold deleteNestedTask_keep at 1.
  rewrite deleteNestedTask_after_id, H. cbn [negb].
  rewrite deleteNestedTask_after_children by exact H. reflexivity.
Qed.

Lemma deleteNestedTask_cons_match (t : Task) (l : list Task) :
  String.eqb (id t) taskId = true ->
  deleteNestedTask taskId (t :: l) = deleteNestedTask taskId l.
Proof.
  intros H. unfold deleteNestedTask at 1. cbn [map filter].
  unfold deleteNestedTask_keep at 1.
  rewrite deleteNestedTask_after_id, H. reflexivity.
Qed.

Lemma deleteNestedTask_cons_absent (t : Task) (l : list Task) :
  TaskTree.occurs_in taskId t = false ->
  deleteNestedTask taskId (t :: l) = t :: deleteNestedTask taskId l.
Proof.
  intros H. destruct (occurs_in_false taskId t H) as [Hid Hch].
  rewrite deleteNestedTask_cons_other by exact Hid.
  rewrite deleteNestedTask_absent by exact Hch.
  rewrite with_children_same. reflexivity.
Qed.

(** The callback of [updateNestedTask] as the source writes it. *)
Lemma updateNestedTask_cb_eq (task : Task) :
  updateNestedTask_cb taskId data task =
  if String.eqb (id task) taskId then patchTask data task
  else if has_items (children task)
       then with_children task (updateNestedTask taskId data (children task))
       else task.
Proof. destruct task; reflexivity. Qed.

Lemma updateNestedTask_cb_other (task : Task) :
  String.eqb (id task) taskId = false ->
  updateNestedTask_cb taskId data task =
  with_children task (updateNestedTask taskId data (children task)).
Proof.
  intros H. rewrite updateNestedTask_cb_eq, H.
  destruct (has_items (children task)) eqn:E; [reflexivity|].
  apply has_items_false in E. rewrite E.
  change (updateNestedTask taskId data []) with (@nil Task).
  rewrite <- E. symmetry. apply with_children_same.
Qed.

Lemma updateNestedTask_cb_match (task : Task) :
  String.eqb (id task) taskId = true ->
  updateNestedTask_cb taskId data task = patchTask data task.
Proof. intros H. rewrite updateNestedTask_cb_eq, H. reflexivity. Qed.

Lemma updateNestedTask_cb_absent (t : Task) :
  TaskTree.occurs_in taskId t = false -> updateNestedTask_cb taskId data t = t.
Proof.
  induction t as [i n d h c a dl cp ch pj IH] using Task_ind.
  intros H. apply occurs_in_false in H as [Hid Hch].
  rewrite updateNestedTask_cb_other by exact Hid.
  cbn [children] in *. unfold updateNestedTask.
  apply existsb_false_Forall in Hch.
  rewrite map_fixed; [reflexivity|].
  revert Hch. apply Forall_impl2 with (2 := IH). auto.
Qed.

Lemma updateNestedTask_absent (tasks : list Task) :
  TaskTree.occurs taskId tasks = false ->
  updateNestedTask taskId data tasks = tasks.
Proof.
  intros H. apply existsb_false_Forall in H. apply map_fixed.
  revert H. apply Forall_impl. exact updateNestedTask_cb_absent.
Qed.

Lemma updateNestedTask_app (l1 l2 : list Task) :
  updateNestedTask taskId data (l1 ++ l2) =
  updateNestedTask taskId data l1 ++ updateNestedTask taskId data l2.
Proof. apply map_app. Qed.

Lemma updateNestedTasks_app (l1 l2 : list Task) seg rest :
  updateNestedTasks nt (l1 ++ l2) (seg :: rest) =
  updateNestedTasks nt l1 (seg :: rest) ++ updateNestedTasks nt l2 (seg :: rest).
Proof. apply map_app. Qed.

Lemma updateNestedTasks_cons (t : Task) (l : list Task) seg rest :
  updateNestedTasks nt (t :: l) (seg :: rest) =
  (if String.eqb (id t) (pid seg)
   then with_children t (updateNestedTasks nt (children t) rest)
   else t) :: updateNestedTasks nt l (seg :: rest).
Proof. reflexivity. Qed.

End TaskFrame.

Section ItemFrame.
Import DeliverableStore.
Variable taskId : string.

Lemma deleteTaskFromItem_app (l1 l2 : list Item) :
  deleteTaskFromItem taskId (l1 ++ l2) =
  deleteTaskFromItem taskId l1 ++ deleteTaskFromItem taskId l2.
Proof. apply map_app. Qed.

End ItemFrame.

(** C2, as stated, fails on [Samples.two_branches].  Deleting ["dup"]
    returns a tree that differs from the input in both branches, not along
    one path; and once [deleteNestedTask] has returned, the objects of its
    argument are not what they were: the [children] of ["a"] and of ["b"]
    have been reassigned. *)
Lemma deleteNestedTask_changes_two_branches_and_its_input :
  TaskStore.deleteNestedTask "dup" Samples.two_branches
  = [Samples.task "a" "Hull" []; Samples.task "b" "Deck" []]
  /\ nth_error (TaskStore.deleteNestedTask "dup" Samples.two_branches) 0
     <> nth_error Samples.two_branches 0
  /\ nth_error (TaskStore.deleteNestedTask "dup" Samples.two_branches) 1
     <> nth_error Samples.two_branches 1
  /\ TaskStore.deleteNestedTask_input_after "dup" Samples.two_branches
     <> Samples.two_branches.
Proof.
  split; [reflexivity|].
  split; [|split]; cbv; intros H; discriminate H.
Qed.

(** C2 (amended). The insert and patch transformers are functions of the
    tree, and so is the tree [deleteNestedTask] returns.  The returned tree
    differs from the input only on the way to the nodes the operation
    matches, in every branch that holds one: a sibling in whose subtree the
    target id does not occur (for insert: whose id is not the path's next
    segment) is returned as it is, in its place; a node that is not itself
    the target changes in its [children] only, which are the operation's
    result on them; a matched node is dropped by delete, replaced by
    [patchTask] of itself by patch, and given the insert's result below it
    by insert, which appends the new task when the path is used up.
    [deleteTaskFromItem] returns an item in which the id does not occur as
    it is, in its place. *)
Theorem mutators_frame :
  forall (taskId : string) (data : TaskStore.TaskPatch) (nt : TaskStore.Task)
         (seg : TaskStore.PathItem) (rest : list TaskStore.PathItem)
         (l1 l2 : list TaskStore.Task) (t : TaskStore.Task)
         (i1 i2 : list DeliverableStore.Item) (item : DeliverableStore.Item),
    (TaskTree.occurs_in taskId t = false ->
       TaskStore.deleteNestedTask taskId (l1 ++ t :: l2)
       = TaskStore.deleteNestedTask taskId l1
         ++ t :: TaskStore.deleteNestedTask taskId l2
       /\ TaskStore.updateNestedTask taskId data (l1 ++ t :: l2)
          = TaskStore.updateNestedTask taskId data l1
            ++ t :: TaskStore.updateNestedTask taskId data l2)
    /\ (String.eqb (TaskStore.id t) (TaskStore.pid seg) = false ->
          TaskStore.updateNestedTasks nt (l1 ++ t :: l2) (seg :: rest)
          = TaskStore.updateNestedTasks nt l1 (seg :: rest)
            ++ t :: TaskStore.updateNestedTasks nt l2 (seg :: rest))
    /\ (String.eqb (TaskStore.id t) taskId = false ->
          TaskStore.deleteNestedTask taskId (l1 ++ t :: l2)
          = TaskStore.deleteNestedTask taskId l1
            ++ TaskStore.with_children t
                 (TaskStore.deleteNestedTask taskId (TaskStore.children t))
               :: TaskStore.deleteNestedTask taskId l2
          /\ TaskStore.updateNestedTask taskId data (l1 ++ t :: l2)
             = TaskStore.updateNestedTask taskId data l1
               ++ TaskStore.with_children t
                    (TaskStore.updateNestedTask taskId data
                       (TaskStore.children t))
                  :: TaskStore.updateNestedTask taskId data l2)
    /\ (String.eqb (TaskStore.id t) taskId = true ->
          TaskStore.deleteNestedTask taskId (l1 ++ t :: l2)
          = TaskStore.deleteNestedTask taskId l1
            ++ TaskStore.deleteNestedTask taskId l2
          /\ TaskStore.updateNestedTask taskId data (l1 ++ t :: l2)
             = TaskStore.updateNestedTask taskId data l1
               ++ TaskStore.patchTask data t
                  :: TaskStore.updateNestedTask taskId data l2)
    /\ (String.eqb (TaskStore.id t) (TaskStore.pid seg) = true ->
          TaskStore.updateNestedTasks nt (l1 ++ t :: l2) (seg :: rest)
          = TaskStore.updateNestedTasks nt l1 (seg :: rest)
            ++ TaskStore.with_children t
                 (TaskStore.updateNestedTasks nt (TaskStore.children t) rest)
               :: TaskStore.updateNestedTasks nt l2 (seg :: rest))
    /\ TaskStore.updateNestedTasks nt l1 [] = l1 ++ [nt]
    /\ (ItemTree.occurs_in taskId item = false ->
          DeliverableStore.deleteTaskFromItem taskId (i1 ++ item :: i2)
          = DeliverableStore.deleteTaskFromItem taskId i1
            ++ item :: DeliverableStore.deleteTaskFromItem taskId i2).
Proof.
  intros taskId data nt seg rest l1 l2 t i1 i2 item.
  split; [|split; [|split; [|split; [|split; [|split]]]]].
  - intros H. split.
    + rewrite deleteNestedTask_app, deleteNestedTask_cons_absent by exact H.
      reflexivity.
    + rewrite updateNestedTask_app. unfold TaskStore.updateNestedTask at 2.
      cbn [map]. rewrite updateNestedTask_cb_absent by exact H. reflexivity.
  - intros H. rewrite updateNestedTasks_app, updateNestedTasks_cons, H.
    reflexivity.
  - intros H. split.
    + rewrite deleteNestedTask_app, deleteNestedTask_cons_other by exact H.
      reflexivity.
    + rewrite updateNestedTask_app. unfold TaskStore.updateNestedTask at 2.
      cbn [map]. rewrite updateNestedTask_cb_other by exact H. reflexivity.
  - intros H. split.
    + rewrite deleteNestedTask_app, deleteNestedTask_cons_match by exact H.
      reflexivity.
    + rewrite updateNestedTask_app. unfold TaskStore.updateNestedTask at 2.
      cbn [map]. rewrite updateNestedTask_cb_match by exact H. reflexivity.
  - intros H. rewrite updateNestedTasks_app, updateNestedTasks_cons, H.
    reflexivity.
  - reflexivity.
  - intros H. rewrite deleteTaskFromItem_app.
    unfold DeliverableStore.deleteTaskFromItem at 2. cbn [map].
    destruct (deleteTaskFromItem_cb_absent taskId item H) as [E _].
    rewrite E. reflexivity.
Qed.

Lemma mutators_frame_witness :
  TaskStore.deleteNestedTask "b"
    ([Samples.task "a" "Hull" [Samples.task "b" "Keel" []]]
       ++ Samples.task "c" "Deck" [Samples.task "d" "Rails" []] :: [])
  = TaskStore.deleteNestedTask "b"
      [Samples.task "a" "Hull" [Samples.task "b" "Keel" []]]
    ++ Samples.task "c" "Deck" [Samples.task "d" "Rails" []]
       :: TaskStore.deleteNestedTask "b" [].
Proof.
  exact (proj1 (proj1
    (mutators_frame "b" (TaskStore.onlyCompleted true)
       (Samples.task "n" "New" []) (TaskStore.mkPathItem "a") []
       [Samples.task "a" "Hull" [Samples.task "b" "Keel" []]] []
       (Samples.task "c" "Deck" [Samples.task "d" "Rails" []])
       [] [] (Samples.item "d1" "Drawings" [])) eq_refl)).
Defined.

(** ** Insertion *)

Section TaskInsertion.
Import TaskStore.

Lemma or_string_empty (s : string) : or_string s "" = s.
Proof. destruct s; reflexivity. Qed.

Lemma find_map_same_id (f : Task -> Task) (seg : string) (l : list Task) :
  (forall x, id (f x) = id x) ->
  find (fun n => String.eqb (id n) seg) (map f l) =
  option_map f (find (fun n => String.eqb (id n) seg) l).
Proof.
  intros Hf. induction l as [|x l IH]; [reflexivity|].
  cbn [map find]. rewrite Hf.
  destruct (String.eqb (id x) seg); [reflexivity | exact IH].
Qed.

Lemma find_snoc (f : Task -> bool) (l : list Task) (x : Task) :
  find f (l ++ [x]) =
  match find f l with
  | Some y => Some y
  | None => if f x then Some x else None
  end.
Proof.
  induction l as [|y l IH]; [reflexivity|].
  cbn [app find]. destruct (f y); [reflexivity | exact IH].
Qed.

Variable nt : Task.

(** The step of [updateNestedTasks]' [map] preserves ids. *)
Lemma updateNestedTasks_step_id seg rest (t : Task) :
  id (if String.eqb (id t) seg
      then with_children t (updateNestedTasks nt (children t) rest)
      else t) = id t.
Proof. destruct (String.eqb (id t) seg); reflexivity. Qed.

Lemma resolve_after_insert :
  forall path tasks n,
    TaskTree.resolve tasks (map pid path) = Some n ->
    TaskTree.resolve (updateNestedTasks nt tasks path) (map pid path)
    = Some (with_children n (children n ++ [nt])).
Proof.
  induction path as [|seg rest IH]; intros tasks n H; [discriminate H|].
  cbn [map TaskTree.resolve updateNestedTasks] in *.
  rewrite (find_map_same_id
             (fun task =>
                if String.eqb (id task) (pid seg)
                then with_children task
                       (updateNestedTasks nt (children task) rest)
                else task)).
  2: { intros x. apply updateNestedTasks_step_id. }
  destruct (find _ tasks) as [m|] eqn:Hm; [|discriminate H].
  apply find_some in Hm as [_ Hid]. cbn [option_map]. rewrite Hid.
  destruct rest as [|r rs].
  - injection H as <-. reflexivity.
  - cbn [map] in *. cbn [with_children children]. apply IH. exact H.
Qed.

Lemma resolve_inserted :
  forall path tasks n,
    TaskTree.resolve tasks (map pid path) = Some n ->
    find (fun c => String.eqb (id c) (id nt)) (children n) = None ->
    TaskTree.resolve (updateNestedTasks nt tasks path)
      (map pid (path ++ [mkPathItem (id nt)])) = Some nt.
Proof.
  intros path tasks n H Hfresh.
  rewrite map_app. cbn [map pid].
  rewrite resolve_app_candidates. unfold TaskTree.candidates.
  destruct path as [|seg rest]; [discriminate H|].
  cbn [map] in *. rewrite <- (map_cons pid seg rest).
  rewrite (resolve_after_insert (seg :: rest) tasks n) by exact H.
  cbn [option_map with_children children TaskTree.resolve].
  rewrite find_snoc, Hfresh, String.eqb_refl. reflexivity.
Qed.

(** A path with no match, in a tree whose siblings have distinct ids, leaves
    the tree as it is. *)
Lemma find_unique (seg : string) (l : list Task) (x : Task) :
  TaskTree.distinct (map id l) = true ->
  In x l -> String.eqb (id x) seg = true ->
  find (fun n => String.eqb (id n) seg) l = Some x.
Proof.
  induction l as [|y l IH]; intros Hd Hin Hx; [destruct Hin|].
  cbn [map TaskTree.distinct] in Hd. apply andb_true_iff in Hd as [Hy Hd].
  cbn [find]. destruct Hin as [->|Hin].
  - rewrite Hx. reflexivity.
  - destruct (String.eqb (id y) seg) eqn:E; [|apply IH; assumption].
    exfalso. apply negb_true_iff in Hy.
    apply String.eqb_eq in E, Hx.
    assert (Hex : existsb (String.eqb (id y)) (map id l) = true).
    { apply existsb_exists. exists (id x). split.
      - apply in_map. exact Hin.
      - apply String.eqb_eq. congruence. }
    congruence.
Qed.

Lemma siblings_unique_in_children (t : Task) :
  TaskTree.siblings_unique_in t = TaskTree.siblings_unique (children t).
Proof. destruct t; reflexivity. Qed.

Lemma updateNestedTasks_unresolved :
  forall path tasks,
    path <> [] ->
    TaskTree.resolve tasks (map pid path) = None ->
    TaskTree.siblings_unique tasks = true ->
    updateNestedTasks nt tasks path = tasks.
Proof.
  induction path as [|seg rest IH]; intros tasks Hne Hres Hu; [congruence|].
  cbn [updateNestedTasks]. apply map_fixed. apply Forall_forall.
  intros x Hin. destruct (String.eqb (id x) (pid seg)) eqn:Hx; [|reflexivity].
  unfold TaskTree.siblings_unique in Hu. apply andb_true_iff in Hu as [Hd Hall].
  pose proof (find_unique (pid seg) tasks x Hd Hin Hx) as Hf.
  cbn [map TaskTree.resolve] in Hres. rewrite Hf in Hres.
  destruct rest as [|r rs]; [discriminate Hres|].
  rewrite IH.
  - apply with_children_same.
  - discriminate.
  - exact Hres.
  - rewrite <- siblings_unique_in_children.
    rewrite forallb_forall in Hall. apply Hall. exact Hin.
Qed.

End TaskInsertion.

Section Persistence.
Import TaskStore.

Lemma cleanTask_children (t : Task) :
  children (cleanTask t) = cleanTasks (children t).
Proof. destruct t; reflexivity. Qed.

Lemma cleanTask_id (t : Task) : id (cleanTask t) = id t.
Proof. destruct t; reflexivity. Qed.

(** Resolution and cleaning commute. *)
Lemma resolve_cleanTasks :
  forall path tasks,
    TaskTree.resolve (cleanTasks tasks) path =
    option_map cleanTask (TaskTree.resolve tasks path).
Proof.
  induction path as [|seg rest IH]; intros tasks; [reflexivity|].
  cbn [TaskTree.resolve]. unfold cleanTasks at 1.
  rewrite find_map_same_id by exact cleanTask_id.
  destruct (find _ tasks) as [n|]; [|reflexivity].
  cbn [option_map]. destruct rest as [|r rs]; [reflexivity|].
  rewrite cleanTask_children. apply IH.
Qed.

(** [updateProject] followed by [fetchProject] of the same id. *)
Lemma fetchProject_updateProject (db : Firestore) (i : string) (pd : Project) :
  fetchProject (updateProject db i pd) i =
  option_map (fun p => updateDoc p (cleanProjectData pd)) (fetchProject db i).
Proof.
  unfold fetchProject, updateProject.
  induction db as [|p db IH]; [reflexivity|].
  cbn [map find]. destruct (String.eqb (docId p) i) eqn:E.
  - cbn [updateDoc docId]. rewrite E. reflexivity.
  - rewrite E. exact IH.
Qed.

(** What [getTaskByPath] reads once [updateProject] has written the
    document: the cleaned tree. *)
Lemma getTaskByPath_updateProject
      (db : Firestore) (i : string) (p pd : Project) (path : list PathItem) :
  fetchProject db i = Some p ->
  getTaskByPath (updateProject db i pd) i path =
  option_map cleanTask (TaskTree.resolve (tasks pd) (map pid path)).
Proof.
  intros Hf. unfold getTaskByPath.
  rewrite fetchProject_updateProject, Hf. cbn [option_map].
  rewrite getTaskByPath_in_resolve. cbn [updateDoc tasks cleanProjectData cd_tasks].
  apply resolve_cleanTasks.
Qed.

(** Through the store: [addTask] under a path that resolves, then
    [getTaskByPath] of the extended path, reads the new task as
    [updateProject] cleaned it. *)
Lemma addTask_then_getTaskByPath
      (db : Firestore) (i : string) (p : Project) (path : list PathItem)
      (n : Task) (taskData : TaskData) (uuid : string) :
  fetchProject db i = Some p ->
  getTaskByPath db i path = Some n ->
  find (fun c => String.eqb (id c) uuid) (children n) = None ->
  exists db',
    addTask db i path taskData uuid = Ok db'
    /\ getTaskByPath db' i (path ++ [mkPathItem uuid])
       = Some (cleanTask (newTask taskData uuid)).
Proof.
  intros Hf Hn Hfresh. unfold addTask. rewrite Hf.
  eexists. split; [reflexivity|].
  rewrite getTaskByPath_updateProject with (p := p) by exact Hf.
  unfold getTaskByPath in Hn. rewrite Hf, getTaskByPath_in_resolve in Hn.
  destruct path as [|seg rest]; [discriminate Hn|].
  cbn [with_tasks tasks addTask_updatedTasks].
  pose proof (resolve_inserted (newTask taskData uuid) (seg :: rest)
                (tasks p) n Hn Hfresh) as R.
  change (id (newTask taskData uuid)) with uuid in R.
  rewrite R. reflexivity.
Qed.

(** [addTask] with the empty path appends to the top-level list. *)
Lemma addTask_at_root_then_getTaskByPath
      (db : Firestore) (i : string) (p : Project) (taskData : TaskData)
      (uuid : string) :
  fetchProject db i = Some p ->
  find (fun c => String.eqb (id c) uuid) (tasks p) = None ->
  getTaskByPath
    (updateProject db i
       (with_tasks p (addTask_updatedTasks p [] (newTask taskData uuid))))
    i [mkPathItem uuid]
  = Some (cleanTask (newTask taskData uuid)).
Proof.
  intros Hf Hfresh.
  rewrite (getTaskByPath_updateProject db i p _ _ Hf).
  cbn [addTask_updatedTasks with_tasks tasks map pid TaskTree.resolve].
  rewrite find_snoc, Hfresh.
  cbn [newTask id]. rewrite String.eqb_refl. reflexivity.
Qed.



End Persistence.

(** C4, as stated, fails: the path [[{id: 'ghost'}]] resolves to nothing in
    the tree [Samples.a_b], and [addTask] neither rejects nor changes the
    tree; it resolves, having written the fetched document back. *)
Lemma addTask_unresolved_path_is_silent :
  TaskStore.getTaskByPath [Samples.project Samples.a_b] "p1"
    [TaskStore.mkPathItem "ghost"] = None
  /\ TaskStore.addTask [Samples.project Samples.a_b] "p1"
       [TaskStore.mkPathItem "ghost"] (Samples.taskData "X") "u1"
     = Ok (TaskStore.updateProject [Samples.project Samples.a_b] "p1"
             (Samples.project Samples.a_b)).
Proof. split; reflexivity. Qed.

(** C4 (amended). For a project that exists, a non-empty path that fails to
    resolve, and a tree in which no two siblings share an id, [addTask]
    raises no error: it creates no structure, the tree it computes is the
    input tree, and it resolves after writing the fetched document back. *)
Theorem addTask_unresolved_path :
  forall (db : TaskStore.Firestore) (projectId : string)
         (project : TaskStore.Project) (path : list TaskStore.PathItem)
         (taskData : TaskStore.TaskData) (uuid : string),
    TaskStore.fetchProject db projectId = Some project ->
    path <> [] ->
    TaskStore.getTaskByPath db projectId path = None ->
    TaskTree.siblings_unique (TaskStore.tasks project) = true ->
    TaskStore.addTask_updatedTasks project path
      (TaskStore.newTask taskData uuid) = TaskStore.tasks project
    /\ TaskStore.addTask db projectId path taskData uuid
       = Ok (TaskStore.updateProject db projectId project).
Proof.
  intros db projectId project path taskData uuid Hf Hne Hres Hu.
  unfold TaskStore.getTaskByPath in Hres.
  rewrite Hf, getTaskByPath_in_resolve in Hres.
  assert (E : TaskStore.addTask_updatedTasks project path
                (TaskStore.newTask taskData uuid) = TaskStore.tasks project).
  { destruct path as [|seg rest]; [congruence|].
    cbn [TaskStore.addTask_updatedTasks].
    apply updateNestedTasks_unresolved; assumption. }
  split; [exact E|].
  unfold TaskStore.addTask. rewrite Hf, E, with_tasks_same. reflexivity.
Qed.

Lemma addTask_unresolved_path_witness :
  TaskStore.addTask [Samples.project Samples.a_b] "p1"
    [TaskStore.mkPathItem "a"; TaskStore.mkPathItem "ghost"]
    (Samples.taskData "X") "u1"
  = Ok (TaskStore.updateProject [Samples.project Samples.a_b] "p1"
          (Samples.project Samples.a_b)).
Proof.
  refine (proj2 (addTask_unresolved_path [Samples.project Samples.a_b] "p1"
                   (Samples.project Samples.a_b)
                   [TaskStore.mkPathItem "a"; TaskStore.mkPathItem "ghost"]
                   (Samples.taskData "X") "u1" eq_refl _ eq_refl eq_refl)).
  discriminate.
Defined.

(** ** Patching *)

Section TaskPatching.
Import TaskStore.
Variables (taskId : string) (data : TaskPatch).

Lemma updateNestedTask_cb_children (t : Task) :
  String.eqb (id t) taskId = false ->
  children (updateNestedTask_cb taskId data t)
  = updateNestedTask taskId data (children t).
Proof.
  intros H. rewrite updateNestedTask_cb_other by exact H. reflexivity.
Qed.

(** A node the scan arrives at is replaced, in its place, by the callback's
    result on it. *)
Lemma node_at_updateNestedTask :
  forall pos tasks n,
    TaskTree.scan_at taskId tasks pos = Some n ->
    TaskTree.node_at (updateNestedTask taskId data tasks) pos
    = Some (updateNestedTask_cb taskId data n).
Proof.
  induction pos as [|i rest IH]; intros tasks n H; [discriminate H|].
  cbn [TaskTree.scan_at TaskTree.node_at] in *.
  unfold updateNestedTask at 1. rewrite nth_error_map.
  destruct (nth_error tasks i) as [t|]; [|discriminate H].
  cbn [option_map]. destruct rest as [|j r].
  - injection H as <-. reflexivity.
  - destruct (String.eqb (id t) taskId) eqn:E; [discriminate H|].
    rewrite updateNestedTask_cb_children by exact E.
    apply IH. exact H.
Qed.

Lemma node_at_patched :
  forall pos tasks n,
    TaskTree.scan_at taskId tasks pos = Some n ->
    id n = taskId ->
    TaskTree.node_at (updateNestedTask taskId data tasks) pos
    = Some (patchTask data n).
Proof.
  intros pos tasks n H Hid.
  rewrite (node_at_updateNestedTask pos tasks n H).
  rewrite updateNestedTask_cb_match; [reflexivity|].
  apply String.eqb_eq. exact Hid.
Qed.

(** Whatever the patch carries, a patched node keeps its children. *)
Lemma updateNestedTask_cb_children_match (t : Task) :
  String.eqb (id t) taskId = true ->
  children (updateNestedTask_cb taskId data t) = children t.
Proof.
  intros H. rewrite updateNestedTask_cb_match by exact H. reflexivity.
Qed.

(** The scan arrives at a node with the id whenever the id occurs. *)
Lemma scan_at_reaches_in (t : Task) :
  TaskTree.occurs_in taskId t = true ->
  id t = taskId
  \/ exists pos n,
       TaskTree.scan_at taskId (children t) pos = Some n /\ id n = taskId.
Proof.
  induction t as [i n d h c a dl cp ch pj IH] using Task_ind.
  cbn [TaskTree.occurs_in id children]. intros H.
  destruct (String.eqb i taskId) eqn:E.
  - left. apply String.eqb_eq. exact E.
  - right. cbn [orb] in H.
    induction IH as [|x l Hx _ IHl]; [discriminate H|].
    cbn [existsb] in H. apply orb_true_iff in H as [H|H].
    + destruct (String.eqb (id x) taskId) eqn:Ex.
      * exists [0], x. split; [reflexivity | apply String.eqb_eq; exact Ex].
      * destruct (Hx H) as [Hid|[pos [m [Hs Hm]]]].
        { apply String.eqb_eq in Hid. congruence. }
        exists (0 :: pos), m. split; [|exact Hm].
        destruct pos as [|j r]; [discriminate Hs|].
        cbn [TaskTree.scan_at nth_error]. rewrite Ex. exact Hs.
    + destruct (IHl H) as [pos [m [Hs Hm]]].
      destruct pos as [|j r]; [discriminate Hs|].
      exists (S j :: r), m. split; [exact Hs | exact Hm].
Qed.

Lemma scan_at_reaches (tasks : list Task) :
  TaskTree.occurs taskId tasks = true ->
  exists pos n, TaskTree.scan_at taskId tasks pos = Some n /\ id n = taskId.
Proof.
  unfold TaskTree.occurs.
  induction tasks as [|x l IHl]; intros H; [discriminate H|].
  cbn [existsb] in H. apply orb_true_iff in H as [H|H].
  - destruct (String.eqb (id x) taskId) eqn:Ex.
    + exists [0], x. split; [reflexivity | apply String.eqb_eq; exact Ex].
    + destruct (scan_at_reaches_in x H) as [Hid|[pos [m [Hs Hm]]]].
      { apply String.eqb_eq in Hid. congruence. }
      exists (0 :: pos), m. split; [|exact Hm].
      destruct pos as [|j r]; [discriminate Hs|].
      cbn [TaskTree.scan_at nth_error]. rewrite Ex. exact Hs.
  - destruct (IHl H) as [pos [m [Hs Hm]]].
    destruct pos as [|j r]; [discriminate Hs|].
    exists (S j :: r), m. split; [exact Hs | exact Hm].
Qed.

End TaskPatching.

Section TaskCompletedOnly.
Import TaskStore.
Variables (taskId : string) (c : bool).

Lemma completed_only_cb_fields (t : Task) :
  id (updateNestedTask_cb taskId (onlyCompleted c) t) = id t
  /\ name (updateNestedTask_cb taskId (onlyCompleted c) t) = name t
  /\ description (updateNestedTask_cb taskId (onlyCompleted c) t)
     = description t.
Proof.
  rewrite updateNestedTask_cb_eq.
  destruct (String.eqb (id t) taskId); [repeat split|].
  destruct (has_items (children t)); repeat split.
Qed.

(** A patch that provides only [completed] leaves the id, the name and the
    description of every node of the tree as they are. *)
Lemma completed_only_keeps_fields :
  forall pos tasks n,
    TaskTree.node_at tasks pos = Some n ->
    exists n',
      TaskTree.node_at (updateNestedTask taskId (onlyCompleted c) tasks) pos
      = Some n'
      /\ id n' = id n /\ name n' = name n /\ description n' = description n.
Proof.
  induction pos as [|i rest IH]; intros tasks n H; [discriminate H|].
  cbn [TaskTree.node_at] in *.
  unfold updateNestedTask at 1. rewrite nth_error_map.
  destruct (nth_error tasks i) as [t|]; [|discriminate H].
  cbn [option_map]. destruct rest as [|j r].
  - injection H as <-. eexists. split; [reflexivity|].
    apply completed_only_cb_fields.
  - destruct (String.eqb (id t) taskId) eqn:E.
    + rewrite updateNestedTask_cb_children_match by exact E.
      exists n. repeat split. exact H.
    + rewrite updateNestedTask_cb_children by exact E.
      apply IH. exact H.
Qed.

End TaskCompletedOnly.

Section ItemPatching.
Import DeliverableStore.
Variables (taskId : string) (data : SubTaskPatch).

Lemma updateTaskInItem_cb_eq (item : Item) :
  updateTaskInItem_cb taskId data item =
  if String.eqb (id item) taskId then patchItem data item
  else if has_items (subTasks item)
       then with_subTasks item (updateTaskInItem taskId data (subTasks item))
       else item.
Proof. destruct item; reflexivity. Qed.

Lemma updateTaskInItem_cb_subTasks (t : Item) :
  String.eqb (id t) taskId = false ->
  subTasks (updateTaskInItem_cb taskId data t)
  = updateTaskInItem taskId data (subTasks t).
Proof.
  intros H. rewrite updateTaskInItem_cb_eq, H.
  destruct (has_items (subTasks t)) eqn:E; [reflexivity|].
  apply has_items_false in E. rewrite E. reflexivity.
Qed.

Lemma node_at_updateTaskInItem :
  forall pos items n,
    ItemTree.scan_at taskId items pos = Some n ->
    ItemTree.node_at (updateTaskInItem taskId data items) pos
    = Some (updateTaskInItem_cb taskId data n).
Proof.
  induction pos as [|i rest IH]; intros items n H; [discriminate H|].
  cbn [ItemTree.scan_at ItemTree.node_at] in *.
  unfold updateTaskInItem at 1. rewrite nth_error_map.
  destruct (nth_error items i) as [t|]; [|discriminate H].
  cbn [option_map]. destruct rest as [|j r].
  - injection H as <-. reflexivity.
  - destruct (String.eqb (id t) taskId) eqn:E; [discriminate H|].
    rewrite updateTaskInItem_cb_subTasks by exact E.
    apply IH. exact H.
Qed.

Lemma node_at_patched_item :
  forall pos items n,
    ItemTree.scan_at taskId items pos = Some n ->
    id n = taskId ->
    ItemTree.node_at (updateTaskInItem taskId data items) pos
    = Some (patchItem data n).
Proof.
  intros pos items n H Hid.
  rewrite (node_at_updateTaskInItem pos items n H).
  rewrite updateTaskInItem_cb_eq.
  apply String.eqb_eq in Hid. rewrite Hid. reflexivity.
Qed.

End ItemPatching.

Section ItemCompletedOnly.
Import DeliverableStore.
Variables (taskId : string) (c : bool).

Lemma completed_only_item_cb_fields (t : Item) :
  id (updateTaskInItem_cb taskId (onlyCompleted c) t) = id t
  /\ name (updateTaskInItem_cb taskId (onlyCompleted c) t) = name t
  /\ description (updateTaskInItem_cb taskId (onlyCompleted c) t)
     = description t.
Proof.
  rewrite updateTaskInItem_cb_eq.
  destruct (String.eqb (id t) taskId); [repeat split|].
  destruct (has_items (subTasks t)); repeat split.
Qed.

Lemma completed_only_keeps_item_fields :
  forall pos items n,
    ItemTree.node_at items pos = Some n ->
    exists n',
      ItemTree.node_at (updateTaskInItem taskId (onlyCompleted c) items) pos
      = Some n'
      /\ id n' = id n /\ name n' = name n /\ description n' = description n.
Proof.
  induction pos as [|i rest IH]; intros items n H; [discriminate H|].
  cbn [ItemTree.node_at] in *.
  unfold updateTaskInItem at 1. rewrite nth_error_map.
  destruct (nth_error items i) as [t|]; [|discriminate H].
  cbn [option_map]. destruct rest as [|j r].
  - injection H as <-. eexists. split; [reflexivity|].
    apply completed_only_item_cb_fields.
  - destruct (String.eqb (id t) taskId) eqn:E.
    + rewrite updateTaskInItem_cb_eq, E. cbn [patchItem subTasks onlyCompleted
        p_subTasks spread].
      exists n. repeat split. exact H.
    + rewrite updateTaskInItem_cb_subTasks by exact E.
      apply IH. exact H.
Qed.

End ItemCompletedOnly.

(** C7, as stated, fails for a node below a node with the same id: the scan
    stops at the first match on a branch, so in [x > x] the patch addressed
    to the inner node lands on the outer one and the inner node's
    [completed] keeps its value. *)
Lemma patch_misses_node_below_same_id :
  TaskTree.node_at [Samples.task "x" "Hull" [Samples.task "x" "Keel" []]] [0; 0]
  = Some (Samples.task "x" "Keel" [])
  /\ TaskTree.node_at
       (TaskStore.updateNestedTask "x" (TaskStore.onlyCompleted true)
          [Samples.task "x" "Hull" [Samples.task "x" "Keel" []]]) [0; 0]
     = Some (Samples.task "x" "Keel" [])
  /\ TaskStore.completed (Samples.task "x" "Keel" []) = false
  /\ ItemTree.node_at
       (DeliverableStore.updateTaskInItem "x"
          (DeliverableStore.onlyCompleted true)
          [Samples.item "x" "Drawings" [Samples.item "x" "Plans" []]]) [0; 0]
     = Some (Samples.item "x" "Plans" []).
Proof. repeat split; reflexivity. Qed.

(** C7 (amended). Patching by an id with a record that provides only
    [completed] leaves the id, the name and the description of every node of
    the tree as they are.  For every node [n] none of whose proper ancestors
    carries [n]'s id, patching by that id puts in [n]'s place the node
    [{ ...n, completed: c }]: its name, description and children are the
    ones [n] had, and its [completed] is the provided value.  The same holds
    for [updateTaskInItem]. *)
Theorem patch_completed_only :
  forall (taskId : string) (c : bool),
    (forall tasks pos n,
        TaskTree.node_at tasks pos = Some n ->
        exists n',
          TaskTree.node_at
            (TaskStore.updateNestedTask taskId (TaskStore.onlyCompleted c) tasks)
            pos = Some n'
          /\ TaskStore.id n' = TaskStore.id n
          /\ TaskStore.name n' = TaskStore.name n
          /\ TaskStore.description n' = TaskStore.description n)
    /\ (forall tasks pos n,
        TaskTree.scan_at taskId tasks pos = Some n ->
        TaskStore.id n = taskId ->
        TaskTree.node_at
          (TaskStore.updateNestedTask taskId (TaskStore.onlyCompleted c) tasks)
          pos
        = Some (TaskStore.with_completed n c)
        /\ TaskStore.name (TaskStore.with_completed n c) = TaskStore.name n
        /\ TaskStore.description (TaskStore.with_completed n c)
           = TaskStore.description n
        /\ TaskStore.children (TaskStore.with_completed n c)
           = TaskStore.children n
        /\ TaskStore.completed (TaskStore.with_completed n c) = c)
    /\ (forall items pos m,
        ItemTree.node_at items pos = Some m ->
        exists m',
          ItemTree.node_at
            (DeliverableStore.updateTaskInItem taskId
               (DeliverableStore.onlyCompleted c) items) pos = Some m'
          /\ DeliverableStore.id m' = DeliverableStore.id m
          /\ DeliverableStore.name m' = DeliverableStore.name m
          /\ DeliverableStore.description m' = DeliverableStore.description m)
    /\ (forall items pos m,
          ItemTree.scan_at taskId items pos = Some m ->
          DeliverableStore.id m = taskId ->
          ItemTree.node_at
            (DeliverableStore.updateTaskInItem taskId
               (DeliverableStore.onlyCompleted c) items) pos
          = Some (DeliverableStore.with_completed m c)
          /\ DeliverableStore.name (DeliverableStore.with_completed m c)
             = DeliverableStore.name m
          /\ DeliverableStore.description (DeliverableStore.with_completed m c)
             = DeliverableStore.description m
          /\ DeliverableStore.subTasks (DeliverableStore.with_completed m c)
             = DeliverableStore.subTasks m
          /\ DeliverableStore.completed (DeliverableStore.with_completed m c)
             = c).
Proof.
  intros taskId c. split; [|split; [|split]].
  - intros tasks pos n. exact (completed_only_keeps_fields taskId c pos tasks n).
  - intros tasks pos n Hn Hid. split; [|repeat split].
    rewrite (node_at_patched taskId (TaskStore.onlyCompleted c) pos tasks n
               Hn Hid).
    reflexivity.
  - intros items pos m.
    exact (completed_only_keeps_item_fields taskId c pos items m).
  - intros items pos m Hm Hid. split; [|repeat split].
    rewrite (node_at_patched_item taskId (DeliverableStore.onlyCompleted c)
               pos items m Hm Hid).
    reflexivity.
Qed.

Lemma patch_completed_only_witness :
  TaskTree.node_at
    (TaskStore.updateNestedTask "b" (TaskStore.onlyCompleted true) Samples.a_b)
    [0; 0]
  = Some (TaskStore.with_completed (Samples.task "b" "Keel" []) true)
  /\ ItemTree.node_at
       (DeliverableStore.updateTaskInItem "s1"
          (DeliverableStore.onlyCompleted true)
          [Samples.item "d1" "Drawings" [Samples.item "s1" "Frames" []]])
       [0; 0]
     = Some (DeliverableStore.with_completed (Samples.item "s1" "Frames" [])
               true).
Proof.
  exact (conj
    (proj1 (proj1 (proj2 (patch_completed_only "b" true)) Samples.a_b [0; 0]
              (Samples.task "b" "Keel" []) eq_refl eq_refl))
    (proj1 (proj2 (proj2 (proj2 (patch_completed_only "s1" true)))
              [Samples.item "d1" "Drawings" [Samples.item "s1" "Frames" []]]
              [0; 0] (Samples.item "s1" "Frames" []) eq_refl eq_refl))).
Defined.

(** C10. For every tree, every id that occurs in it and every patch
    record, the patch is applied to some node with the id (a node with the
    id that the scan arrives at); and every node the patch is applied to is
    replaced, in its place, by [patchTask]'s result, which keeps the node's
    name when the patch's [name] is the empty string, keeps its description
    when the patch's [description] is the empty string, and always has the
    node's own children, whatever the patch carries under [children]. *)
Theorem patch_ignores_falsy_and_children :
  forall (taskId : string) (data : TaskStore.TaskPatch)
         (tasks : list TaskStore.Task),
    (TaskTree.occurs taskId tasks = true ->
     exists pos n,
       TaskTree.scan_at taskId tasks pos = Some n /\ TaskStore.id n = taskId)
    /\ (forall pos n,
          TaskTree.scan_at taskId tasks pos = Some n ->
          TaskStore.id n = taskId ->
          TaskTree.node_at (TaskStore.updateNestedTask taskId data tasks) pos
          = Some (TaskStore.patchTask data n)
          /\ (TaskStore.p_name data = Some "" ->
              TaskStore.name (TaskStore.patchTask data n) = TaskStore.name n)
          /\ (TaskStore.p_description data = Some "" ->
              TaskStore.description (TaskStore.patchTask data n)
              = TaskStore.description n)
          /\ TaskStore.children (TaskStore.patchTask data n)
             = TaskStore.children n).
Proof.
  intros taskId data tasks. split; [apply scan_at_reaches|].
  intros pos n Hn Hid.
  split; [exact (node_at_patched taskId data pos tasks n Hn Hid)|].
  split; [|split].
  - intros H. cbn [TaskStore.patchTask TaskStore.name]. rewrite H. reflexivity.
  - intros H. cbn [TaskStore.patchTask TaskStore.description]. rewrite H.
    reflexivity.
  - reflexivity.
Qed.

Lemma patch_ignores_falsy_and_children_witness :
  TaskTree.node_at
    (TaskStore.updateNestedTask "a"
       (TaskStore.mkTaskPatch None (Some "") (Some "") None None None
          undefined None (Some []) None)
       Samples.a_b) [0]
  = Some (TaskStore.patchTask
            (TaskStore.mkTaskPatch None (Some "") (Some "") None None None
               undefined None (Some []) None)
            (Samples.task "a" "Hull" [Samples.task "b" "Keel" []]))
  /\ TaskStore.name
       (TaskStore.patchTask
          (TaskStore.mkTaskPatch None (Some "") (Some "") None None None
             undefined None (Some []) None)
          (Samples.task "a" "Hull" [Samples.task "b" "Keel" []]))
     = "Hull"
  /\ TaskStore.children
       (TaskStore.patchTask
          (TaskStore.mkTaskPatch None (Some "") (Some "") None None None
             undefined None (Some []) None)
          (Samples.task "a" "Hull" [Samples.task "b" "Keel" []]))
     = [Samples.task "b" "Keel" []].
Proof.
  pose proof (proj2 (patch_ignores_falsy_and_children "a"
    (TaskStore.mkTaskPatch None (Some "") (Some "") None None None
       undefined None (Some []) None)
    Samples.a_b) [0] (Samples.task "a" "Hull" [Samples.task "b" "Keel" []])
    eq_refl eq_refl) as H.
  exact (conj (proj1 H)
           (conj (proj1 (proj2 H) eq_refl) (proj2 (proj2 (proj2 H))))).
Defined.

(** ** The user's tasks *)

Section UserTasks.
Import TaskStore.
Variables (currentUid projectId : string).

Lemma fold_left_ext {X Y : Type} (f g : Y -> X -> Y) (l : list X) (a : Y) :
  (forall acc x, f acc x = g acc x) -> fold_left f l a = fold_left g l a.
Proof.
  intros H. revert a. induction l as [|x l IH]; intros a; [reflexivity|].
  cbn [fold_left]. rewrite H. apply IH.
Qed.

Lemma fold_left_append {X Y : Type} (f : X -> list Y) (l : list X) (a : list Y) :
  fold_left (fun acc x => acc ++ f x) l a = a ++ flat_map f l.
Proof.
  revert a. induction l as [|x l IH]; intros a; cbn [fold_left flat_map].
  - symmetry. apply app_nil_r.
  - rewrite IH, app_assoc. reflexivity.
Qed.

Lemma flat_map_map_filter {X Y Z : Type}
      (h : X -> list Y) (q : Y -> bool) (g : Y -> Z) (l : list X) :
  flat_map (fun x => map g (filter q (h x))) l
  = map g (filter q (flat_map h l)).
Proof.
  induction l as [|x l IH]; [reflexivity|].
  cbn [flat_map]. rewrite filter_app, map_app, IH. reflexivity.
Qed.

(** [findUserTasks_children] is [findUserTasks] on the children. *)
Lemma findUserTasks_children_eq (task : Task) :
  findUserTasks_children currentUid projectId task
  = findUserTasks currentUid (children task) projectId.
Proof. destruct task; reflexivity. Qed.

(** The [reduce] as the source writes it. *)
Lemma findUserTasks_eq (tasks : list Task) :
  findUserTasks currentUid tasks projectId
  = fold_left
      (fun acc task =>
         (if isAssigned currentUid task
          then acc ++ [with_projectId task projectId]
          else acc)
         ++ findUserTasks currentUid (children task) projectId)
      tasks [].
Proof.
  unfold findUserTasks at 1. apply fold_left_ext.
  intros acc task. unfold findUserTasks_step.
  rewrite findUserTasks_children_eq. reflexivity.
Qed.

Lemma findUserTasks_flat_map (tasks : list Task) :
  findUserTasks currentUid tasks projectId = flat_map (TaskTree.contribution currentUid projectId) tasks.
Proof.
  rewrite findUserTasks_eq.
  rewrite <- (app_nil_l (flat_map (TaskTree.contribution currentUid projectId) tasks)).
  rewrite <- fold_left_append. apply fold_left_ext.
  intros acc task. unfold TaskTree.contribution.
  destruct (isAssigned currentUid task).
  - rewrite <- app_assoc. reflexivity.
  - reflexivity.
Qed.

Lemma contribution_preorder (t : Task) :
  TaskTree.contribution currentUid projectId t
  = map (fun x => with_projectId x projectId)
        (filter (isAssigned currentUid) (TaskTree.preorder_of t)).
Proof.
  induction t as [i n d h c a dl cp ch pj IH] using Task_ind.
  unfold TaskTree.contribution at 1. cbn [children TaskTree.preorder_of filter].
  rewrite findUserTasks_flat_map.
  assert (E : flat_map (TaskTree.contribution currentUid projectId) ch
              = map (fun x => with_projectId x projectId)
                    (filter (isAssigned currentUid)
                            (flat_map TaskTree.preorder_of ch))).
  { rewrite <- flat_map_map_filter.
    induction IH as [|x l Hx _ IHl]; [reflexivity|].
    cbn [flat_map]. rewrite Hx, IHl. reflexivity. }
  rewrite E.
  destruct (isAssigned currentUid _); reflexivity.
Qed.

Lemma findUserTasks_preorder (tasks : list Task) :
  findUserTasks currentUid tasks projectId
  = map (fun x => with_projectId x projectId)
        (filter (isAssigned currentUid) (TaskTree.preorder tasks)).
Proof.
  rewrite findUserTasks_flat_map. unfold TaskTree.preorder.
  rewrite <- flat_map_map_filter.
  apply flat_map_ext. exact contribution_preorder.
Qed.

End UserTasks.

Section Selection.
Import TaskStore.

(** The test of the source holds exactly when the assignment list contains
    the user's id. *)
Lemma isAssigned_lists_user (u : string) (t : Task) :
  isAssigned u t = TaskTree.lists_user u t.
Proof.
  unfold isAssigned, TaskTree.lists_user.
  destruct (assignedTo t) as [users|]; [|reflexivity].
  destruct (in_dec String.string_dec u (map uid users)) as [Hin|Hout].
  - apply existsb_exists. apply in_map_iff in Hin as [user [Hu Hin]].
    exists user. split; [exact Hin | apply String.eqb_eq; exact Hu].
  - destruct (existsb _ users) eqn:E; [|reflexivity].
    exfalso. apply Hout. apply existsb_exists in E as [user [Hin Hu]].
    apply String.eqb_eq in Hu. rewrite <- Hu. apply in_map. exact Hin.
Qed.

Lemma lists_user_In (u : string) (t : Task) :
  TaskTree.lists_user u t = true <->
  exists users, assignedTo t = Some users /\ In u (map uid users).
Proof.
  unfold TaskTree.lists_user. split.
  - destruct (assignedTo t) as [users|]; [|discriminate].
    destruct (in_dec String.string_dec u (map uid users)) as [Hin|];
      [|discriminate].
    intros _. exists users. split; [reflexivity | exact Hin].
  - intros [users [-> Hin]].
    destruct (in_dec String.string_dec u (map uid users)) as [|Hout];
      [reflexivity | contradiction].
Qed.

Lemma userTasks_listing (u : string) (projects : Firestore)
      (st : ProjectState) :
  userTasks (fetchUserTasks (Some u) projects st)
  = flat_map
      (fun project =>
         map (TaskTree.annotated (docId project))
             (filter (TaskTree.lists_user u)
                     (TaskTree.preorder (tasks project))))
      projects.
Proof.
  cbn [fetchUserTasks userTasks].
  rewrite (fold_left_append
             (fun project => findUserTasks u (tasks project) (docId project))).
  cbn [app]. apply flat_map_ext. intros project.
  rewrite findUserTasks_preorder.
  rewrite (filter_ext _ _ (isAssigned_lists_user u)). reflexivity.
Qed.

End Selection.

(** C9. With a user signed in, [fetchUserTasks] sets [userTasks] to: for
    each project in the order the documents were listed, the nodes of the
    project's tree in depth-first order, a parent before its children,
    whose assignment list contains a user with the signed-in id, each
    annotated with the id of the project that owns it and otherwise as it
    is in the tree.  So a node of a listed project's tree is in the result
    exactly when its assignment list contains the user; every node of the
    result has the user's id in its assignment list and carries the id of
    a listed project in whose tree it lies; and no error is recorded. *)
Theorem fetchUserTasks_preorder :
  forall (currentUid : string) (projects : TaskStore.Firestore)
         (st : TaskStore.ProjectState),
    TaskStore.userTasks (TaskStore.fetchUserTasks (Some currentUid) projects st)
    = flat_map
        (fun project =>
           map (TaskTree.annotated (TaskStore.docId project))
               (filter (TaskTree.lists_user currentUid)
                       (TaskTree.preorder (TaskStore.tasks project))))
        projects
    /\ (forall project t,
          In project projects ->
          In t (TaskTree.preorder (TaskStore.tasks project)) ->
          (In (TaskTree.annotated (TaskStore.docId project) t)
              (TaskStore.userTasks
                 (TaskStore.fetchUserTasks (Some currentUid) projects st))
           <-> exists users,
                TaskStore.assignedTo t = Some users
                /\ In currentUid (map TaskStore.uid users)))
    /\ Forall
         (fun r =>
            (exists users,
                TaskStore.assignedTo r = Some users
                /\ In currentUid (map TaskStore.uid users))
            /\ exists project t,
                In project projects
                /\ In t (TaskTree.preorder (TaskStore.tasks project))
                /\ TaskStore.projectId r = Some (TaskStore.docId project)
                /\ TaskStore.id r = TaskStore.id t
                /\ TaskStore.name r = TaskStore.name t
                /\ TaskStore.completed r = TaskStore.completed t
                /\ TaskStore.children r = TaskStore.children t)
         (TaskStore.userTasks
            (TaskStore.fetchUserTasks (Some currentUid) projects st))
    /\ TaskStore.error (TaskStore.fetchUserTasks (Some currentUid) projects st)
       = None.
Proof.
  intros currentUid projects st.
  pose proof (userTasks_listing currentUid projects st) as E.
  split; [exact E|]. split; [|split; [|reflexivity]].
  - intros project t Hp Ht. rewrite <- lists_user_In. split.
    + rewrite E. intros Hin.
      apply in_flat_map in Hin as [q [_ Hin]].
      apply in_map_iff in Hin as [x [Hx Hin]].
      apply filter_In in Hin as [_ Hin].
      unfold TaskTree.lists_user in *.
      assert (Ha : TaskStore.assignedTo x = TaskStore.assignedTo t).
      { apply (f_equal TaskStore.assignedTo) in Hx. exact Hx. }
      rewrite <- Ha. exact Hin.
    + intros Hl. rewrite E. apply in_flat_map. exists project.
      split; [exact Hp|]. apply in_map. apply filter_In.
      split; [exact Ht | exact Hl].
  - rewrite E. apply Forall_forall. intros r Hr.
    apply in_flat_map in Hr as [project [Hp Hr]].
    apply in_map_iff in Hr as [t [<- Ht]].
    apply filter_In in Ht as [Ht Hl]. split.
    + apply lists_user_In in Hl. exact Hl.
    + exists project, t. split; [exact Hp|]. split; [exact Ht|].
      repeat split.
Qed.

Lemma fetchUserTasks_preorder_witness :
  TaskStore.userTasks
    (TaskStore.fetchUserTasks (Some "u1")
       [Samples.project
          [Samples.task "a" "Hull" [Samples.filled undefined None]]]
       (TaskStore.mkProjectState [] false None))
  = [TaskTree.annotated "p1" (Samples.filled undefined None)].
Proof.
  rewrite (proj1 (fetchUserTasks_preorder "u1"
                    [Samples.project
                       [Samples.task "a" "Hull"
                          [Samples.filled undefined None]]]
                    (TaskStore.mkProjectState [] false None))).
  reflexivity.
Defined.

(** ** The cleaning step of [updateProject] *)

Section Cleaning.
Import TaskStore.

Lemma cleanUser_same (u : User) : cleanUser u = u.
Proof. destruct u; reflexivity. Qed.

Lemma map_cleanUser (l : list User) : map cleanUser l = l.
Proof.
  apply map_fixed. apply Forall_forall. intros u _. apply cleanUser_same.
Qed.

Lemma or_else_number_unset (x : option number) :
  or_else truthy_number x 0%float
  = match TaskTree.unset_falsy_number x with Some h => h | None => 0%float end.
Proof.
  destruct x as [h|]; [|reflexivity]. cbn [or_else TaskTree.unset_falsy_number].
  destruct (truthy_number h); reflexivity.
Qed.

Lemma or_null_deadline_unset (x : nullable string) :
  or_null truthy_string x
  = match TaskTree.unset_falsy_deadline x with undefined => null | d => d end.
Proof.
  destruct x as [| |s]; [reflexivity|reflexivity|].
  cbn [or_null TaskTree.unset_falsy_deadline].
  destruct (truthy_string s); reflexivity.
Qed.

(** Cleaning is: take a falsy value for unset, drop [projectId], then put
    the defaults in. *)
Lemma cleanTask_withDefaults (t : Task) :
  cleanTask t = TaskTree.withDefaults (TaskTree.unset_falsy t).
Proof.
  induction t as [i n d h c a dl cp ch pj IH] using Task_ind.
  cbn [cleanTask TaskTree.unset_falsy TaskTree.withDefaults
       id name description hours costPerHour assignedTo deadline completed
       children projectId].
  rewrite !or_string_empty, !or_else_number_unset, or_null_deadline_unset.
  rewrite map_map.
  assert (E : map cleanTask ch
              = map (fun x => TaskTree.withDefaults (TaskTree.unset_falsy x)) ch).
  { induction IH as [|x l Hx _ IHl]; [reflexivity|].
    cbn [map]. rewrite Hx, IHl. reflexivity. }
  rewrite E. destruct a as [users|]; [rewrite map_cleanUser|]; reflexivity.
Qed.

Lemma cleanTask_fields_set (t : Task) :
  TaskTree.fields_set (cleanTask t) = true.
Proof.
  induction t as [i n d h c a dl cp ch pj IH] using Task_ind.
  cbn [cleanTask TaskTree.fields_set TaskTree.is_set
       id name description hours costPerHour assignedTo deadline completed
       children projectId andb].
  assert (E : forallb TaskTree.fields_set (map cleanTask ch) = true).
  { induction IH as [|x l Hx _ IHl]; [reflexivity|].
    cbn [map forallb]. rewrite Hx, IHl. reflexivity. }
  rewrite E, andb_true_r.
  destruct dl as [| |s]; [reflexivity|reflexivity|].
  cbn [or_null]. destruct (truthy_string s); reflexivity.
Qed.

Lemma or_else_number_idem (x : option number) :
  or_else truthy_number (Some (or_else truthy_number x 0%float)) 0%float
  = or_else truthy_number x 0%float.
Proof.
  destruct x as [h|]; [|reflexivity]. cbn [or_else].
  destruct (truthy_number h) eqn:E; [rewrite E|]; reflexivity.
Qed.

Lemma or_null_idem (x : nullable string) :
  or_null truthy_string (or_null truthy_string x) = or_null truthy_string x.
Proof.
  destruct x as [| |s]; [reflexivity|reflexivity|]. cbn [or_null].
  destruct (truthy_string s) eqn:E; [cbn [or_null]; rewrite E|]; reflexivity.
Qed.

Lemma cleanTask_idem (t : Task) : cleanTask (cleanTask t) = cleanTask t.
Proof.
  induction t as [i n d h c a dl cp ch pj IH] using Task_ind.
  cbn [cleanTask id name description hours costPerHour assignedTo deadline
       completed children projectId].
  rewrite !or_string_empty, !or_else_number_idem, or_null_idem.
  rewrite !map_cleanUser, map_map.
  assert (E : map (fun x => cleanTask (cleanTask x)) ch = map cleanTask ch).
  { induction IH as [|x l Hx _ IHl]; [reflexivity|].
    cbn [map]. rewrite Hx, IHl. reflexivity. }
  rewrite E. destruct a; reflexivity.
Qed.

Lemma or_else_number_kept (x : option number) :
  TaskTree.kept_number x = true ->
  or_else truthy_number x 0%float
  = match x with Some h => h | None => 0%float end.
Proof.
  destruct x as [h|]; [|reflexivity]. cbn [TaskTree.kept_number or_else].
  destruct (truthy_number h); [reflexivity|].
  rewrite orb_false_r. intros H.
  apply FloatAxioms.Leibniz.eqb_spec in H. symmetry. exact H.
Qed.

Lemma or_null_deadline_kept (x : nullable string) :
  TaskTree.kept_deadline x = true ->
  or_null truthy_string x = match x with undefined => null | d => d end.
Proof.
  destruct x as [| |s]; [reflexivity|reflexivity|].
  cbn [TaskTree.kept_deadline or_null]. intros ->. reflexivity.
Qed.

Lemma cleanTask_kept (t : Task) :
  TaskTree.kept_by_cleaning t = true -> cleanTask t = TaskTree.withDefaults t.
Proof.
  induction t as [i n d h c a dl cp ch pj IH] using Task_ind.
  cbn [TaskTree.kept_by_cleaning cleanTask TaskTree.withDefaults
       id name description hours costPerHour assignedTo deadline completed
       children projectId].
  intros H. repeat (apply andb_true_iff in H as [H ?]).
  rewrite !or_string_empty.
  rewrite !or_else_number_kept, or_null_deadline_kept by assumption.
  assert (E : map cleanTask ch = map TaskTree.withDefaults ch).
  { match goal with Hc : forallb _ ch = true |- _ =>
      rewrite forallb_forall in Hc; rewrite Forall_forall in IH;
      apply map_ext_in; intros x Hx; apply IH; [exact Hx | apply Hc; exact Hx]
    end. }
  rewrite E. destruct pj; [discriminate|].
  destruct dl; destruct a as [users|]; rewrite ?map_cleanUser; reflexivity.
Qed.

Lemma withDefaults_fields_set (t : Task) :
  TaskTree.fields_set t = true -> TaskTree.withDefaults t = t.
Proof.
  induction t as [i n d h c a dl cp ch pj IH] using Task_ind.
  cbn [TaskTree.fields_set TaskTree.withDefaults
       id name description hours costPerHour assignedTo deadline completed
       children projectId].
  intros H. repeat (apply andb_true_iff in H as [H ?]).
  assert (E : map TaskTree.withDefaults ch = ch).
  { apply map_fixed.
    match goal with Hc : forallb _ ch = true |- _ =>
      rewrite forallb_forall in Hc; rewrite Forall_forall in IH |- *;
      intros x Hx; apply IH; [exact Hx | apply Hc; exact Hx]
    end. }
  rewrite E.
  destruct h; [|discriminate]. destruct c; [|discriminate].
  destruct a; [|discriminate]. destruct dl; [discriminate| |]; reflexivity.
Qed.

End Cleaning.

(** C8, as stated, fails.  A task with every persisted field set and the
    empty string as its [deadline] is not returned as it is: cleaning writes
    [null] over the deadline, which is none of the substitutions for unset
    fields.  And a task that carries the transient [projectId] loses it. *)
Lemma cleanTasks_changes_set_fields :
  forallb TaskTree.fields_set [Samples.filled (value "") None] = true
  /\ map TaskTree.withDefaults [Samples.filled (value "") None]
     = [Samples.filled (value "") None]
  /\ TaskStore.cleanTasks [Samples.filled (value "") None]
     = [Samples.filled null None]
  /\ TaskStore.cleanTasks [Samples.filled (value "") None]
     <> [Samples.filled (value "") None]
  /\ TaskStore.cleanTasks [Samples.filled null (Some "p1")]
     <> map TaskTree.withDefaults [Samples.filled null (Some "p1")].
Proof.
  split; [reflexivity|]. split; [reflexivity|]. split; [reflexivity|].
  split; cbv; intros H; discriminate H.
Qed.

(** C8 (amended). In the document the cleaning step produces every task,
    at every depth, has all the persisted fields set: [hours] and
    [costPerHour] a number, [assignedTo] a list, [deadline] a string or
    [null], next to [id], [name], [description], [completed] and [children].
    The cleaned tree is the input tree with the default substitutions of
    the specification applied after every falsy value (a [0], [-0] or [NaN]
    number, an empty [deadline] string) has been taken for unset and the
    transient [projectId] dropped.  Cleaning twice is cleaning once.  On a
    tree whose set numbers are [0] or truthy, whose deadlines are not the
    empty string and which carries no [projectId], cleaning is exactly the
    default substitutions, and is the identity when in addition every
    persisted field is set.  The project's own [name], [description] and
    [customer] are written as they are. *)
Theorem cleaning_normalizes :
  forall (tasks : list TaskStore.Task) (projectData : TaskStore.Project),
    forallb TaskTree.fields_set (TaskStore.cleanTasks tasks) = true
    /\ TaskStore.cleanTasks tasks
       = map TaskTree.withDefaults (map TaskTree.unset_falsy tasks)
    /\ TaskStore.cleanTasks (TaskStore.cleanTasks tasks)
       = TaskStore.cleanTasks tasks
    /\ (forallb TaskTree.kept_by_cleaning tasks = true ->
        TaskStore.cleanTasks tasks = map TaskTree.withDefaults tasks)
    /\ (forallb TaskTree.kept_by_cleaning tasks = true ->
        forallb TaskTree.fields_set tasks = true ->
        TaskStore.cleanTasks tasks = tasks)
    /\ TaskStore.cleanProjectData projectData
       = TaskStore.mkProjectData
           (TaskStore.pname projectData) (TaskStore.pdescription projectData)
           (TaskStore.customer projectData)
           (TaskStore.cleanTasks (TaskStore.tasks projectData)).
Proof.
  intros tasks projectData.
  assert (K : forallb TaskTree.kept_by_cleaning tasks = true ->
              TaskStore.cleanTasks tasks = map TaskTree.withDefaults tasks).
  { intros H. rewrite forallb_forall in H. apply map_ext_in.
    intros t Ht. apply cleanTask_kept. apply H. exact Ht. }
  split; [|split; [|split; [|split; [|split]]]].
  - apply forallb_forall. intros t Ht.
    apply in_map_iff in Ht as [x [<- _]]. apply cleanTask_fields_set.
  - unfold TaskStore.cleanTasks. rewrite map_map. apply map_ext.
    exact cleanTask_withDefaults.
  - unfold TaskStore.cleanTasks. rewrite map_map. apply map_ext.
    exact cleanTask_idem.
  - exact K.
  - intros Hk Hs. rewrite (K Hk). apply map_fixed. apply Forall_forall.
    rewrite forallb_forall in Hs. intros t Ht.
    apply withDefaults_fields_set. apply Hs. exact Ht.
  - unfold TaskStore.cleanProjectData. rewrite !or_string_empty.
    destruct (TaskStore.customer projectData); reflexivity.
Qed.

Lemma cleaning_normalizes_witness :
  TaskStore.cleanTasks [Samples.filled null None] = [Samples.filled null None].
Proof.
  exact (proj1 (proj2 (proj2 (proj2 (proj2
    (cleaning_normalizes [Samples.filled null None]
       (Samples.project []))))))
    eq_refl eq_refl).
Defined.

(** ** Insertion through the store *)




(** ** The scenarios of the specification, and two about shared ids *)

(** Inserting ["X"] under [a > b]: the new task is the only child of ["b"],
    and ["a"] is otherwise as it was. *)
Example scenario_insert_under_a_b :
  TaskStore.addTask_updatedTasks (Samples.project Samples.a_b)
    [TaskStore.mkPathItem "a"; TaskStore.mkPathItem "b"]
    (TaskStore.newTask (Samples.taskData "X") "u1")
  = [Samples.task "a" "Hull"
       [Samples.task "b" "Keel" [Samples.task "u1" "X" []]]].
Proof. reflexivity. Qed.

(** Deleting ["b"] empties the children of ["a"]; deleting ["z"] changes
    nothing. *)
Example scenario_delete_b :
  TaskStore.deleteNestedTask "b" Samples.a_b = [Samples.task "a" "Hull" []]
  /\ TaskStore.deleteNestedTask "z" Samples.a_b = Samples.a_b.
Proof. split; reflexivity. Qed.

(** Two siblings with the id ["a"]: the path [a > b] does not resolve, since
    the first ["a"] has no child ["b"], and yet [addTask] adds the new task
    below the ["b"] of the second ["a"]. *)
Example addTask_twin_siblings :
  TaskStore.getTaskByPath_in
    (Some (Samples.project
             [Samples.task "a" "Hull" [];
              Samples.task "a" "Deck" [Samples.task "b" "Rails" []]]))
    [TaskStore.mkPathItem "a"; TaskStore.mkPathItem "b"] = None
  /\ TaskStore.addTask_updatedTasks
       (Samples.project
          [Samples.task "a" "Hull" [];
           Samples.task "a" "Deck" [Samples.task "b" "Rails" []]])
       [TaskStore.mkPathItem "a"; TaskStore.mkPathItem "b"]
       (TaskStore.newTask (Samples.taskData "X") "u1")
     = [Samples.task "a" "Hull" [];
        Samples.task "a" "Deck"
          [Samples.task "b" "Rails" [Samples.task "u1" "X" []]]].
Proof. split; reflexivity. Qed.

(** [toggleTaskCompletion] on the inner node of [x > x] completes the outer
    one: the document written back holds the outer node completed and the
    inner one as it was. *)
Example toggleTaskCompletion_same_id :
  TaskStore.toggleTaskCompletion
    [Samples.project [Samples.task "x" "Hull" [Samples.task "x" "Keel" []]]]
    "p1" [TaskStore.mkPathItem "x"; TaskStore.mkPathItem "x"]
  = Ok (TaskStore.updateProject
          [Samples.project [Samples.task "x" "Hull" [Samples.task "x" "Keel" []]]]
          "p1"
          (Samples.project
             [TaskStore.with_completed
                (Samples.task "x" "Hull" [Samples.task "x" "Keel" []]) true])).
Proof. reflexivity. Qed.

(** [deleteTaskFromItem] filters the sub-tasks of the items it is handed and
    hands the sub-tasks of those sub-tasks on as items: a node two levels
    below a deliverable is not compared with the id. *)
Example deleteTaskFromItem_two_levels_down :
  DeliverableStore.deleteTaskFromItem "g"
    [Samples.item "d1" "Drawings"
       [Samples.item "s1" "Frames" [Samples.item "g" "Gussets" []]]]
  = [Samples.item "d1" "Drawings"
       [Samples.item "s1" "Frames" [Samples.item "g" "Gussets" []]]].
Proof. reflexivity. Qed.

(** The cleaning step writes [0] over a [NaN] and over a [-0]. *)
Example cleanTask_falsy_numbers :
  TaskStore.hours
    (TaskStore.cleanTask
       (TaskStore.mkTask "t1" "Survey" "" (Some nan) (Some (-0)%float) None
          undefined false [] None))
  = Some 0%float
  /\ TaskStore.costPerHour
       (TaskStore.cleanTask
          (TaskStore.mkTask "t1" "Survey" "" (Some nan) (Some (-0)%float) None
             undefined false [] None))
     = Some 0%float.
Proof. split; reflexivity. Qed.

(** * Further properties of the stores *)

(** ** Resolution composes *)

Section ResolutionFacts.
Import TaskStore.

Lemma resolve_last_id :
  forall path tasks n,
    TaskTree.resolve tasks path = Some n -> id n = last path "".
Proof.
  induction path as [|seg rest IH]; intros tasks n H; [discriminate H|].
  cbn [TaskTree.resolve] in H.
  destruct (find _ tasks) as [m|] eqn:Hm; [|discriminate H].
  destruct rest as [|r rs].
  - injection H as <-. apply find_some in Hm as [_ Hm].
    apply String.eqb_eq. exact Hm.
  - rewrite (IH _ _ H). reflexivity.
Qed.

Lemma candidates_nonempty (root : list Task) (pre : list string) :
  pre <> [] ->
  TaskTree.candidates root pre = option_map children (TaskTree.resolve root pre).
Proof. destruct pre; [congruence | reflexivity]. Qed.

End ResolutionFacts.

(** X1. The node [getTaskByPath] returns has the id of the path's last
    segment.  Resolution composes: when a non-empty [pre] resolves to [m],
    the path [pre ++ post] with [post] non-empty resolves to what [post]
    resolves to among the children of [m]; and when [pre ++ post] resolves,
    every non-empty prefix [pre] resolves too. *)
Theorem getTaskByPath_composes :
  forall (project : TaskStore.Project),
    (forall path n,
        TaskStore.getTaskByPath_in (Some project) path = Some n ->
        TaskStore.id n = TaskStore.pid (last path (TaskStore.mkPathItem "")))
    /\ (forall pre post m,
          TaskStore.getTaskByPath_in (Some project) pre = Some m ->
          post <> [] ->
          TaskStore.getTaskByPath_in (Some project) (pre ++ post)
          = TaskStore.getTaskByPath_in
              (Some (TaskStore.with_tasks project (TaskStore.children m))) post)
    /\ (forall pre post n,
          pre <> [] ->
          TaskStore.getTaskByPath_in (Some project) (pre ++ post) = Some n ->
          exists m, TaskStore.getTaskByPath_in (Some project) pre = Some m).
Proof.
  intros project. split; [|split].
  - intros path n H. rewrite getTaskByPath_in_resolve in H.
    rewrite (resolve_last_id _ _ _ H).
    clear H. induction path as [|p [|q r] IH]; [reflexivity|reflexivity|].
    exact IH.
  - intros pre post m Hm Hpost. rewrite !getTaskByPath_in_resolve in *.
    destruct post as [|q r]; [congruence|].
    rewrite map_app. cbn [map]. rewrite resolve_app_candidates.
    rewrite candidates_nonempty, Hm; [reflexivity|].
    destruct pre; [discriminate Hm | discriminate].
  - intros pre post n Hpre H. rewrite !getTaskByPath_in_resolve in *.
    destruct post as [|q r].
    + rewrite app_nil_r in H. exists n. exact H.
    + rewrite map_app in H. cbn [map] in H.
      rewrite resolve_app_candidates, candidates_nonempty in H.
      * destruct (TaskTree.resolve (TaskStore.tasks project)
                    (map TaskStore.pid pre)) as [m|]; [|discriminate H].
        exists m. reflexivity.
      * destruct pre; [congruence | discriminate].
Qed.

Lemma getTaskByPath_composes_witness :
  TaskStore.getTaskByPath_in (Some (Samples.project Samples.a_b))
    ([TaskStore.mkPathItem "a"] ++ [TaskStore.mkPathItem "b"])
  = TaskStore.getTaskByPath_in
      (Some (TaskStore.with_tasks (Samples.project Samples.a_b)
               (TaskStore.children
                  (Samples.task "a" "Hull" [Samples.task "b" "Keel" []]))))
      [TaskStore.mkPathItem "b"].
Proof.
  refine (proj1 (proj2 (getTaskByPath_composes (Samples.project Samples.a_b)))
            [TaskStore.mkPathItem "a"] [TaskStore.mkPathItem "b"]
            (Samples.task "a" "Hull" [Samples.task "b" "Keel" []])
            eq_refl _).
  discriminate.
Defined.

(** ** Writing a document and reading it back *)

Section PersistenceFacts.
Import TaskStore.

Lemma cleanProjectData_written (p pd : Project) :
  cleanProjectData (updateDoc p (cleanProjectData pd)) = cleanProjectData pd.
Proof.
  unfold cleanProjectData, updateDoc.
  cbn [pname pdescription customer tasks cd_name cd_description cd_customer
       cd_tasks cname phone address].
  rewrite !or_string_empty. f_equal.
  unfold cleanTasks. rewrite map_map. apply map_ext. exact cleanTask_idem.
Qed.

Lemma updateDoc_twice (q : Project) (d : ProjectData) :
  updateDoc (updateDoc q d) d = updateDoc q d.
Proof. reflexivity. Qed.

Lemma fetchProject_updateProject_other (db : Firestore) (i j : string)
      (pd : Project) :
  j <> i -> fetchProject (updateProject db i pd) j = fetchProject db j.
Proof.
  intros Hji. unfold fetchProject, updateProject.
  induction db as [|q db IH]; [reflexivity|].
  cbn [map find]. destruct (String.eqb (docId q) i) eqn:E.
  - cbn [updateDoc docId]. apply String.eqb_eq in E.
    assert (Hq : String.eqb (docId q) j = false).
    { apply String.eqb_neq. congruence. }
    rewrite Hq. exact IH.
  - destruct (String.eqb (docId q) j); [reflexivity | exact IH].
Qed.

Lemma updateProject_docIds (db : Firestore) (i : string) (pd : Project) :
  map docId (updateProject db i pd) = map docId db.
Proof.
  unfold updateProject. rewrite map_map. apply map_ext.
  intros q. destruct (String.eqb (docId q) i); reflexivity.
Qed.

Lemma updateProject_written_again (db : Firestore) (i : string)
      (pd p' : Project) :
  fetchProject (updateProject db i pd) i = Some p' ->
  updateProject (updateProject db i pd) i p' = updateProject db i pd.
Proof.
  intros Hf. rewrite fetchProject_updateProject in Hf.
  destruct (fetchProject db i) as [p0|]; [|discriminate Hf].
  injection Hf as <-.
  unfold updateProject. rewrite map_map. apply map_ext. intros q.
  destruct (String.eqb (docId q) i) eqn:E; [|rewrite E; reflexivity].
  cbn [updateDoc docId]. rewrite E.
  change (mkProject (docId p0) (internalId p0) (cd_name (cleanProjectData pd))
            (cd_description (cleanProjectData pd))
            (cd_customer (cleanProjectData pd))
            (cd_tasks (cleanProjectData pd)) (createdAt p0))
    with (updateDoc p0 (cleanProjectData pd)).
  rewrite cleanProjectData_written. reflexivity.
Qed.

End PersistenceFacts.

(** X2. After [updateProject] has written a document that exists,
    [fetchProject] reads it with its [__id] and [createdAt] untouched and
    the cleaned project data in place, and [getTaskByPath] resolves every
    path to the cleaned copy of the node the path names in the tree that
    was handed over: cleaning changes neither the ids nor the shape, so the
    same paths resolve. *)
Theorem updateProject_read_back :
  forall (db : TaskStore.Firestore) (i : string) (p pd : TaskStore.Project),
    TaskStore.fetchProject db i = Some p ->
    TaskStore.fetchProject (TaskStore.updateProject db i pd) i
    = Some (TaskStore.mkProject (TaskStore.docId p) (TaskStore.internalId p)
              (TaskStore.pname pd) (TaskStore.pdescription pd)
              (TaskStore.customer pd)
              (TaskStore.cleanTasks (TaskStore.tasks pd))
              (TaskStore.createdAt p))
    /\ (forall path,
          TaskStore.getTaskByPath (TaskStore.updateProject db i pd) i path
          = option_map TaskStore.cleanTask
              (TaskStore.getTaskByPath_in (Some pd) path)).
Proof.
  intros db i p pd Hf. split.
  - rewrite fetchProject_updateProject, Hf. cbn [option_map].
    unfold TaskStore.updateDoc, TaskStore.cleanProjectData.
    cbn [TaskStore.cd_name TaskStore.cd_description TaskStore.cd_customer
         TaskStore.cd_tasks].
    rewrite !or_string_empty.
    destruct (TaskStore.customer pd); reflexivity.
  - intros path.
    rewrite (getTaskByPath_updateProject db i p pd path Hf).
    rewrite getTaskByPath_in_resolve. reflexivity.
Qed.

Lemma updateProject_read_back_witness :
  TaskStore.getTaskByPath
    (TaskStore.updateProject [Samples.project []] "p1"
       (Samples.project Samples.a_b)) "p1"
    [TaskStore.mkPathItem "a"; TaskStore.mkPathItem "b"]
  = option_map TaskStore.cleanTask
      (TaskStore.getTaskByPath_in (Some (Samples.project Samples.a_b))
         [TaskStore.mkPathItem "a"; TaskStore.mkPathItem "b"]).
Proof.
  exact (proj2 (updateProject_read_back [Samples.project []] "p1"
                  (Samples.project []) (Samples.project Samples.a_b) eq_refl)
           [TaskStore.mkPathItem "a"; TaskStore.mkPathItem "b"]).
Defined.

(** X3. [updateProject] keeps the documents of the collection, their ids
    and their order, and leaves every document with another id as it is.
    A document it has written is a fixed point: writing back the document
    as it is then fetched changes nothing in the collection. *)
Theorem updateProject_frame :
  forall (db : TaskStore.Firestore) (i : string) (pd : TaskStore.Project),
    map TaskStore.docId (TaskStore.updateProject db i pd)
    = map TaskStore.docId db
    /\ (forall j,
          j <> i ->
          TaskStore.fetchProject (TaskStore.updateProject db i pd) j
          = TaskStore.fetchProject db j)
    /\ (forall p',
          TaskStore.fetchProject (TaskStore.updateProject db i pd) i = Some p' ->
          TaskStore.updateProject (TaskStore.updateProject db i pd) i p'
          = TaskStore.updateProject db i pd).
Proof.
  intros db i pd. split; [apply updateProject_docIds|]. split.
  - intros j Hj. apply fetchProject_updateProject_other. exact Hj.
  - intros p' Hp'. apply updateProject_written_again. exact Hp'.
Qed.

Lemma updateProject_frame_witness :
  TaskStore.updateProject
    (TaskStore.updateProject [Samples.project []] "p1"
       (Samples.project Samples.a_b)) "p1"
    (TaskStore.mkProject "p1" "p-000001" "Hull survey" ""
       (TaskStore.mkCustomer "" "" "") (TaskStore.cleanTasks Samples.a_b)
       "2024-01-01T00:00:00.000Z")
  = TaskStore.updateProject [Samples.project []] "p1"
      (Samples.project Samples.a_b).
Proof.
  exact (proj2 (proj2 (updateProject_frame [Samples.project []] "p1"
                         (Samples.project Samples.a_b)))
           _ eq_refl).
Defined.

(** X4. Through the store: when [path] resolves to a node [n] and the
    generated id is not already the id of a child of [n], [addTask]
    resolves, and afterwards [getTaskByPath] reads under [path ++ [uuid]]
    the new task as the cleaning step wrote it: the id [uuid], the supplied
    name and description, not completed, no children, and under [path] the
    cleaned node [n] with the new task as its last child. *)
Theorem addTask_read_back :
  forall (db : TaskStore.Firestore) (i : string)
         (path : list TaskStore.PathItem) (n : TaskStore.Task)
         (taskData : TaskStore.TaskData) (uuid : string),
    TaskStore.getTaskByPath db i path = Some n ->
    find (fun c => String.eqb (TaskStore.id c) uuid) (TaskStore.children n)
    = None ->
    exists db' t,
      TaskStore.addTask db i path taskData uuid = Ok db'
      /\ TaskStore.getTaskByPath db' i (path ++ [TaskStore.mkPathItem uuid])
         = Some t
      /\ TaskStore.id t = uuid
      /\ TaskStore.name t = TaskStore.d_name taskData
      /\ TaskStore.description t = TaskStore.d_description taskData
      /\ TaskStore.completed t = false
      /\ TaskStore.children t = []
      /\ TaskStore.getTaskByPath db' i path
         = Some (TaskStore.cleanTask
                   (TaskStore.with_children n
                      (TaskStore.children n
                         ++ [TaskStore.newTask taskData uuid]))).
Proof.
  intros db i path n taskData uuid Hn Hfresh.
  destruct (TaskStore.fetchProject db i) as [p|] eqn:Hf.
  2: { unfold TaskStore.getTaskByPath in Hn. rewrite Hf in Hn. discriminate Hn. }
  destruct (addTask_then_getTaskByPath db i p path n taskData uuid Hf Hn Hfresh)
    as [db' [Hadd Hget]].
  exists db', (TaskStore.cleanTask (TaskStore.newTask taskData uuid)).
  split; [exact Hadd|]. split; [exact Hget|].
  split; [reflexivity|].
  split; [cbn; rewrite !or_string_empty; reflexivity|].
  split; [cbn; rewrite !or_string_empty; reflexivity|].
  split; [reflexivity|]. split; [reflexivity|].
  unfold TaskStore.addTask in Hadd. rewrite Hf in Hadd.
  injection Hadd as <-.
  rewrite (getTaskByPath_updateProject db i p _ path Hf).
  unfold TaskStore.getTaskByPath in Hn.
  rewrite Hf, getTaskByPath_in_resolve in Hn.
  destruct path as [|seg rest]; [discriminate Hn|].
  cbn [TaskStore.with_tasks TaskStore.tasks TaskStore.addTask_updatedTasks].
  rewrite (resolve_after_insert (TaskStore.newTask taskData uuid)
             (seg :: rest) (TaskStore.tasks p) n Hn).
  reflexivity.
Qed.

Lemma addTask_read_back_witness :
  exists db' t,
    TaskStore.addTask [Samples.project Samples.a_b] "p1"
      [TaskStore.mkPathItem "a"] (Samples.taskData "X") "u1" = Ok db'
    /\ TaskStore.getTaskByPath db' "p1"
         ([TaskStore.mkPathItem "a"] ++ [TaskStore.mkPathItem "u1"]) = Some t
    /\ TaskStore.id t = "u1".
Proof.
  destruct (addTask_read_back [Samples.project Samples.a_b] "p1"
              [TaskStore.mkPathItem "a"]
              (Samples.task "a" "Hull" [Samples.task "b" "Keel" []])
              (Samples.taskData "X") "u1" eq_refl eq_refl)
    as [db' [t [H1 [H2 [H3 _]]]]].
  exists db', t. exact (conj H1 (conj H2 H3)).
Defined.

(** ** Patching and toggling through the store *)

Section PatchThroughStore.
Import TaskStore.
Variables (taskId : string) (data : TaskPatch).
Hypothesis no_id : p_id data = None.

Lemma updateNestedTask_cb_id (t : Task) :
  id (updateNestedTask_cb taskId data t) = id t.
Proof.
  rewrite updateNestedTask_cb_eq.
  destruct (String.eqb (id t) taskId).
  - cbn [patchTask id]. rewrite no_id. reflexivity.
  - destruct (has_items (children t)); reflexivity.
Qed.

Lemma resolve_updateNestedTask :
  forall path tasks n,
    TaskTree.resolve tasks path = Some n ->
    ~ In taskId (removelast path) ->
    TaskTree.resolve (updateNestedTask taskId data tasks) path
    = Some (updateNestedTask_cb taskId data n).
Proof.
  induction path as [|seg rest IH]; intros tasks n H Hno; [discriminate H|].
  cbn [TaskTree.resolve] in *. unfold updateNestedTask at 1.
  rewrite (find_map_same_id _ seg tasks updateNestedTask_cb_id).
  destruct (find _ tasks) as [m|] eqn:Hm; [|discriminate H].
  cbn [option_map]. destruct rest as [|r rs].
  - injection H as <-. reflexivity.
  - apply find_some in Hm as [_ Hm]. apply String.eqb_eq in Hm.
    assert (E : String.eqb (id m) taskId = false).
    { apply String.eqb_neq. intros Heq. apply Hno. left. congruence. }
    rewrite updateNestedTask_cb_children by exact E.
    apply IH; [exact H|].
    intros Hin. apply Hno. right. exact Hin.
Qed.

End PatchThroughStore.

Section ToggleFacts.
Import TaskStore.

Lemma removelast_map_pid (path : list PathItem) :
  removelast (map pid path) = map pid (removelast path).
Proof.
  induction path as [|p [|q r] IH]; [reflexivity|reflexivity|].
  cbn [map removelast] in *. rewrite IH. reflexivity.
Qed.

Lemma last_map_pid (path : list PathItem) :
  last (map pid path) "" = pid (last path (mkPathItem "")).
Proof.
  induction path as [|p [|q r] IH]; [reflexivity|reflexivity|exact IH].
Qed.

Lemma cleanTask_with_completed (t : Task) (b : bool) :
  cleanTask (with_completed t b) = with_completed (cleanTask t) b.
Proof. destruct t; reflexivity. Qed.

Lemma patch_onlyCompleted (t : Task) (b : bool) :
  patchTask (onlyCompleted b) t = with_completed t b.
Proof. reflexivity. Qed.

Lemma with_completed_twice (t : Task) (b : bool) :
  with_completed (with_completed t b) (completed t) = t.
Proof. destruct t; reflexivity. Qed.

(** [updateTask] on a document that exists, then [getTaskByPath]. *)
Lemma updateTask_then_getTaskByPath
      (db : Firestore) (i : string) (upath path : list PathItem)
      (n : Task) (taskId : string) (data : TaskPatch) :
  p_id data = None ->
  getTaskByPath db i path = Some n ->
  ~ In taskId (map pid (removelast path)) ->
  exists db',
    updateTask db i upath taskId data = Ok db'
    /\ getTaskByPath db' i path
       = Some (cleanTask (updateNestedTask_cb taskId data n)).
Proof.
  intros Hid Hn Hno. unfold updateTask.
  destruct (fetchProject db i) as [p|] eqn:Hf.
  2: { unfold getTaskByPath in Hn. rewrite Hf in Hn. discriminate Hn. }
  eexists. split; [reflexivity|].
  rewrite (getTaskByPath_updateProject db i p _ path Hf).
  unfold getTaskByPath in Hn. rewrite Hf, getTaskByPath_in_resolve in Hn.
  cbn [with_tasks tasks].
  rewrite (resolve_updateNestedTask taskId data Hid _ _ _ Hn); [reflexivity|].
  rewrite removelast_map_pid. exact Hno.
Qed.

Lemma toggle_once
      (db : Firestore) (i : string) (path : list PathItem) (n : Task) :
  getTaskByPath db i path = Some n ->
  ~ In (id n) (map pid (removelast path)) ->
  exists db',
    toggleTaskCompletion db i path = Ok db'
    /\ getTaskByPath db' i path
       = Some (cleanTask (with_completed n (negb (completed n)))).
Proof.
  intros Hn Hno. unfold toggleTaskCompletion. rewrite Hn.
  assert (Hlast : pid (last path (mkPathItem "")) = id n).
  { unfold getTaskByPath in Hn.
    destruct (fetchProject db i); [|discriminate Hn].
    rewrite getTaskByPath_in_resolve in Hn.
    rewrite (resolve_last_id _ _ _ Hn). symmetry. apply last_map_pid. }
  rewrite Hlast.
  destruct (updateTask_then_getTaskByPath db i (removelast path) path n (id n)
              (onlyCompleted (negb (completed n))) eq_refl Hn Hno)
    as [db' [Hu Hg]].
  exists db'. split; [exact Hu|]. rewrite Hg.
  rewrite updateNestedTask_cb_match by apply String.eqb_refl.
  reflexivity.
Qed.

End ToggleFacts.

(** X5. [updateTask] through the store.  For a patch that carries no [id],
    a path that resolves to a node [n] and a target id that none of the
    path's segments before the last carries, [updateTask] resolves, and
    afterwards the same path reads the cleaned result of the patch scan on
    [n]: the cleaned [patchTask] of [n] when [n] has the target id, the
    cleaned [n] itself when the target id occurs nowhere in [n]'s subtree.
    The path handed to [updateTask] plays no part. *)
Theorem updateTask_read_back :
  forall (db : TaskStore.Firestore) (i : string)
         (upath path : list TaskStore.PathItem) (n : TaskStore.Task)
         (taskId : string) (data : TaskStore.TaskPatch),
    TaskStore.p_id data = None ->
    TaskStore.getTaskByPath db i path = Some n ->
    ~ In taskId (map TaskStore.pid (removelast path)) ->
    exists db',
      TaskStore.updateTask db i upath taskId data = Ok db'
      /\ (TaskStore.id n = taskId ->
          TaskStore.getTaskByPath db' i path
          = Some (TaskStore.cleanTask (TaskStore.patchTask data n)))
      /\ (TaskTree.occurs_in taskId n = false ->
          TaskStore.getTaskByPath db' i path = Some (TaskStore.cleanTask n)).
Proof.
  intros db i upath path n taskId data Hid Hn Hno.
  destruct (updateTask_then_getTaskByPath db i upath path n taskId data
              Hid Hn Hno) as [db' [Hu Hg]].
  exists db'. split; [exact Hu|]. split.
  - intros E. rewrite Hg, updateNestedTask_cb_match; [reflexivity|].
    apply String.eqb_eq. exact E.
  - intros E. rewrite Hg, updateNestedTask_cb_absent by exact E. reflexivity.
Qed.

Lemma updateTask_read_back_witness :
  exists db',
    TaskStore.updateTask [Samples.project Samples.a_b] "p1" [] "b"
      (TaskStore.onlyCompleted true) = Ok db'
    /\ TaskStore.getTaskByPath db' "p1"
         [TaskStore.mkPathItem "a"; TaskStore.mkPathItem "b"]
       = Some (TaskStore.cleanTask
                 (TaskStore.patchTask (TaskStore.onlyCompleted true)
                    (Samples.task "b" "Keel" []))).
Proof.
  assert (Hno : ~ In "b" (map TaskStore.pid
                   (removelast [TaskStore.mkPathItem "a";
                                TaskStore.mkPathItem "b"]))).
  { cbn. intros [H|[]]. discriminate H. }
  destruct (updateTask_read_back [Samples.project Samples.a_b] "p1" []
              [TaskStore.mkPathItem "a"; TaskStore.mkPathItem "b"]
              (Samples.task "b" "Keel" []) "b" (TaskStore.onlyCompleted true)
              eq_refl eq_refl Hno) as [db' [H1 [H2 _]]].
  exists db'. exact (conj H1 (H2 eq_refl)).
Defined.

(** X6. [toggleTaskCompletion] rejects with ['Task not found'] exactly when
    the path does not resolve (the empty path and a missing project
    included; it never reports ['Project not found']).  When the path
    resolves to [n] and no segment before the last carries [n]'s id, it
    resolves and the path then reads the cleaned [n] with [completed]
    negated; toggling a second time brings the cleaned [n] back. *)
Theorem toggleTaskCompletion_flips :
  forall (db : TaskStore.Firestore) (i : string)
         (path : list TaskStore.PathItem),
    (TaskStore.getTaskByPath db i path = None ->
     TaskStore.toggleTaskCompletion db i path = Throw "Task not found")
    /\ (forall n,
          TaskStore.getTaskByPath db i path = Some n ->
          exists db', TaskStore.toggleTaskCompletion db i path = Ok db')
    /\ (forall n,
          TaskStore.getTaskByPath db i path = Some n ->
          ~ In (TaskStore.id n) (map TaskStore.pid (removelast path)) ->
          exists db' db'',
            TaskStore.toggleTaskCompletion db i path = Ok db'
            /\ TaskStore.getTaskByPath db' i path
               = Some (TaskStore.cleanTask
                         (TaskStore.with_completed n
                            (negb (TaskStore.completed n))))
            /\ TaskStore.toggleTaskCompletion db' i path = Ok db''
            /\ TaskStore.getTaskByPath db'' i path
               = Some (TaskStore.cleanTask n)).
Proof.
  intros db i path. split; [|split].
  - intros H. unfold TaskStore.toggleTaskCompletion. rewrite H. reflexivity.
  - intros n Hn. unfold TaskStore.toggleTaskCompletion. rewrite Hn.
    unfold TaskStore.getTaskByPath in Hn. unfold TaskStore.updateTask.
    destruct (TaskStore.fetchProject db i); [|discriminate Hn].
    eexists. reflexivity.
  - intros n Hn Hno.
    destruct (toggle_once db i path n Hn Hno) as [db' [H1 H2]].
    assert (Hno' : ~ In (TaskStore.id
                           (TaskStore.cleanTask
                              (TaskStore.with_completed n
                                 (negb (TaskStore.completed n)))))
                        (map TaskStore.pid (removelast path))).
    { rewrite cleanTask_id. exact Hno. }
    destruct (toggle_once db' i path _ H2 Hno') as [db'' [H3 H4]].
    exists db', db''. split; [exact H1|]. split; [exact H2|].
    split; [exact H3|]. rewrite H4.
    rewrite !cleanTask_with_completed, cleanTask_idem.
    destruct n; cbn. rewrite negb_involutive. reflexivity.
Qed.

Lemma toggleTaskCompletion_flips_witness :
  TaskStore.toggleTaskCompletion [Samples.project Samples.a_b] "p1" []
  = Throw "Task not found"
  /\ exists db' db'',
      TaskStore.toggleTaskCompletion [Samples.project Samples.a_b] "p1"
        [TaskStore.mkPathItem "a"; TaskStore.mkPathItem "b"] = Ok db'
      /\ TaskStore.toggleTaskCompletion db' "p1"
           [TaskStore.mkPathItem "a"; TaskStore.mkPathItem "b"] = Ok db''
      /\ TaskStore.getTaskByPath db'' "p1"
           [TaskStore.mkPathItem "a"; TaskStore.mkPathItem "b"]
         = Some (TaskStore.cleanTask (Samples.task "b" "Keel" [])).
Proof.
  split.
  - exact (proj1 (toggleTaskCompletion_flips [Samples.project Samples.a_b]
                    "p1" []) eq_refl).
  - assert (Hno : ~ In (TaskStore.id (Samples.task "b" "Keel" []))
                       (map TaskStore.pid
                          (removelast [TaskStore.mkPathItem "a";
                                       TaskStore.mkPathItem "b"]))).
    { cbn. intros [H|[]]. discriminate H. }
    destruct (proj2 (proj2 (toggleTaskCompletion_flips
                       [Samples.project Samples.a_b] "p1"
                       [TaskStore.mkPathItem "a"; TaskStore.mkPathItem "b"]))
                (Samples.task "b" "Keel" []) eq_refl Hno)
      as [db' [db'' [H1 [_ [H3 H4]]]]].
    exists db', db''. exact (conj H1 (conj H3 H4)).
Defined.

(** ** Deleting, then reading *)

Section DeleteThenResolve.
Import TaskStore.
Variable taskId : string.

Lemma find_all_false {X : Type} (f : X -> bool) (l : list X) :
  (forall x, In x l -> f x = false) -> find f l = None.
Proof.
  induction l as [|x l IH]; intros H; [reflexivity|].
  cbn [find]. rewrite (H x (or_introl eq_refl)).
  apply IH. intros y Hy. apply H. right. exact Hy.
Qed.

Lemma find_kept (seg : string) (l : list Task) :
  String.eqb taskId seg = false ->
  find (fun n => String.eqb (id n) seg) (filter (deleteNestedTask_keep taskId) l)
  = find (fun n => String.eqb (id n) seg) l.
Proof.
  intros Hs. induction l as [|x l IH]; [reflexivity|].
  cbn [filter find]. unfold deleteNestedTask_keep at 1.
  destruct (String.eqb (id x) taskId) eqn:E; cbn [negb].
  - apply String.eqb_eq in E.
    assert (Hx : String.eqb (id x) seg = false).
    { rewrite E. exact Hs. }
    rewrite Hx. exact IH.
  - cbn [find]. destruct (String.eqb (id x) seg); [reflexivity | exact IH].
Qed.

Lemma find_deleted (l : list Task) :
  find (fun n => String.eqb (id n) taskId)
       (filter (deleteNestedTask_keep taskId) l) = None.
Proof.
  apply find_all_false. intros x Hx. apply filter_In in Hx as [_ Hx].
  unfold deleteNestedTask_keep in Hx. apply negb_true_iff in Hx. exact Hx.
Qed.

Lemma resolve_deleteNestedTask :
  forall path tasks,
    TaskTree.resolve (deleteNestedTask taskId tasks) path
    = if existsb (String.eqb taskId) path then None
      else option_map (deleteNestedTask_after taskId)
             (TaskTree.resolve tasks path).
Proof.
  induction path as [|seg rest IH]; intros tasks; [reflexivity|].
  cbn [TaskTree.resolve existsb]. unfold deleteNestedTask at 1.
  destruct (String.eqb taskId seg) eqn:Hs.
  - apply String.eqb_eq in Hs. subst seg. rewrite find_deleted. reflexivity.
  - rewrite find_kept by exact Hs.
    rewrite (find_map_same_id _ seg tasks (deleteNestedTask_after_id taskId)).
    cbn [orb]. destruct (find _ tasks) as [m|] eqn:Hm; cbn [option_map].
    2: { destruct (existsb _ rest); reflexivity. }
    destruct rest as [|r rs]; [reflexivity|].
    apply find_some in Hm as [_ Hm]. apply String.eqb_eq in Hm.
    assert (E : String.eqb (id m) taskId = false).
    { rewrite Hm, String.eqb_sym. exact Hs. }
    rewrite deleteNestedTask_after_children by exact E.
    cbn [with_children children]. apply IH.
Qed.

Lemma resolve_deleteNestedTask_pruned :
  forall path tasks,
    TaskTree.resolve (deleteNestedTask taskId tasks) path
    = if existsb (String.eqb taskId) path then None
      else option_map
             (fun n => with_children n (deleteNestedTask taskId (children n)))
             (TaskTree.resolve tasks path).
Proof.
  intros path tasks. rewrite resolve_deleteNestedTask.
  destruct (existsb (String.eqb taskId) path) eqn:Hex; [reflexivity|].
  destruct (TaskTree.resolve tasks path) as [n|] eqn:Hn; [|reflexivity].
  cbn [option_map]. f_equal. apply deleteNestedTask_after_children.
  rewrite (resolve_last_id _ _ _ Hn).
  destruct (String.eqb (last path "") taskId) eqn:E; [|reflexivity].
  apply String.eqb_eq in E. exfalso.
  assert (Hin : In taskId path).
  { rewrite <- E. destruct path as [|s r]; [discriminate Hn|].
    clear. revert s. induction r as [|q r IH]; intros s.
    - left. reflexivity.
    - right. exact (IH q). }
  assert (Ht : existsb (String.eqb taskId) path = true).
  { apply existsb_exists. exists taskId. split; [exact Hin|].
    apply String.eqb_refl. }
  congruence.
Qed.

End DeleteThenResolve.

(** X7. [deleteTask] through the store: on a project that exists it
    resolves, and afterwards a path one of whose segments is the deleted id
    resolves to nothing, while any other path resolves as it did before, to
    the cleaned node with its children pruned of the deleted id. *)
Theorem deleteTask_read_back :
  forall (db : TaskStore.Firestore) (i : string)
         (dpath : list TaskStore.PathItem) (taskId : string)
         (p : TaskStore.Project),
    TaskStore.fetchProject db i = Some p ->
    exists db',
      TaskStore.deleteTask db i dpath taskId = Ok db'
      /\ forall path,
          TaskStore.getTaskByPath db' i path
          = if existsb (String.eqb taskId) (map TaskStore.pid path) then None
            else option_map
                   (fun n =>
                      TaskStore.cleanTask
                        (TaskStore.with_children n
                           (TaskStore.deleteNestedTask taskId
                              (TaskStore.children n))))
                   (TaskStore.getTaskByPath db i path).
Proof.
  intros db i dpath taskId p Hf. unfold TaskStore.deleteTask. rewrite Hf.
  eexists. split; [reflexivity|]. intros path.
  rewrite (getTaskByPath_updateProject db i p _ path Hf).
  cbn [TaskStore.with_tasks TaskStore.tasks].
  rewrite resolve_deleteNestedTask_pruned.
  unfold TaskStore.getTaskByPath. rewrite Hf, getTaskByPath_in_resolve.
  destruct (existsb _ _); [reflexivity|].
  destruct (TaskTree.resolve _ _); reflexivity.
Qed.

Lemma deleteTask_read_back_witness :
  exists db',
    TaskStore.deleteTask [Samples.project Samples.a_b] "p1" [] "b" = Ok db'
    /\ TaskStore.getTaskByPath db' "p1"
         [TaskStore.mkPathItem "a"; TaskStore.mkPathItem "b"] = None
    /\ TaskStore.getTaskByPath db' "p1" [TaskStore.mkPathItem "a"]
       = Some (TaskStore.cleanTask (Samples.task "a" "Hull" [])).
Proof.
  destruct (deleteTask_read_back [Samples.project Samples.a_b] "p1" [] "b"
              (Samples.project Samples.a_b) eq_refl) as [db' [H1 H2]].
  exists db'. split; [exact H1|]. split.
  - exact (H2 [TaskStore.mkPathItem "a"; TaskStore.mkPathItem "b"]).
  - exact (H2 [TaskStore.mkPathItem "a"]).
Defined.

(** ** The user's tasks after a write *)

Section AggregationFacts.
Import TaskStore.

Lemma preorder_of_cleanTask (t : Task) :
  TaskTree.preorder_of (cleanTask t) = map cleanTask (TaskTree.preorder_of t).
Proof.
  induction t as [i n d h c a dl cp ch pj IH] using Task_ind.
  cbn [cleanTask TaskTree.preorder_of children map]. f_equal.
  induction IH as [|x l Hx _ IHl]; [reflexivity|].
  cbn [map flat_map]. rewrite map_app, <- Hx, <- IHl. reflexivity.
Qed.

Lemma preorder_cleanTasks (ts : list Task) :
  TaskTree.preorder (cleanTasks ts) = map cleanTask (TaskTree.preorder ts).
Proof.
  unfold TaskTree.preorder, cleanTasks.
  induction ts as [|x l IH]; [reflexivity|].
  cbn [map flat_map]. rewrite map_app, preorder_of_cleanTask, IH. reflexivity.
Qed.

Lemma isAssigned_cleanTask (u : string) (t : Task) :
  isAssigned u (cleanTask t) = isAssigned u t.
Proof.
  destruct t as [i n d h c a dl cp ch pj]. unfold isAssigned.
  cbn [cleanTask assignedTo]. destruct a as [users|]; [|reflexivity].
  rewrite map_cleanUser. reflexivity.
Qed.

Lemma occurs_preorder_of (taskId : string) (t : Task) :
  TaskTree.occurs_in taskId t
  = existsb (fun n => String.eqb (id n) taskId) (TaskTree.preorder_of t).
Proof.
  induction t as [i n d h c a dl cp ch pj IH] using Task_ind.
  cbn [TaskTree.occurs_in TaskTree.preorder_of existsb id children]. f_equal.
  induction IH as [|x l Hx _ IHl]; [reflexivity|].
  cbn [existsb flat_map]. rewrite existsb_app, Hx, IHl. reflexivity.
Qed.

Lemma occurs_preorder (taskId : string) (ts : list Task) :
  TaskTree.occurs taskId ts
  = existsb (fun n => String.eqb (id n) taskId) (TaskTree.preorder ts).
Proof.
  unfold TaskTree.occurs, TaskTree.preorder.
  induction ts as [|x l IH]; [reflexivity|].
  cbn [existsb flat_map]. rewrite existsb_app, occurs_preorder_of, IH.
  reflexivity.
Qed.

Lemma userTasks_flat_map (u : string) (db : Firestore) (st : ProjectState) :
  userTasks (fetchUserTasks (Some u) db st)
  = flat_map
      (fun project =>
         map (fun t => with_projectId t (docId project))
             (filter (isAssigned u) (TaskTree.preorder (tasks project))))
      db.
Proof.
  cbn [fetchUserTasks userTasks].
  rewrite (fold_left_append
             (fun project => findUserTasks u (tasks project) (docId project))).
  cbn [app]. apply flat_map_ext. intros project.
  apply findUserTasks_preorder.
Qed.

Lemma updateProject_member (db : Firestore) (i : string) (pd q : Project) :
  In q (updateProject db i pd) -> docId q = i ->
  tasks q = cleanTasks (tasks pd).
Proof.
  unfold updateProject. intros Hin Hid.
  apply in_map_iff in Hin as [q0 [Hq _]].
  destruct (String.eqb (docId q0) i) eqn:E.
  - subst q. reflexivity.
  - subst q. apply String.eqb_neq in E. contradiction.
Qed.

End AggregationFacts.

(** X8. Cleaning a tree does not change who is assigned to what: the user's
    tasks found in the cleaned tree are the cleaned copies, in the same
    order and with the same [projectId], of the user's tasks found in the
    tree before cleaning. *)
Theorem findUserTasks_cleanTasks :
  forall (u projectId : string) (tasks : list TaskStore.Task),
    TaskStore.findUserTasks u (TaskStore.cleanTasks tasks) projectId
    = map (fun t =>
             TaskStore.with_projectId (TaskStore.cleanTask t) projectId)
          (filter (TaskStore.isAssigned u) (TaskTree.preorder tasks))
    /\ map TaskStore.id
         (TaskStore.findUserTasks u (TaskStore.cleanTasks tasks) projectId)
       = map TaskStore.id (TaskStore.findUserTasks u tasks projectId).
Proof.
  intros u projectId tasks.
  assert (E : TaskStore.findUserTasks u (TaskStore.cleanTasks tasks) projectId
              = map (fun t =>
                       TaskStore.with_projectId (TaskStore.cleanTask t)
                         projectId)
                    (filter (TaskStore.isAssigned u)
                            (TaskTree.preorder tasks))).
  { rewrite findUserTasks_preorder, preorder_cleanTasks, filter_map_swap.
    rewrite map_map. f_equal. apply filter_ext. intros t.
    apply isAssigned_cleanTask. }
  split; [exact E|].
  rewrite E, findUserTasks_preorder, !map_map. apply map_ext.
  intros t. destruct t; reflexivity.
Qed.

(** X9. After [deleteTask] has resolved for a project, none of the user's
    tasks that [fetchUserTasks] lists for that project has the deleted
    id. *)
Theorem deleteTask_then_fetchUserTasks :
  forall (db db' : TaskStore.Firestore) (i : string)
         (dpath : list TaskStore.PathItem) (taskId u : string)
         (st : TaskStore.ProjectState) (t : TaskStore.Task),
    TaskStore.deleteTask db i dpath taskId = Ok db' ->
    In t (TaskStore.userTasks (TaskStore.fetchUserTasks (Some u) db' st)) ->
    TaskStore.projectId t = Some i ->
    TaskStore.id t <> taskId.
Proof.
  intros db db' i dpath taskId u st t Hdel Hin Hpj.
  unfold TaskStore.deleteTask in Hdel.
  destruct (TaskStore.fetchProject db i) as [p|]; [|discriminate Hdel].
  injection Hdel as <-.
  rewrite userTasks_flat_map in Hin.
  apply in_flat_map in Hin as [q [Hq Hin]].
  apply in_map_iff in Hin as [x [Hx Hin]].
  apply filter_In in Hin as [Hin _].
  subst t. cbn [TaskStore.with_projectId TaskStore.projectId TaskStore.id] in *.
  injection Hpj as Hq_id.
  rewrite (updateProject_member _ _ _ _ Hq Hq_id) in Hin.
  cbn [TaskStore.with_tasks TaskStore.tasks] in Hin.
  rewrite preorder_cleanTasks in Hin.
  apply in_map_iff in Hin as [y [<- Hy]]. rewrite cleanTask_id.
  pose proof (deleteNestedTask_clears taskId (TaskStore.tasks p)) as Hc.
  rewrite occurs_preorder in Hc.
  apply existsb_false_Forall in Hc. rewrite Forall_forall in Hc.
  apply String.eqb_neq. apply Hc. exact Hy.
Qed.

Lemma deleteTask_then_fetchUserTasks_witness :
  TaskStore.id
    (TaskStore.with_projectId
       (TaskStore.cleanTask
          (TaskStore.mkTask "a" "Hull" "" None None
             (Some [TaskStore.mkUser "u1" "Ada" "ada@example.org"])
             undefined false [] None)) "p1")
  <> "b".
Proof.
  refine (deleteTask_then_fetchUserTasks
            [Samples.project
               [TaskStore.mkTask "a" "Hull" "" None None
                  (Some [TaskStore.mkUser "u1" "Ada" "ada@example.org"])
                  undefined false [Samples.task "b" "Keel" []] None]]
            _ "p1" [] "b" "u1" (TaskStore.mkProjectState [] false None)
            (TaskStore.with_projectId
               (TaskStore.cleanTask
                  (TaskStore.mkTask "a" "Hull" "" None None
                     (Some [TaskStore.mkUser "u1" "Ada" "ada@example.org"])
                     undefined false [] None)) "p1")
            eq_refl _ eq_refl).
  left. reflexivity.
Defined.

(** ** Deleting a project *)

Section DeleteProjectFacts.
Import TaskStore.

Lemma fetchProject_deleteProject (db : Firestore) (i : string) :
  fetchProject (deleteProject db i) i = None.
Proof.
  unfold fetchProject, deleteProject. apply find_all_false.
  intros q Hq. apply filter_In in Hq as [_ Hq].
  apply negb_true_iff in Hq. exact Hq.
Qed.

Lemma fetchProject_deleteProject_other (db : Firestore) (i j : string) :
  j <> i -> fetchProject (deleteProject db i) j = fetchProject db j.
Proof.
  intros Hji. unfold fetchProject, deleteProject.
  induction db as [|q db IH]; [reflexivity|].
  cbn [filter find]. destruct (String.eqb (docId q) i) eqn:E; cbn [negb].
  - apply String.eqb_eq in E.
    assert (Hq : String.eqb (docId q) j = false).
    { apply String.eqb_neq. congruence. }
    rewrite Hq. exact IH.
  - cbn [find]. destruct (String.eqb (docId q) j); [reflexivity | exact IH].
Qed.

End DeleteProjectFacts.

(** X10. Once [deleteProject] has removed a project, the project is gone
    and stays gone: [fetchProject] and [getTaskByPath] return [null] for its
    id, [addTask], [updateTask] and [deleteTask] reject with
    ['Project not found'], [toggleTaskCompletion] with ['Task not found'],
    and [fetchUserTasks] lists no task of it.  Every other project is
    fetched as before, and deleting again changes nothing. *)
Theorem deleteProject_forgets :
  forall (db : TaskStore.Firestore) (i : string),
    TaskStore.fetchProject (TaskStore.deleteProject db i) i = None
    /\ (forall j,
          j <> i ->
          TaskStore.fetchProject (TaskStore.deleteProject db i) j
          = TaskStore.fetchProject db j)
    /\ (forall path,
          TaskStore.getTaskByPath (TaskStore.deleteProject db i) i path = None)
    /\ (forall path taskData uuid,
          TaskStore.addTask (TaskStore.deleteProject db i) i path taskData uuid
          = Throw "Project not found")
    /\ (forall path taskId data,
          TaskStore.updateTask (TaskStore.deleteProject db i) i path taskId data
          = Throw "Project not found")
    /\ (forall path taskId,
          TaskStore.deleteTask (TaskStore.deleteProject db i) i path taskId
          = Throw "Project not found")
    /\ (forall path,
          TaskStore.toggleTaskCompletion (TaskStore.deleteProject db i) i path
          = Throw "Task not found")
    /\ (forall u st,
          Forall (fun t => TaskStore.projectId t <> Some i)
            (TaskStore.userTasks
               (TaskStore.fetchUserTasks (Some u)
                  (TaskStore.deleteProject db i) st)))
    /\ TaskStore.deleteProject (TaskStore.deleteProject db i) i
       = TaskStore.deleteProject db i.
Proof.
  intros db i.
  pose proof (fetchProject_deleteProject db i) as Hf.
  assert (Hg : forall path,
            TaskStore.getTaskByPath (TaskStore.deleteProject db i) i path
            = None).
  { intros path. unfold TaskStore.getTaskByPath. rewrite Hf. reflexivity. }
  split; [exact Hf|].
  split; [intros j Hj; apply fetchProject_deleteProject_other; exact Hj|].
  split; [exact Hg|].
  split; [intros; unfold TaskStore.addTask; rewrite Hf; reflexivity|].
  split; [intros; unfold TaskStore.updateTask; rewrite Hf; reflexivity|].
  split; [intros; unfold TaskStore.deleteTask; rewrite Hf; reflexivity|].
  split; [intros; unfold TaskStore.toggleTaskCompletion; rewrite Hg;
          reflexivity|].
  split.
  - intros u st. rewrite userTasks_flat_map. apply Forall_forall.
    intros t Ht. apply in_flat_map in Ht as [q [Hq Ht]].
    apply in_map_iff in Ht as [x [<- _]].
    unfold TaskStore.deleteProject in Hq. apply filter_In in Hq as [_ Hq].
    apply negb_true_iff, String.eqb_neq in Hq.
    cbn [TaskStore.with_projectId TaskStore.projectId]. congruence.
  - unfold TaskStore.deleteProject. apply filter_all.
    apply Forall_forall. intros q Hq. apply filter_In in Hq as [_ Hq].
    exact Hq.
Qed.

Lemma deleteProject_forgets_witness :
  TaskStore.fetchProject
    (TaskStore.deleteProject
       [Samples.project Samples.a_b;
        TaskStore.mkProject "p2" "p-000002" "Deck" ""
          (TaskStore.mkCustomer "" "" "") [] ""] "p1") "p2"
  = TaskStore.fetchProject
      [Samples.project Samples.a_b;
       TaskStore.mkProject "p2" "p-000002" "Deck" ""
         (TaskStore.mkCustomer "" "" "") [] ""] "p2".
Proof.
  refine (proj1 (proj2 (deleteProject_forgets _ "p1")) "p2" _).
  discriminate.
Defined.

(** ** The shape of the tree under a patch and under an insert *)

Section ShapeFacts.
Import TaskStore.

Lemma length_flat_map_Forall {X Y : Type} (f g : X -> list Y) (l : list X) :
  Forall (fun x => List.length (f x) = List.length (g x)) l ->
  List.length (flat_map f l) = List.length (flat_map g l).
Proof.
  induction 1 as [|x l Hx _ IH]; [reflexivity|].
  cbn [flat_map]. rewrite !length_app, Hx, IH. reflexivity.
Qed.

Lemma preorder_map (f : Task -> Task) (l : list Task) :
  TaskTree.preorder (map f l)
  = flat_map (fun t => TaskTree.preorder_of (f t)) l.
Proof.
  unfold TaskTree.preorder. induction l as [|x l IH]; [reflexivity|].
  cbn [map flat_map]. rewrite IH. reflexivity.
Qed.

Lemma updateNestedTask_cb_size (taskId : string) (data : TaskPatch) (t : Task) :
  List.length (TaskTree.preorder_of (updateNestedTask_cb taskId data t))
  = List.length (TaskTree.preorder_of t).
Proof.
  induction t as [i n d h c a dl cp ch pj IH] using Task_ind.
  rewrite updateNestedTask_cb_eq.
  destruct (String.eqb _ taskId); [reflexivity|].
  destruct (has_items _); [|reflexivity].
  rewrite !preorder_of_eq. cbn [with_children children List.length]. f_equal.
  unfold updateNestedTask. rewrite preorder_map.
  apply length_flat_map_Forall. exact IH.
Qed.

Lemma updateNestedTask_cb_ids (taskId : string) (data : TaskPatch) (t : Task) :
  p_id data = None ->
  map id (TaskTree.preorder_of (updateNestedTask_cb taskId data t))
  = map id (TaskTree.preorder_of t).
Proof.
  intros Hid.
  induction t as [i n d h c a dl cp ch pj IH] using Task_ind.
  rewrite updateNestedTask_cb_eq.
  destruct (String.eqb _ taskId).
  - rewrite !preorder_of_eq. cbn [map patchTask id children].
    rewrite Hid. reflexivity.
  - destruct (has_items _); [|reflexivity].
    rewrite !preorder_of_eq. cbn [with_children children map id]. f_equal.
    unfold updateNestedTask. rewrite preorder_map. unfold TaskTree.preorder.
    induction IH as [|x l Hx _ IHl]; [reflexivity|].
    cbn [flat_map]. rewrite !map_app, Hx, IHl. reflexivity.
Qed.

End ShapeFacts.

(** X11. A patch never adds or removes a node: the tree [updateNestedTask]
    returns has as many nodes as the input, and, when the patch carries no
    [id], the same ids in the same depth-first order. *)
Theorem updateNestedTask_keeps_shape :
  forall (taskId : string) (data : TaskStore.TaskPatch)
         (tasks : list TaskStore.Task),
    List.length (TaskTree.preorder (TaskStore.updateNestedTask taskId data tasks))
    = List.length (TaskTree.preorder tasks)
    /\ (TaskStore.p_id data = None ->
        map TaskStore.id
          (TaskTree.preorder (TaskStore.updateNestedTask taskId data tasks))
        = map TaskStore.id (TaskTree.preorder tasks)).
Proof.
  intros taskId data tasks. unfold TaskStore.updateNestedTask.
  rewrite preorder_map. split.
  - unfold TaskTree.preorder. apply length_flat_map_Forall.
    apply Forall_forall. intros t _. apply updateNestedTask_cb_size.
  - intros Hid. unfold TaskTree.preorder.
    induction tasks as [|x l IH]; [reflexivity|].
    cbn [flat_map]. rewrite !map_app, IH.
    rewrite (updateNestedTask_cb_ids taskId data x Hid). reflexivity.
Qed.

Lemma updateNestedTask_keeps_shape_witness :
  map TaskStore.id
    (TaskTree.preorder
       (TaskStore.updateNestedTask "a" (TaskStore.onlyCompleted true)
          Samples.a_b))
  = map TaskStore.id (TaskTree.preorder Samples.a_b).
Proof.
  exact (proj2 (updateNestedTask_keeps_shape "a"
                  (TaskStore.onlyCompleted true) Samples.a_b) eq_refl).
Defined.

Section InsertCount.
Import TaskStore.
Variable nt : Task.

Lemma no_other_with_id (seg : string) (l : list Task) (x : Task) :
  negb (existsb (String.eqb (id x)) (map id l)) = true ->
  String.eqb (id x) seg = true ->
  Forall (fun y => String.eqb (id y) seg = false) l.
Proof.
  intros Hn Hx. apply negb_true_iff in Hn. apply String.eqb_eq in Hx.
  apply Forall_forall. intros y Hy.
  destruct (String.eqb (id y) seg) eqn:E; [|reflexivity].
  apply String.eqb_eq in E. exfalso.
  assert (Hex : existsb (String.eqb (id x)) (map id l) = true).
  { apply existsb_exists. exists (id y). split; [apply in_map; exact Hy|].
    apply String.eqb_eq. congruence. }
  congruence.
Qed.

Lemma size_cons (t : Task) (l : list Task) :
  List.length (TaskTree.preorder (t :: l))
  = S (List.length (TaskTree.preorder (children t))
       + List.length (TaskTree.preorder l)).
Proof.
  unfold TaskTree.preorder at 1. cbn [flat_map].
  rewrite length_app, preorder_of_eq. reflexivity.
Qed.

Lemma size_snoc (l : list Task) (t : Task) :
  List.length (TaskTree.preorder (l ++ [t]))
  = List.length (TaskTree.preorder l) + List.length (TaskTree.preorder_of t).
Proof.
  unfold TaskTree.preorder. rewrite flat_map_app, length_app.
  cbn [flat_map]. rewrite app_nil_r. reflexivity.
Qed.

Lemma updateNestedTasks_size :
  forall path tasks n,
    TaskTree.resolve tasks (map pid path) = Some n ->
    TaskTree.siblings_unique tasks = true ->
    List.length (TaskTree.preorder (updateNestedTasks nt tasks path))
    = List.length (TaskTree.preorder tasks)
      + List.length (TaskTree.preorder_of nt).
Proof.
  induction path as [|seg rest IH]; intros tasks n H Hu; [discriminate H|].
  unfold TaskTree.siblings_unique in Hu. apply andb_true_iff in Hu as [Hd Hall].
  cbn [map TaskTree.resolve] in H. cbn [updateNestedTasks].
  revert H Hd Hall. induction tasks as [|x l IHl]; intros H Hd Hall;
    [discriminate H|].
  cbn [map TaskTree.distinct forallb find] in *.
  apply andb_true_iff in Hd as [Hx Hd].
  apply andb_true_iff in Hall as [Hux Hall].
  destruct (String.eqb (id x) (pid seg)) eqn:E.
  - rewrite (map_fixed _ l).
    2: { pose proof (no_other_with_id (pid seg) l x Hx E) as F.
         revert F. apply Forall_impl. intros y Hy. rewrite Hy. reflexivity. }
    rewrite !size_cons. cbn [with_children children].
    rewrite siblings_unique_in_children in Hux.
    destruct rest as [|r rs].
    + cbn [updateNestedTasks]. rewrite size_snoc.
      lia.
    + rewrite (IH (children x) n H Hux).
      lia.
  - rewrite !size_cons. rewrite (IHl H Hd Hall).
    lia.
Qed.

End InsertCount.

(** X12. When the path resolves and no two siblings of the tree share an
    id, the tree [addTask] computes has exactly one node more than the
    input tree. *)
Theorem addTask_adds_one_node :
  forall (project : TaskStore.Project) (path : list TaskStore.PathItem)
         (n : TaskStore.Task) (taskData : TaskStore.TaskData) (uuid : string),
    TaskStore.getTaskByPath_in (Some project) path = Some n ->
    TaskTree.siblings_unique (TaskStore.tasks project) = true ->
    List.length
      (TaskTree.preorder
         (TaskStore.addTask_updatedTasks project path
            (TaskStore.newTask taskData uuid)))
    = S (List.length (TaskTree.preorder (TaskStore.tasks project))).
Proof.
  intros project path n taskData uuid Hn Hu.
  rewrite getTaskByPath_in_resolve in Hn.
  destruct path as [|seg rest]; [discriminate Hn|].
  cbn [TaskStore.addTask_updatedTasks].
  rewrite (updateNestedTasks_size _ _ _ n Hn Hu).
  cbn [TaskStore.newTask TaskTree.preorder_of TaskStore.children flat_map
       List.length].
  apply Nat.add_1_r.
Qed.

Lemma addTask_adds_one_node_witness :
  List.length
    (TaskTree.preorder
       (TaskStore.addTask_updatedTasks (Samples.project Samples.a_b)
          [TaskStore.mkPathItem "a"; TaskStore.mkPathItem "b"]
          (TaskStore.newTask (Samples.taskData "X") "u1")))
  = S (List.length
         (TaskTree.preorder (TaskStore.tasks (Samples.project Samples.a_b)))).
Proof.
  exact (addTask_adds_one_node (Samples.project Samples.a_b)
           [TaskStore.mkPathItem "a"; TaskStore.mkPathItem "b"]
           (Samples.task "b" "Keel" []) (Samples.taskData "X") "u1"
           eq_refl eq_refl).
Defined.

(** ** The deliverable store: reading after a write *)

Section ItemLists.
Import DeliverableStore.

Lemma item_find_map (f : Item -> Item) (seg : string) (l : list Item) :
  (forall x, id (f x) = id x) ->
  find (fun n => String.eqb (id n) seg) (map f l)
  = option_map f (find (fun n => String.eqb (id n) seg) l).
Proof.
  intros Hf. induction l as [|x l IH]; [reflexivity|].
  cbn [map find]. rewrite Hf.
  destruct (String.eqb (id x) seg); [reflexivity | exact IH].
Qed.

Lemma item_find_snoc (f : Item -> bool) (l : list Item) (x : Item) :
  find f (l ++ [x]) =
  match find f l with
  | Some y => Some y
  | None => if f x then Some x else None
  end.
Proof.
  induction l as [|y l IH]; [reflexivity|].
  cbn [app find]. destruct (f y); [reflexivity | exact IH].
Qed.

Lemma item_find_filter (taskId seg : string) (l : list Item) :
  String.eqb seg taskId = false ->
  find (fun n => String.eqb (id n) seg)
       (filter (fun t => negb (String.eqb (id t) taskId)) l)
  = find (fun n => String.eqb (id n) seg) l.
Proof.
  intros Hs. induction l as [|x l IH]; [reflexivity|].
  cbn [filter find].
  destruct (String.eqb (id x) taskId) eqn:E; cbn [negb].
  - apply String.eqb_eq in E.
    assert (Hx : String.eqb (id x) seg = false).
    { rewrite E, String.eqb_sym. exact Hs. }
    rewrite Hx. exact IH.
  - cbn [find]. destruct (String.eqb (id x) seg); [reflexivity | exact IH].
Qed.

Lemma item_find_filtered (taskId : string) (l : list Item) :
  find (fun n => String.eqb (id n) taskId)
       (filter (fun t => negb (String.eqb (id t) taskId)) l) = None.
Proof.
  apply find_all_false. intros x Hx. apply filter_In in Hx as [_ Hx].
  apply negb_true_iff in Hx. exact Hx.
Qed.

Lemma item_find_id (seg : string) (l : list Item) (m : Item) :
  find (fun n => String.eqb (id n) seg) l = Some m -> id m = seg.
Proof.
  intros H. apply find_some in H as [_ H]. apply String.eqb_eq. exact H.
Qed.

(** [updateProject], then [fetchProject] of the same id: the document
    handed over, under the id it is stored at. *)
Lemma item_fetchProject_updateProject
      (db : Firestore) (i : string) (p pd : Project) :
  fetchProject db i = Some p ->
  fetchProject (updateProject db i pd) i
  = Some (mkProject i (internalId pd) (pname pd) (pdescription pd)
            (customer pd) (deliverables pd) (createdAt pd)).
Proof.
  unfold fetchProject, updateProject.
  induction db as [|q db IH]; intros H; [discriminate H|].
  cbn [map find] in *. destruct (String.eqb (docId q) i) eqn:E.
  - cbn [docId]. rewrite E. apply String.eqb_eq in E. rewrite E. reflexivity.
  - rewrite E. apply IH. exact H.
Qed.

Lemma item_fetchProject_updateProject_other
      (db : Firestore) (i j : string) (pd : Project) :
  String.eqb i j = false ->
  fetchProject (updateProject db i pd) j = fetchProject db j.
Proof.
  intros Hij. unfold fetchProject, updateProject.
  induction db as [|q db IH]; [reflexivity|].
  cbn [map find]. destruct (String.eqb (docId q) i) eqn:E.
  - cbn [docId]. apply String.eqb_eq in E. rewrite E, Hij. exact IH.
  - destruct (String.eqb (docId q) j); [reflexivity | exact IH].
Qed.

(** What [getItemByPath] reads once [updateProject] has written. *)
Lemma getItemByPath_updateProject
      (db : Firestore) (i : string) (p pd : Project) (path : list PathItem) :
  fetchProject db i = Some p ->
  getItemByPath (updateProject db i pd) i path
  = getItemByPath_in (Some pd) path.
Proof.
  intros Hf. unfold getItemByPath.
  rewrite (item_fetchProject_updateProject db i p pd Hf).
  rewrite !getItemByPath_in_resolve. reflexivity.
Qed.

Lemma item_resolve_last_id :
  forall path root n,
    ItemTree.resolve root path = Some n -> last path "" = id n.
Proof.
  induction path as [|seg rest IH]; intros root n H; [discriminate H|].
  cbn [ItemTree.resolve] in H.
  destruct (find _ root) as [m|] eqn:Hm; [|discriminate H].
  destruct rest as [|r rs].
  - injection H as <-. cbn [last]. symmetry. exact (item_find_id _ _ _ Hm).
  - change (last (seg :: r :: rs) "") with (last (r :: rs) "").
    exact (IH _ _ H).
Qed.

End ItemLists.

(** ** [deleteSubTask]: which levels the filter reaches *)

Section ItemDeletionLevels.
Import DeliverableStore.
Variable taskId : string.

Lemma deleteTaskFromItem_cb_id (t : Item) :
  id (deleteTaskFromItem_cb taskId t) = id t.
Proof. destruct t; reflexivity. Qed.

Lemma with_subTasks_back (t : Item) (s : list Item) :
  with_subTasks (with_subTasks t s) (subTasks t) = t.
Proof. destruct t; reflexivity. Qed.

Lemma resolve_deleteTaskFromItem :
  forall path,
    (forall items n,
        ItemTree.resolve items path = Some n ->
        ItemTree.spared taskId false path = true ->
        exists n',
          ItemTree.resolve (deleteTaskFromItem taskId items) path = Some n'
          /\ with_subTasks n' (subTasks n) = n)
    /\ (forall items n,
        ItemTree.resolve items path = Some n ->
        ItemTree.spared taskId true path = true ->
        exists n',
          ItemTree.resolve
            (map (fun t => with_subTasks t
                             (deleteTaskFromItem taskId (subTasks t)))
                 (filter (fun t => negb (String.eqb (id t) taskId)) items))
            path = Some n'
          /\ with_subTasks n' (subTasks n) = n).
Proof.
  induction path as [|seg rest [IHe IHo]].
  { split; intros items n H; discriminate H. }
  split; intros items n H Hs; cbn [ItemTree.resolve ItemTree.spared negb] in *.
  - unfold deleteTaskFromItem at 1.
    rewrite (item_find_map _ seg items deleteTaskFromItem_cb_id).
    destruct (find _ items) as [m|] eqn:Hm; [|discriminate H].
    cbn [option_map]. destruct rest as [|r rs].
    + injection H as <-. eexists. split; [reflexivity|].
      rewrite deleteTaskFromItem_cb_eq. apply with_subTasks_back.
    + rewrite deleteTaskFromItem_cb_eq. cbn [subTasks with_subTasks].
      apply IHo; [exact H | exact Hs].
  - apply andb_true_iff in Hs as [Hseg Hs]. apply negb_true_iff in Hseg.
    rewrite item_find_map by (intros x; destruct x; reflexivity).
    rewrite item_find_filter by exact Hseg.
    destruct (find _ items) as [m|] eqn:Hm; [|discriminate H].
    cbn [option_map]. destruct rest as [|r rs].
    + injection H as <-. eexists. split; [reflexivity|].
      apply with_subTasks_back.
    + cbn [subTasks with_subTasks]. apply IHe; [exact H | exact Hs].
Qed.

End ItemDeletionLevels.

(** ** [addSubTask] and [updateSubTask]: the scan stops at the first match *)

Section ItemScan.
Import DeliverableStore.
Variables (target : string) (nt : Item).

Lemma addTaskToItem_cb_eq (item : Item) :
  addTaskToItem_cb target nt item =
  if String.eqb (id item) target
  then with_subTasks item (subTasks item ++ [nt])
  else if has_items (subTasks item)
       then with_subTasks item (addTaskToItem target nt (subTasks item))
       else item.
Proof. destruct item; reflexivity. Qed.

Lemma addTaskToItem_cb_id (item : Item) :
  id (addTaskToItem_cb target nt item) = id item.
Proof.
  rewrite addTaskToItem_cb_eq.
  destruct (String.eqb (id item) target); [destruct item; reflexivity|].
  destruct (has_items (subTasks item)); [destruct item|]; reflexivity.
Qed.

Lemma addTaskToItem_cb_subTasks (t : Item) :
  String.eqb (id t) target = false ->
  subTasks (addTaskToItem_cb target nt t)
  = addTaskToItem target nt (subTasks t).
Proof.
  intros H. rewrite addTaskToItem_cb_eq, H.
  destruct (has_items (subTasks t)) eqn:E; [reflexivity|].
  apply has_items_false in E. rewrite E. reflexivity.
Qed.

Lemma resolve_addTaskToItem :
  forall path items n,
    ItemTree.resolve items path = Some n ->
    id n = target ->
    Forall (fun seg => seg <> target) (removelast path) ->
    find (fun t => String.eqb (id t) (id nt)) (subTasks n) = None ->
    ItemTree.resolve (addTaskToItem target nt items) (path ++ [id nt])
    = Some nt.
Proof.
  induction path as [|seg rest IH]; intros items n H Hn Hanc Hfresh;
    [discriminate H|].
  cbn [ItemTree.resolve] in H.
  destruct (find _ items) as [m|] eqn:Hm; [|discriminate H].
  rewrite <- app_comm_cons. cbn [ItemTree.resolve].
  unfold addTaskToItem at 1.
  rewrite (item_find_map _ seg items addTaskToItem_cb_id), Hm.
  cbn [option_map]. destruct rest as [|r rs].
  - injection H as <-. cbn [app].
    rewrite addTaskToItem_cb_eq.
    assert (E : String.eqb (id m) target = true)
      by (apply String.eqb_eq; exact Hn).
    rewrite E. cbn [subTasks with_subTasks ItemTree.resolve].
    rewrite item_find_snoc, Hfresh, String.eqb_refl. reflexivity.
  - change (removelast (seg :: r :: rs)) with (seg :: removelast (r :: rs))
      in Hanc.
    apply Forall_cons_iff in Hanc as [Hseg Hrest].
    assert (E : String.eqb (id m) target = false).
    { apply String.eqb_neq. rewrite (item_find_id _ _ _ Hm). exact Hseg. }
    rewrite <- app_comm_cons.
    rewrite addTaskToItem_cb_subTasks by exact E.
    rewrite app_comm_cons.
    apply (IH (subTasks m) n H Hn Hrest Hfresh).
Qed.

End ItemScan.

Section ItemPatchScan.
Import DeliverableStore.
Variables (taskId : string) (data : SubTaskPatch).
Hypothesis no_id : p_id data = None.

Lemma updateTaskInItem_cb_id (item : Item) :
  id (updateTaskInItem_cb taskId data item) = id item.
Proof.
  rewrite updateTaskInItem_cb_eq.
  destruct (String.eqb (id item) taskId).
  - unfold patchItem. cbn [id]. rewrite no_id. reflexivity.
  - destruct (has_items (subTasks item)); [destruct item|]; reflexivity.
Qed.

Lemma resolve_updateTaskInItem :
  forall path items n,
    ItemTree.resolve items path = Some n ->
    id n = taskId ->
    Forall (fun seg => seg <> taskId) (removelast path) ->
    ItemTree.resolve (updateTaskInItem taskId data items) path
    = Some (patchItem data n).
Proof.
  induction path as [|seg rest IH]; intros items n H Hn Hanc;
    [discriminate H|].
  cbn [ItemTree.resolve] in *.
  unfold updateTaskInItem at 1.
  rewrite (item_find_map _ seg items updateTaskInItem_cb_id).
  destruct (find _ items) as [m|] eqn:Hm; [|discriminate H].
  cbn [option_map]. destruct rest as [|r rs].
  - injection H as <-. rewrite updateTaskInItem_cb_eq.
    assert (E : String.eqb (id m) taskId = true)
      by (apply String.eqb_eq; exact Hn).
    rewrite E. reflexivity.
  - change (removelast (seg :: r :: rs)) with (seg :: removelast (r :: rs))
      in Hanc.
    apply Forall_cons_iff in Hanc as [Hseg Hrest].
    assert (E : String.eqb (id m) taskId = false).
    { apply String.eqb_neq. rewrite (item_find_id _ _ _ Hm). exact Hseg. }
    rewrite updateTaskInItem_cb_subTasks by exact E.
    apply (IH (subTasks m) n H Hn Hrest).
Qed.

End ItemPatchScan.

Section ItemStoreFacts.
Import DeliverableStore.

Lemma removelast_map_pid_item (path : list PathItem) :
  removelast (map pid path) = map pid (removelast path).
Proof.
  induction path as [|a [|b rest] IH]; [reflexivity | reflexivity |].
  change (removelast (map pid (a :: b :: rest)))
    with (pid a :: removelast (map pid (b :: rest))).
  rewrite IH. reflexivity.
Qed.

Lemma getItemByPath_resolves
      (db : Firestore) (i : string) (p : Project) (path : list PathItem)
      (n : Item) :
  fetchProject db i = Some p ->
  getItemByPath db i path = Some n ->
  exists first rest,
    path = first :: rest /\ is_deliverable (ptype first) = true
    /\ ItemTree.resolve (deliverables p) (map pid path) = Some n.
Proof.
  intros Hf H. unfold getItemByPath in H.
  rewrite Hf, getItemByPath_in_resolve in H.
  destruct path as [|first rest]; [discriminate H|].
  destruct (is_deliverable (ptype first)) eqn:E; [|discriminate H].
  exists first, rest. repeat split; [exact E | exact H].
Qed.

Lemma resolve_snoc_found :
  forall path items x n,
    ItemTree.resolve items path = Some n ->
    ItemTree.resolve (items ++ [x]) path = Some n.
Proof.
  intros [|seg rest] items x n H; [discriminate H|].
  cbn [ItemTree.resolve] in *. rewrite item_find_snoc.
  destruct (find _ items) as [m|]; [exact H | discriminate H].
Qed.

End ItemStoreFacts.

(** X13. [deleteSubTask] compares only every second level with the id: a
    path that resolved, and whose second, fourth, ... segment is not the
    id, still resolves afterwards, to a node with the same fields apart
    from its sub-tasks; so a deliverable, and a sub-task two levels below
    one, stays even when it carries the id. *)
Theorem deleteSubTask_spares_even_levels :
  forall (db : DeliverableStore.Firestore)
         (projectId deliverableId taskId : string)
         (project : DeliverableStore.Project)
         (path : list DeliverableStore.PathItem) (n : DeliverableStore.Item),
    DeliverableStore.fetchProject db projectId = Some project ->
    DeliverableStore.getItemByPath db projectId path = Some n ->
    ItemTree.spared taskId false (map DeliverableStore.pid path) = true ->
    snd (DeliverableStore.deleteSubTask db projectId deliverableId taskId)
    = None
    /\ exists n',
        DeliverableStore.getItemByPath
          (fst (DeliverableStore.deleteSubTask db projectId deliverableId
                  taskId))
          projectId path = Some n'
        /\ DeliverableStore.with_subTasks n' (DeliverableStore.subTasks n) = n.
Proof.
  intros db projectId deliverableId taskId project path n Hf Hn Hs.
  unfold DeliverableStore.deleteSubTask. rewrite Hf. cbn [fst snd].
  split; [reflexivity|].
  rewrite (getItemByPath_updateProject db projectId project _ path Hf).
  destruct (getItemByPath_resolves db projectId project path n Hf Hn)
    as [first [rest [-> [Hd Hr]]]].
  rewrite getItemByPath_in_resolve, Hd.
  cbn [DeliverableStore.with_deliverables DeliverableStore.deliverables].
  exact (proj1 (resolve_deleteTaskFromItem taskId _) _ n Hr Hs).
Qed.

Lemma deleteSubTask_spares_even_levels_witness :
  snd (DeliverableStore.deleteSubTask
         [Samples.iproject
            [Samples.item "d1" "Drawings"
               [Samples.item "s1" "Frames" [Samples.item "g" "Gussets" []]]]]
         "p1" "d1" "g")
  = None
  /\ exists n',
      DeliverableStore.getItemByPath
        (fst (DeliverableStore.deleteSubTask
                [Samples.iproject
                   [Samples.item "d1" "Drawings"
                      [Samples.item "s1" "Frames"
                         [Samples.item "g" "Gussets" []]]]]
                "p1" "d1" "g"))
        "p1"
        [DeliverableStore.mkPathItem DeliverableStore.deliverable "d1";
         DeliverableStore.mkPathItem DeliverableStore.subtask "s1";
         DeliverableStore.mkPathItem DeliverableStore.subtask "g"]
      = Some n'
      /\ DeliverableStore.with_subTasks n'
           (DeliverableStore.subTasks (Samples.item "g" "Gussets" []))
         = Samples.item "g" "Gussets" [].
Proof.
  exact (deleteSubTask_spares_even_levels
           [Samples.iproject
              [Samples.item "d1" "Drawings"
                 [Samples.item "s1" "Frames" [Samples.item "g" "Gussets" []]]]]
           "p1" "d1" "g" _
           [DeliverableStore.mkPathItem DeliverableStore.deliverable "d1";
            DeliverableStore.mkPathItem DeliverableStore.subtask "s1";
            DeliverableStore.mkPathItem DeliverableStore.subtask "g"]
           (Samples.item "g" "Gussets" [])
           eq_refl eq_refl eq_refl).
Defined.

(** X14. [addSubTask], then [getItemByPath]: when the path resolves to the
    node whose id is the target ([parentTaskId || deliverableId]), no
    node above it on the path carries that id and none of its sub-tasks
    carries the new id, the path extended by the new id reads the new
    sub-task, and no error is recorded. *)
Theorem addSubTask_read_back :
  forall (db : DeliverableStore.Firestore) (projectId deliverableId : string)
         (parentTaskId : option string)
         (project : DeliverableStore.Project)
         (path : list DeliverableStore.PathItem) (n : DeliverableStore.Item)
         (task : DeliverableStore.SubTaskData) (uuid : string),
    DeliverableStore.fetchProject db projectId = Some project ->
    DeliverableStore.getItemByPath db projectId path = Some n ->
    or_else truthy_string parentTaskId deliverableId = DeliverableStore.id n ->
    Forall (fun seg => DeliverableStore.pid seg <> DeliverableStore.id n)
           (removelast path) ->
    find (fun t => String.eqb (DeliverableStore.id t) uuid)
         (DeliverableStore.subTasks n) = None ->
    snd (DeliverableStore.addSubTask db projectId deliverableId parentTaskId
           task uuid) = None
    /\ DeliverableStore.getItemByPath
         (fst (DeliverableStore.addSubTask db projectId deliverableId
                 parentTaskId task uuid))
         projectId
         (path ++ [DeliverableStore.mkPathItem DeliverableStore.subtask uuid])
       = Some (DeliverableStore.newTask task uuid).
Proof.
  intros db projectId deliverableId parentTaskId project path n task uuid
         Hf Hn Ht Hanc Hfresh.
  unfold DeliverableStore.addSubTask. rewrite Hf. cbn [fst snd].
  split; [reflexivity|].
  rewrite (getItemByPath_updateProject db projectId project _ _ Hf).
  destruct (getItemByPath_resolves db projectId project path n Hf Hn)
    as [first [rest [-> [Hd Hr]]]].
  rewrite <- app_comm_cons, getItemByPath_in_resolve. cbn [DeliverableStore.ptype].
  rewrite Hd, app_comm_cons, map_app.
  cbn [DeliverableStore.with_deliverables DeliverableStore.deliverables].
  rewrite Ht.
  apply (resolve_addTaskToItem (DeliverableStore.id n)
           (DeliverableStore.newTask task uuid) _ _ n Hr eq_refl);
    [|exact Hfresh].
  rewrite removelast_map_pid_item. apply Forall_map. exact Hanc.
Qed.

Lemma addSubTask_read_back_witness :
  snd (DeliverableStore.addSubTask
         [Samples.iproject Samples.two_deliverables] "p1" "d2" None
         (DeliverableStore.mkSubTaskData "Glossary" None None None) "u1")
  = None
  /\ DeliverableStore.getItemByPath
       (fst (DeliverableStore.addSubTask
               [Samples.iproject Samples.two_deliverables] "p1" "d2" None
               (DeliverableStore.mkSubTaskData "Glossary" None None None)
               "u1"))
       "p1"
       ([DeliverableStore.mkPathItem DeliverableStore.deliverable "d2"]
        ++ [DeliverableStore.mkPathItem DeliverableStore.subtask "u1"])
     = Some (DeliverableStore.newTask
               (DeliverableStore.mkSubTaskData "Glossary" None None None)
               "u1").
Proof.
  exact (addSubTask_read_back
           [Samples.iproject Samples.two_deliverables] "p1" "d2" None _
           [DeliverableStore.mkPathItem DeliverableStore.deliverable "d2"]
           (Samples.item "d2" "Manuals" [Samples.item "dup" "Index" []])
           (DeliverableStore.mkSubTaskData "Glossary" None None None) "u1"
           eq_refl eq_refl eq_refl (Forall_nil _) eq_refl).
Defined.

(** X15. [updateSubTask], then [getItemByPath]: when the path resolves to
    a node with the id, no node above it on the path carries the id and
    the patch sets no [id], the same path reads the node with the patch
    spread over it, and no error is recorded. *)
Theorem updateSubTask_read_back :
  forall (db : DeliverableStore.Firestore) (projectId deliverableId : string)
         (project : DeliverableStore.Project)
         (path : list DeliverableStore.PathItem) (n : DeliverableStore.Item)
         (data : DeliverableStore.SubTaskPatch),
    DeliverableStore.fetchProject db projectId = Some project ->
    DeliverableStore.getItemByPath db projectId path = Some n ->
    DeliverableStore.p_id data = None ->
    Forall (fun seg => DeliverableStore.pid seg <> DeliverableStore.id n)
           (removelast path) ->
    snd (DeliverableStore.updateSubTask db projectId deliverableId
           (DeliverableStore.id n) data) = None
    /\ DeliverableStore.getItemByPath
         (fst (DeliverableStore.updateSubTask db projectId deliverableId
                 (DeliverableStore.id n) data))
         projectId path
       = Some (DeliverableStore.patchItem data n).
Proof.
  intros db projectId deliverableId project path n data Hf Hn Hid Hanc.
  unfold DeliverableStore.updateSubTask. rewrite Hf. cbn [fst snd].
  split; [reflexivity|].
  rewrite (getItemByPath_updateProject db projectId project _ _ Hf).
  destruct (getItemByPath_resolves db projectId project path n Hf Hn)
    as [first [rest [-> [Hd Hr]]]].
  rewrite getItemByPath_in_resolve, Hd.
  cbn [DeliverableStore.with_deliverables DeliverableStore.deliverables].
  apply (resolve_updateTaskInItem (DeliverableStore.id n) data Hid _ _ n Hr
           eq_refl).
  rewrite removelast_map_pid_item. apply Forall_map. exact Hanc.
Qed.

Lemma updateSubTask_read_back_witness :
  snd (DeliverableStore.updateSubTask
         [Samples.iproject Samples.two_deliverables] "p1" "d1" 
         (DeliverableStore.id (Samples.item "dup" "Plans" []))
         (DeliverableStore.onlyCompleted true))
  = None
  /\ DeliverableStore.getItemByPath
       (fst (DeliverableStore.updateSubTask
               [Samples.iproject Samples.two_deliverables] "p1" "d1"
               (DeliverableStore.id (Samples.item "dup" "Plans" []))
               (DeliverableStore.onlyCompleted true)))
       "p1"
       [DeliverableStore.mkPathItem DeliverableStore.deliverable "d1";
        DeliverableStore.mkPathItem DeliverableStore.subtask "dup"]
     = Some (DeliverableStore.patchItem (DeliverableStore.onlyCompleted true)
               (Samples.item "dup" "Plans" [])).
Proof.
  refine (updateSubTask_read_back
            [Samples.iproject Samples.two_deliverables] "p1" "d1" _
            [DeliverableStore.mkPathItem DeliverableStore.deliverable "d1";
             DeliverableStore.mkPathItem DeliverableStore.subtask "dup"]
            (Samples.item "dup" "Plans" [])
            (DeliverableStore.onlyCompleted true)
            eq_refl eq_refl eq_refl _).
  repeat constructor. discriminate.
Defined.

(** X16. [addDeliverable], then [getItemByPath]: when no deliverable
    carries the new id, the one-segment path of the new id reads the new
    deliverable; every path that resolved before resolves to the same
    item; no error is recorded. *)
Theorem addDeliverable_read_back :
  forall (db : DeliverableStore.Firestore) (projectId : string)
         (project : DeliverableStore.Project)
         (deliverable : DeliverableStore.DeliverableData) (uuid : string),
    DeliverableStore.fetchProject db projectId = Some project ->
    find (fun d => String.eqb (DeliverableStore.id d) uuid)
         (DeliverableStore.deliverables project) = None ->
    snd (DeliverableStore.addDeliverable db projectId deliverable uuid) = None
    /\ DeliverableStore.getItemByPath
         (fst (DeliverableStore.addDeliverable db projectId deliverable uuid))
         projectId
         [DeliverableStore.mkPathItem DeliverableStore.deliverable uuid]
       = Some (DeliverableStore.newDeliverable deliverable uuid)
    /\ forall path n,
        DeliverableStore.getItemByPath db projectId path = Some n ->
        DeliverableStore.getItemByPath
          (fst (DeliverableStore.addDeliverable db projectId deliverable uuid))
          projectId path = Some n.
Proof.
  intros db projectId project deliverable uuid Hf Hfresh.
  unfold DeliverableStore.addDeliverable. rewrite Hf. cbn [fst snd].
  split; [reflexivity|]. split.
  - rewrite (getItemByPath_updateProject db projectId project _ _ Hf).
    rewrite getItemByPath_in_resolve.
    cbn [DeliverableStore.ptype DeliverableStore.is_deliverable map
         DeliverableStore.pid DeliverableStore.with_deliverables
         DeliverableStore.deliverables ItemTree.resolve].
    rewrite item_find_snoc, Hfresh.
    cbn [DeliverableStore.newDeliverable DeliverableStore.id].
    rewrite String.eqb_refl. reflexivity.
  - intros path n Hn.
    rewrite (getItemByPath_updateProject db projectId project _ _ Hf).
    destruct (getItemByPath_resolves db projectId project path n Hf Hn)
      as [first [rest [-> [Hd Hr]]]].
    rewrite getItemByPath_in_resolve, Hd.
    cbn [DeliverableStore.with_deliverables DeliverableStore.deliverables].
    apply resolve_snoc_found. exact Hr.
Qed.

Lemma addDeliverable_read_back_witness :
  snd (DeliverableStore.addDeliverable
         [Samples.iproject Samples.two_deliverables] "p1"
         (DeliverableStore.mkDeliverableData "Trials" "" None None None None)
         "u1") = None
  /\ DeliverableStore.getItemByPath
       (fst (DeliverableStore.addDeliverable
               [Samples.iproject Samples.two_deliverables] "p1"
               (DeliverableStore.mkDeliverableData "Trials" "" None None None
                  None)
               "u1"))
       "p1" [DeliverableStore.mkPathItem DeliverableStore.deliverable "u1"]
     = Some (DeliverableStore.newDeliverable
               (DeliverableStore.mkDeliverableData "Trials" "" None None None
                  None)
               "u1")
  /\ forall path n,
      DeliverableStore.getItemByPath
        [Samples.iproject Samples.two_deliverables] "p1" path = Some n ->
      DeliverableStore.getItemByPath
        (fst (DeliverableStore.addDeliverable
                [Samples.iproject Samples.two_deliverables] "p1"
                (DeliverableStore.mkDeliverableData "Trials" "" None None None
                   None)
                "u1"))
        "p1" path = Some n.
Proof.
  exact (addDeliverable_read_back
           [Samples.iproject Samples.two_deliverables] "p1" _
           (DeliverableStore.mkDeliverableData "Trials" "" None None None None)
           "u1" eq_refl eq_refl).
Defined.

(** X17. [deleteDeliverable], then [getItemByPath]: a path whose first
    segment is the deleted id reads nothing, every other path reads what
    it read before; sub-tasks carrying the id are not touched. *)
Theorem deleteDeliverable_read_back :
  forall (db : DeliverableStore.Firestore) (projectId deliverableId : string)
         (project : DeliverableStore.Project)
         (path : list DeliverableStore.PathItem),
    DeliverableStore.fetchProject db projectId = Some project ->
    snd (DeliverableStore.deleteDeliverable db projectId deliverableId) = None
    /\ DeliverableStore.getItemByPath
         (fst (DeliverableStore.deleteDeliverable db projectId deliverableId))
         projectId path
       = match path with
         | [] => None
         | first :: _ =>
             if String.eqb (DeliverableStore.pid first) deliverableId
             then None
             else DeliverableStore.getItemByPath db projectId path
         end.
Proof.
  intros db projectId deliverableId project path Hf.
  unfold DeliverableStore.deleteDeliverable. rewrite Hf. cbn [fst snd].
  split; [reflexivity|].
  rewrite (getItemByPath_updateProject db projectId project _ _ Hf).
  unfold DeliverableStore.getItemByPath. rewrite Hf.
  rewrite !getItemByPath_in_resolve.
  destruct path as [|first rest]; [reflexivity|].
  cbn [DeliverableStore.with_deliverables DeliverableStore.deliverables map
       ItemTree.resolve].
  destruct (String.eqb (DeliverableStore.pid first) deliverableId) eqn:E.
  - apply String.eqb_eq in E. rewrite E, item_find_filtered.
    destruct (DeliverableStore.is_deliverable _); reflexivity.
  - rewrite item_find_filter by exact E. reflexivity.
Qed.

Lemma deleteDeliverable_read_back_witness :
  snd (DeliverableStore.deleteDeliverable
         [Samples.iproject Samples.two_deliverables] "p1" "d1") = None
  /\ DeliverableStore.getItemByPath
       (fst (DeliverableStore.deleteDeliverable
               [Samples.iproject Samples.two_deliverables] "p1" "d1"))
       "p1"
       [DeliverableStore.mkPathItem DeliverableStore.deliverable "d2";
        DeliverableStore.mkPathItem DeliverableStore.subtask "dup"]
     = Some (Samples.item "dup" "Index" []).
Proof.
  exact (deleteDeliverable_read_back
           [Samples.iproject Samples.two_deliverables] "p1" "d1" _
           [DeliverableStore.mkPathItem DeliverableStore.deliverable "d2";
            DeliverableStore.mkPathItem DeliverableStore.subtask "dup"]
           eq_refl).
Defined.

(** X18. [updateDeliverable] with a patch that sets neither [id] nor
    [subTasks]: a one-segment path of the id reads the deliverable with
    the patch spread over it; every other path reads what it read
    before, so no sub-task is patched, whatever its id. *)
Theorem updateDeliverable_read_back :
  forall (db : DeliverableStore.Firestore) (projectId deliverableId : string)
         (project : DeliverableStore.Project)
         (data : DeliverableStore.DeliverablePatch)
         (path : list DeliverableStore.PathItem),
    DeliverableStore.fetchProject db projectId = Some project ->
    DeliverableStore.q_id data = None ->
    DeliverableStore.q_subTasks data = None ->
    snd (DeliverableStore.updateDeliverable db projectId deliverableId data)
    = None
    /\ DeliverableStore.getItemByPath
         (fst (DeliverableStore.updateDeliverable db projectId deliverableId
                 data))
         projectId path
       = match path with
         | [first] =>
             if String.eqb (DeliverableStore.pid first) deliverableId
             then option_map (DeliverableStore.patchDeliverable data)
                    (DeliverableStore.getItemByPath db projectId path)
             else DeliverableStore.getItemByPath db projectId path
         | _ => DeliverableStore.getItemByPath db projectId path
         end.
Proof.
  intros db projectId deliverableId project data path Hf Hid Hst.
  unfold DeliverableStore.updateDeliverable. rewrite Hf. cbn [fst snd].
  split; [reflexivity|].
  rewrite (getItemByPath_updateProject db projectId project _ _ Hf).
  unfold DeliverableStore.getItemByPath. rewrite Hf.
  rewrite !getItemByPath_in_resolve.
  destruct path as [|first rest]; [reflexivity|].
  cbn [DeliverableStore.with_deliverables DeliverableStore.deliverables map
       ItemTree.resolve].
  assert (Hstep : forall x,
             DeliverableStore.id
               (if String.eqb (DeliverableStore.id x) deliverableId
                then DeliverableStore.patchDeliverable data x else x)
             = DeliverableStore.id x).
  { intros x. destruct (String.eqb (DeliverableStore.id x) deliverableId);
      [|reflexivity].
    unfold DeliverableStore.patchDeliverable. cbn [DeliverableStore.id].
    rewrite Hid. reflexivity. }
  rewrite (item_find_map _ (DeliverableStore.pid first)
             (DeliverableStore.deliverables project) Hstep).
  destruct (find _ (DeliverableStore.deliverables project)) as [m|] eqn:Hm;
    cbn [option_map].
  2: { destruct rest;
       destruct (DeliverableStore.is_deliverable _);
       try destruct (String.eqb _ deliverableId); reflexivity. }
  rewrite (item_find_id _ _ _ Hm).
  destruct rest as [|r rs].
  - destruct (String.eqb (DeliverableStore.pid first) deliverableId);
      destruct (DeliverableStore.is_deliverable _); reflexivity.
  - assert (Hsub : DeliverableStore.subTasks
                     (if String.eqb (DeliverableStore.pid first) deliverableId
                      then DeliverableStore.patchDeliverable data m else m)
                   = DeliverableStore.subTasks m).
    { destruct (String.eqb (DeliverableStore.pid first) deliverableId);
        [|reflexivity].
      unfold DeliverableStore.patchDeliverable.
      cbn [DeliverableStore.subTasks]. rewrite Hst. reflexivity. }
    rewrite Hsub. reflexivity.
Qed.

Lemma updateDeliverable_read_back_witness :
  snd (DeliverableStore.updateDeliverable
         [Samples.iproject Samples.two_deliverables] "p1" "dup"
         (DeliverableStore.mkDeliverablePatch None None None None None None
            None (Some true) None))
  = None
  /\ DeliverableStore.getItemByPath
       (fst (DeliverableStore.updateDeliverable
               [Samples.iproject Samples.two_deliverables] "p1" "dup"
               (DeliverableStore.mkDeliverablePatch None None None None None
                  None None (Some true) None)))
       "p1"
       [DeliverableStore.mkPathItem DeliverableStore.deliverable "d1";
        DeliverableStore.mkPathItem DeliverableStore.subtask "dup"]
     = Some (Samples.item "dup" "Plans" []).
Proof.
  exact (updateDeliverable_read_back
           [Samples.iproject Samples.two_deliverables] "p1" "dup" _
           (DeliverableStore.mkDeliverablePatch None None None None None None
              None (Some true) None)
           [DeliverableStore.mkPathItem DeliverableStore.deliverable "d1";
            DeliverableStore.mkPathItem DeliverableStore.subtask "dup"]
           eq_refl eq_refl eq_refl).
Defined.

(** X19. After [deleteProject] of the deliverable store, [fetchProject]
    and [getItemByPath] of that id read nothing, and each mutator called
    with that id records "Project not found" and leaves the collection as
    it is; a project stored under another id is read as before. *)
Theorem item_deleteProject_forgets :
  forall (db : DeliverableStore.Firestore) (i : string),
    DeliverableStore.fetchProject (DeliverableStore.deleteProject db i) i
    = None
    /\ (forall path,
          DeliverableStore.getItemByPath (DeliverableStore.deleteProject db i)
            i path = None)
    /\ (forall j,
          String.eqb j i = false ->
          DeliverableStore.fetchProject (DeliverableStore.deleteProject db i) j
          = DeliverableStore.fetchProject db j)
    /\ (forall d u,
          DeliverableStore.addDeliverable (DeliverableStore.deleteProject db i)
            i d u
          = (DeliverableStore.deleteProject db i, Some "Project not found"))
    /\ (forall d data,
          DeliverableStore.updateDeliverable
            (DeliverableStore.deleteProject db i) i d data
          = (DeliverableStore.deleteProject db i, Some "Project not found"))
    /\ (forall d,
          DeliverableStore.deleteDeliverable
            (DeliverableStore.deleteProject db i) i d
          = (DeliverableStore.deleteProject db i, Some "Project not found"))
    /\ (forall d parent task u,
          DeliverableStore.addSubTask (DeliverableStore.deleteProject db i)
            i d parent task u
          = (DeliverableStore.deleteProject db i, Some "Project not found"))
    /\ (forall d t data,
          DeliverableStore.updateSubTask (DeliverableStore.deleteProject db i)
            i d t data
          = (DeliverableStore.deleteProject db i, Some "Project not found"))
    /\ (forall d t,
          DeliverableStore.deleteSubTask (DeliverableStore.deleteProject db i)
            i d t
          = (DeliverableStore.deleteProject db i, Some "Project not found")).
Proof.
  intros db i.
  assert (Hgone : DeliverableStore.fetchProject
                    (DeliverableStore.deleteProject db i) i = None).
  { unfold DeliverableStore.fetchProject, DeliverableStore.deleteProject.
    apply find_all_false. intros x Hx. apply filter_In in Hx as [_ Hx].
    apply negb_true_iff in Hx. exact Hx. }
  split; [exact Hgone|].
  split.
  { intros path. unfold DeliverableStore.getItemByPath. rewrite Hgone.
    reflexivity. }
  split.
  { intros j Hj. clear Hgone.
    unfold DeliverableStore.fetchProject, DeliverableStore.deleteProject.
    induction db as [|q db IH]; [reflexivity|].
    cbn [filter find].
    destruct (String.eqb (DeliverableStore.docId q) i) eqn:E; cbn [negb].
    - apply String.eqb_eq in E.
      assert (Hq : String.eqb (DeliverableStore.docId q) j = false).
      { rewrite E, String.eqb_sym. exact Hj. }
      rewrite Hq. exact IH.
    - cbn [find]. destruct (String.eqb (DeliverableStore.docId q) j);
        [reflexivity | exact IH]. }
  unfold DeliverableStore.addDeliverable, DeliverableStore.updateDeliverable,
    DeliverableStore.deleteDeliverable, DeliverableStore.addSubTask,
    DeliverableStore.updateSubTask, DeliverableStore.deleteSubTask.
  rewrite Hgone. repeat split.
Qed.

Lemma item_deleteProject_forgets_witness :
  DeliverableStore.fetchProject
    (DeliverableStore.deleteProject
       [Samples.iproject Samples.two_deliverables;
        DeliverableStore.mkProject "p2" "p-000002" "Refit" ""
          (DeliverableStore.mkCustomer "" "" "") []
          "2024-02-01T00:00:00.000Z"]
       "p1")
    "p2"
  = DeliverableStore.fetchProject
      [Samples.iproject Samples.two_deliverables;
       DeliverableStore.mkProject "p2" "p-000002" "Refit" ""
         (DeliverableStore.mkCustomer "" "" "") []
         "2024-02-01T00:00:00.000Z"]
      "p2".
Proof.
  exact (proj1 (proj2 (proj2 (item_deleteProject_forgets
           [Samples.iproject Samples.two_deliverables;
            DeliverableStore.mkProject "p2" "p-000002" "Refit" ""
              (DeliverableStore.mkCustomer "" "" "") []
              "2024-02-01T00:00:00.000Z"]
           "p1"))) "p2" eq_refl).
Defined.

(** ** The path in the URL: written by [handleTaskClick], read by the page *)

Section PathTextFacts.
Import DeliverableStore DeliverableDetails.
Variable sep : Ascii.ascii.

Lemma split_nonempty (s : string) :
  exists piece pieces, split sep s = piece :: pieces.
Proof.
  destruct s as [|c rest]; [exists "", []; reflexivity|].
  cbn [split]. destruct (Ascii.eqb c sep); [eexists; eexists; reflexivity|].
  destruct (split sep rest); eexists; eexists; reflexivity.
Qed.

Lemma split_plain (s : string) :
  PathText.has_char sep s = false -> split sep s = [s].
Proof.
  induction s as [|c rest IH]; intros H; [reflexivity|].
  cbn [PathText.has_char] in H. apply orb_false_iff in H as [Hc Hrest].
  cbn [split]. rewrite Hc, (IH Hrest). reflexivity.
Qed.

Lemma split_append (a b : string) :
  split sep (a ++ String sep b) = split sep a ++ split sep b.
Proof.
  induction a as [|c a IH].
  - cbn [String.append split app]. rewrite Ascii.eqb_refl. reflexivity.
  - cbn [String.append split]. rewrite IH.
    destruct (Ascii.eqb c sep); [reflexivity|].
    destruct (split_nonempty a) as [piece [pieces E]]. rewrite E. reflexivity.
Qed.

Lemma has_char_append (a b : string) :
  PathText.has_char sep (a ++ b)
  = PathText.has_char sep a || PathText.has_char sep b.
Proof.
  induction a as [|c a IH]; [reflexivity|].
  cbn [String.append PathText.has_char]. rewrite IH. apply orb_assoc.
Qed.

Lemma split_join (pieces : list string) :
  pieces <> [] ->
  Forall (fun piece => PathText.has_char sep piece = false) pieces ->
  split sep (join (String sep "") pieces) = pieces.
Proof.
  induction pieces as [|x [|y more] IH]; intros Hne Hall.
  - contradiction Hne. reflexivity.
  - cbn [join]. apply split_plain. inversion Hall; assumption.
  - apply Forall_cons_iff in Hall as [Hx Hrest].
    change (join (String sep "") (x :: y :: more))
      with (x ++ String sep (join (String sep "") (y :: more)))%string.
    rewrite split_append, (split_plain x Hx), IH;
      [reflexivity | discriminate | exact Hrest].
Qed.

End PathTextFacts.

Section PathCodec.
Import DeliverableStore DeliverableDetails.

Lemma parseSegment_written (p : PathItem) :
  PathText.has_char ":"%char (pid p) = false ->
  parseSegment (typeName (ptype p) ++ ":" ++ pid p) = segmentOf p.
Proof.
  intros H. unfold parseSegment, segmentOf.
  change (typeName (ptype p) ++ ":" ++ pid p)%string
    with (typeName (ptype p) ++ String ":"%char (pid p))%string.
  rewrite split_append, (split_plain _ (pid p) H).
  destruct (ptype p); reflexivity.
Qed.

Lemma written_has_no_slash (p : PathItem) :
  PathText.has_char "/"%char (pid p) = false ->
  PathText.has_char "/"%char (typeName (ptype p) ++ ":" ++ pid p) = false.
Proof.
  intros H. rewrite !has_char_append, H. destruct (ptype p); reflexivity.
Qed.

Lemma parsePath_pathString (path : list PathItem) :
  path <> [] ->
  forallb (fun p => PathText.plain (pid p)) path = true ->
  parsePath (pathString path) = map segmentOf path.
Proof.
  intros Hne Hall. unfold parsePath, pathString.
  assert (Hp : Forall (fun p => PathText.has_char "/"%char (pid p) = false
                               /\ PathText.has_char ":"%char (pid p) = false)
                      path).
  { apply Forall_forall. intros p Hp.
    rewrite forallb_forall in Hall. specialize (Hall p Hp).
    unfold PathText.plain in Hall. apply andb_true_iff in Hall as [H1 H2].
    apply negb_true_iff in H1. apply negb_true_iff in H2. split; assumption. }
  change "/"%string with (String "/"%char "").
  rewrite split_join.
  - rewrite map_map. apply map_ext_Forall.
    revert Hp. apply Forall_impl. intros p [_ H]. apply parseSegment_written.
    exact H.
  - destruct path; [contradiction Hne; reflexivity | discriminate].
  - apply Forall_map. revert Hp. apply Forall_impl. intros p [H _].
    apply written_has_no_slash. exact H.
Qed.

Lemma pathString_truthy (path : list PathItem) :
  path <> [] -> truthy_string (pathString path) = true.
Proof.
  destruct path as [|p rest]; intros H; [contradiction H; reflexivity|].
  unfold pathString. cbn [map join].
  destruct rest; destruct (ptype p); reflexivity.
Qed.

End PathCodec.

(** X20. The path text the page writes is read back as written, past the
    guard every parse site starts with: for a project id that is not
    empty, and a path that is not empty and whose ids hold neither ['/']
    nor [':'], the page binds [pathArray] to the type name and the id of
    every path item, in order.  The text of the empty path is the empty
    string, which the guard turns away: it is never parsed. *)
Theorem pathArray_reads_pathString :
  forall (projectId : string) (path : list DeliverableStore.PathItem),
    truthy_string projectId = true ->
    path <> [] ->
    forallb (fun p => PathText.plain (DeliverableStore.pid p)) path = true ->
    DeliverableDetails.pathArray (Some projectId)
      (Some (DeliverableDetails.pathString path))
    = Some (map DeliverableDetails.segmentOf path)
    /\ forall i,
        DeliverableDetails.pathArray i
          (Some (DeliverableDetails.pathString []))
        = None.
Proof.
  intros projectId path Hid Hne Hall. split.
  - unfold DeliverableDetails.pathArray. rewrite Hid.
    rewrite (pathString_truthy path Hne). cbn [negb orb].
    rewrite parsePath_pathString by assumption. reflexivity.
  - intros [i|]; [|reflexivity].
    unfold DeliverableDetails.pathArray.
    destruct (truthy_string i); reflexivity.
Qed.

Lemma pathArray_reads_pathString_witness :
  DeliverableDetails.pathArray (Some "p1")
    (Some (DeliverableDetails.pathString
             [DeliverableStore.mkPathItem DeliverableStore.deliverable "d1";
              DeliverableStore.mkPathItem DeliverableStore.subtask "s1"]))
  = Some (map DeliverableDetails.segmentOf
            [DeliverableStore.mkPathItem DeliverableStore.deliverable "d1";
             DeliverableStore.mkPathItem DeliverableStore.subtask "s1"])
  /\ forall i,
      DeliverableDetails.pathArray i (Some (DeliverableDetails.pathString []))
      = None.
Proof.
  refine (pathArray_reads_pathString "p1"
            [DeliverableStore.mkPathItem DeliverableStore.deliverable "d1";
             DeliverableStore.mkPathItem DeliverableStore.subtask "s1"]
            eq_refl _ eq_refl).
  discriminate.
Defined.

(** X21. [handleTaskClick] navigates to a text that is read back as the
    current path followed by the sub-task clicked, when the ids of the
    current path and of the task hold neither ['/'] nor [':']. *)
Theorem handleTaskClick_read_back :
  forall (currentPath : list DeliverableStore.PathItem) (taskId : string),
    forallb (fun p => PathText.plain (DeliverableStore.pid p)) currentPath
    = true ->
    PathText.plain taskId = true ->
    DeliverableDetails.parsePath
      (DeliverableDetails.handleTaskClick currentPath taskId)
    = map DeliverableDetails.segmentOf currentPath
      ++ [DeliverableDetails.mkSegment "subtask" (Some taskId)].
Proof.
  intros currentPath taskId Hall Ht. unfold DeliverableDetails.handleTaskClick.
  rewrite parsePath_pathString.
  - rewrite map_app. reflexivity.
  - destruct currentPath; discriminate.
  - rewrite forallb_app, Hall. cbn [forallb DeliverableStore.pid].
    rewrite Ht. reflexivity.
Qed.

Lemma handleTaskClick_read_back_witness :
  DeliverableDetails.parsePath
    (DeliverableDetails.handleTaskClick
       [DeliverableStore.mkPathItem DeliverableStore.deliverable "d1"] "s1")
  = map DeliverableDetails.segmentOf
      [DeliverableStore.mkPathItem DeliverableStore.deliverable "d1"]
    ++ [DeliverableDetails.mkSegment "subtask" (Some "s1")].
Proof.
  exact (handleTaskClick_read_back
           [DeliverableStore.mkPathItem DeliverableStore.deliverable "d1"]
           "s1" eq_refl eq_refl).
Defined.

(** ** The user's tasks after a patch *)

Section AssignedAfterPatch.
Import TaskStore.
Variables (u taskId : string) (data : TaskPatch).
Hypothesis no_id : p_id data = None.
Hypothesis no_assignedTo : p_assignedTo data = None.

Lemma ids_of_assigned (l l' : list Task) :
  map (fun t => (id t, isAssigned u t)) l
  = map (fun t => (id t, isAssigned u t)) l' ->
  map id (filter (isAssigned u) l) = map id (filter (isAssigned u) l').
Proof.
  revert l'. induction l as [|x l IH]; intros [|y l'] H;
    try discriminate H; [reflexivity|].
  cbn [map] in H. injection H as Hi Ha Hl.
  cbn [filter]. rewrite Ha. destruct (isAssigned u y).
  - cbn [map]. rewrite Hi, (IH l' Hl). reflexivity.
  - exact (IH l' Hl).
Qed.

Lemma patchTask_assigned (t : Task) :
  isAssigned u (patchTask data t) = isAssigned u t.
Proof.
  unfold isAssigned, patchTask. cbn [assignedTo].
  rewrite no_assignedTo. reflexivity.
Qed.

Lemma updateNestedTask_cb_assigned (t : Task) :
  map (fun t => (id t, isAssigned u t))
      (TaskTree.preorder_of (updateNestedTask_cb taskId data t))
  = map (fun t => (id t, isAssigned u t)) (TaskTree.preorder_of t).
Proof.
  induction t as [i n d h c a dl cp ch pj IH] using Task_ind.
  rewrite updateNestedTask_cb_eq.
  destruct (String.eqb _ taskId).
  - rewrite !preorder_of_eq. cbn [map]. rewrite patchTask_assigned.
    cbn [patchTask id children]. rewrite no_id. reflexivity.
  - destruct (has_items _); [|reflexivity].
    rewrite !preorder_of_eq. cbn [with_children children map id]. f_equal.
    unfold updateNestedTask. rewrite preorder_map. unfold TaskTree.preorder.
    induction IH as [|x l Hx _ IHl]; [reflexivity|].
    cbn [flat_map]. rewrite !map_app, Hx, IHl. reflexivity.
Qed.

Lemma updateNestedTask_assigned (tasks : list Task) :
  map id (filter (isAssigned u)
            (TaskTree.preorder
               (cleanTasks (updateNestedTask taskId data tasks))))
  = map id (filter (isAssigned u) (TaskTree.preorder tasks)).
Proof.
  apply ids_of_assigned.
  rewrite preorder_cleanTasks, map_map.
  unfold updateNestedTask. rewrite preorder_map. unfold TaskTree.preorder.
  induction tasks as [|x l IH]; [reflexivity|].
  cbn [flat_map]. rewrite !map_app, IH. f_equal.
  rewrite <- updateNestedTask_cb_assigned. apply map_ext. intros t.
  rewrite cleanTask_id, isAssigned_cleanTask. reflexivity.
Qed.

Lemma same_document (db : Firestore) (p q : Project) :
  TaskTree.distinct (map docId db) = true ->
  fetchProject db (docId q) = Some p -> In q db -> q = p.
Proof.
  unfold fetchProject.
  induction db as [|x db IH]; intros Hd Hf Hin; [contradiction Hin|].
  cbn [map TaskTree.distinct find] in *.
  apply andb_true_iff in Hd as [Hx Hd].
  destruct Hin as [->|Hin].
  - rewrite String.eqb_refl in Hf. injection Hf as <-. reflexivity.
  - destruct (String.eqb (docId x) (docId q)) eqn:E.
    + exfalso. apply negb_true_iff in Hx.
      assert (Hex : existsb (String.eqb (docId x)) (map docId db) = true).
      { apply existsb_exists. exists (docId q).
        split; [apply in_map; exact Hin | exact E]. }
      congruence.
    + exact (IH Hd Hf Hin).
Qed.

End AssignedAfterPatch.

(** X22. A patch that carries neither [id] nor [assignedTo] (the patch of
    [toggleTaskCompletion] is one) does not change which tasks
    [fetchUserTasks] lists for a user: after [updateTask] has resolved, on
    a collection whose document ids are distinct, the listed tasks have
    the same ids and project ids, in the same order, as before. *)
Theorem updateTask_keeps_userTasks :
  forall (db db' : TaskStore.Firestore) (i : string)
         (path : list TaskStore.PathItem) (taskId u : string)
         (data : TaskStore.TaskPatch) (st : TaskStore.ProjectState),
    TaskStore.p_id data = None ->
    TaskStore.p_assignedTo data = None ->
    TaskTree.distinct (map TaskStore.docId db) = true ->
    TaskStore.updateTask db i path taskId data = Ok db' ->
    map (fun t => (TaskStore.id t, TaskStore.projectId t))
        (TaskStore.userTasks (TaskStore.fetchUserTasks (Some u) db' st))
    = map (fun t => (TaskStore.id t, TaskStore.projectId t))
          (TaskStore.userTasks (TaskStore.fetchUserTasks (Some u) db st)).
Proof.
  intros db db' i path taskId u data st Hid Has Hd Hup.
  unfold TaskStore.updateTask in Hup.
  destruct (TaskStore.fetchProject db i) as [p|] eqn:Hf; [|discriminate Hup].
  injection Hup as <-.
  rewrite !userTasks_flat_map. unfold TaskStore.updateProject.
  rewrite flat_map_concat_map, map_map, <- flat_map_concat_map.
  rewrite !flat_map_concat_map, !concat_map, !map_map. f_equal.
  apply map_ext_in. intros q Hq.
  rewrite !map_map.
  cbn [TaskStore.with_projectId TaskStore.id TaskStore.projectId].
  destruct (String.eqb (TaskStore.docId q) i) eqn:E; [|reflexivity].
  apply String.eqb_eq in E. subst i.
  pose proof (same_document db p q Hd Hf Hq) as ->.
  cbn [TaskStore.updateDoc TaskStore.docId TaskStore.tasks
       TaskStore.cleanProjectData TaskStore.cd_tasks TaskStore.with_tasks].
  pose proof (updateNestedTask_assigned u taskId data Hid Has
                (TaskStore.tasks p)) as R.
  rewrite <- (map_map TaskStore.id
                (fun x => (x, Some (TaskStore.docId p)))), R, map_map.
  reflexivity.
Qed.

Lemma updateTask_keeps_userTasks_witness :
  map (fun t => (TaskStore.id t, TaskStore.projectId t))
      (TaskStore.userTasks
         (TaskStore.fetchUserTasks (Some "u1")
            (TaskStore.updateProject
               [Samples.project [Samples.filled undefined None]] "p1"
               (TaskStore.with_tasks
                  (Samples.project [Samples.filled undefined None])
                  (TaskStore.updateNestedTask "t1"
                     (TaskStore.onlyCompleted true)
                     (TaskStore.tasks
                        (Samples.project [Samples.filled undefined None])))))
            (TaskStore.mkProjectState [] false None)))
  = map (fun t => (TaskStore.id t, TaskStore.projectId t))
        (TaskStore.userTasks
           (TaskStore.fetchUserTasks (Some "u1")
              [Samples.project [Samples.filled undefined None]]
              (TaskStore.mkProjectState [] false None))).
Proof.
  exact (updateTask_keeps_userTasks
           [Samples.project [Samples.filled undefined None]] _ "p1" []
           "t1" "u1" (TaskStore.onlyCompleted true)
           (TaskStore.mkProjectState [] false None)
           eq_refl eq_refl eq_refl eq_refl).
Defined.

(** ** A new project, and the first task under it *)

Section RootInsertion.
Import TaskStore.

Lemma resolve_snoc_kept :
  forall path (tasks : list Task) (x n : Task),
    TaskTree.resolve tasks path = Some n ->
    TaskTree.resolve (tasks ++ [x]) path = Some n.
Proof.
  intros [|seg rest] tasks x n H; [discriminate H|].
  cbn [TaskTree.resolve] in *. rewrite find_snoc.
  destruct (find _ tasks) as [m|]; [exact H | discriminate H].
Qed.

Lemma fetchProject_createProject
      (db : Firestore) (pd : NewProjectData) (digits now docRefId : string) :
  fetchProject db docRefId = None ->
  fetchProject (createProject db pd digits now docRefId) docRefId
  = Some (mkProject docRefId ("p-" ++ digits) (n_name pd) (n_description pd)
            (n_customer pd) [] now).
Proof.
  unfold fetchProject, createProject.
  induction db as [|q db IH]; intros H; cbn [app find docId] in *.
  - rewrite String.eqb_refl. reflexivity.
  - destruct (String.eqb (docId q) docRefId); [discriminate H | exact (IH H)].
Qed.

Lemma fetchProject_createProject_other
      (db : Firestore) (pd : NewProjectData) (digits now docRefId j : string)
      (p : Project) :
  fetchProject db j = Some p ->
  fetchProject (createProject db pd digits now docRefId) j = Some p.
Proof.
  unfold fetchProject, createProject.
  induction db as [|q db IH]; intros H; [discriminate H|].
  cbn [app find] in *.
  destruct (String.eqb (docId q) j); [exact H | exact (IH H)].
Qed.

End RootInsertion.

(** X23. [addTask] with the empty path, through the store: when no
    top-level task carries the new id, the one-segment path of the new id
    reads the new task as the cleaning step wrote it, and every path that
    resolved before reads the cleaned copy of the node it read. *)
Theorem addTask_at_root_read_back :
  forall (db : TaskStore.Firestore) (i : string) (p : TaskStore.Project)
         (taskData : TaskStore.TaskData) (uuid : string),
    TaskStore.fetchProject db i = Some p ->
    find (fun c => String.eqb (TaskStore.id c) uuid) (TaskStore.tasks p)
    = None ->
    exists db',
      TaskStore.addTask db i [] taskData uuid = Ok db'
      /\ TaskStore.getTaskByPath db' i [TaskStore.mkPathItem uuid]
         = Some (TaskStore.cleanTask (TaskStore.newTask taskData uuid))
      /\ forall path n,
          TaskStore.getTaskByPath db i path = Some n ->
          TaskStore.getTaskByPath db' i path = Some (TaskStore.cleanTask n).
Proof.
  intros db i p taskData uuid Hf Hfresh.
  unfold TaskStore.addTask. rewrite Hf. eexists. split; [reflexivity|].
  split.
  - exact (addTask_at_root_then_getTaskByPath db i p taskData uuid Hf Hfresh).
  - cbn [TaskStore.addTask_updatedTasks]. intros path n Hn.
    rewrite (getTaskByPath_updateProject db i p _ _ Hf).
    unfold TaskStore.getTaskByPath in Hn.
    rewrite Hf, getTaskByPath_in_resolve in Hn.
    cbn [TaskStore.with_tasks TaskStore.tasks].
    rewrite (resolve_snoc_kept _ _ _ n Hn). reflexivity.
Qed.

Lemma addTask_at_root_read_back_witness :
  exists db',
    TaskStore.addTask [Samples.project Samples.a_b] "p1" []
      (Samples.taskData "X") "u1" = Ok db'
    /\ TaskStore.getTaskByPath db' "p1" [TaskStore.mkPathItem "u1"]
       = Some (TaskStore.cleanTask
                 (TaskStore.newTask (Samples.taskData "X") "u1"))
    /\ forall path n,
        TaskStore.getTaskByPath [Samples.project Samples.a_b] "p1" path
        = Some n ->
        TaskStore.getTaskByPath db' "p1" path
        = Some (TaskStore.cleanTask n).
Proof.
  exact (addTask_at_root_read_back [Samples.project Samples.a_b] "p1" _
           (Samples.taskData "X") "u1" eq_refl eq_refl).
Defined.

(** X24. [createProject], when [addDoc] gives the document an id no
    document has: the new document is read back with an empty task tree,
    so every path reads nothing in it; the documents that were there are
    read as before; and a first [addTask] with the empty path resolves,
    after which the path of the new task's id reads the new task. *)
Theorem createProject_then_addTask :
  forall (db : TaskStore.Firestore) (pd : TaskStore.NewProjectData)
         (digits now docRefId : string),
    TaskStore.fetchProject db docRefId = None ->
    option_map TaskStore.tasks
      (TaskStore.fetchProject
         (TaskStore.createProject db pd digits now docRefId) docRefId)
    = Some []
    /\ (forall path,
          TaskStore.getTaskByPath
            (TaskStore.createProject db pd digits now docRefId) docRefId path
          = None)
    /\ (forall j p,
          TaskStore.fetchProject db j = Some p ->
          TaskStore.fetchProject
            (TaskStore.createProject db pd digits now docRefId) j = Some p)
    /\ (forall taskData uuid,
          exists db',
            TaskStore.addTask
              (TaskStore.createProject db pd digits now docRefId) docRefId []
              taskData uuid = Ok db'
            /\ TaskStore.getTaskByPath db' docRefId [TaskStore.mkPathItem uuid]
               = Some (TaskStore.cleanTask (TaskStore.newTask taskData uuid))).
Proof.
  intros db pd digits now docRefId Hnew.
  pose proof (fetchProject_createProject db pd digits now docRefId Hnew) as Hf.
  split; [rewrite Hf; reflexivity|].
  split.
  { intros path. unfold TaskStore.getTaskByPath.
    rewrite Hf, getTaskByPath_in_resolve.
    destruct path; reflexivity. }
  split.
  { intros j p Hj. apply fetchProject_createProject_other. exact Hj. }
  intros taskData uuid. unfold TaskStore.addTask. rewrite Hf.
  eexists. split; [reflexivity|].
  exact (addTask_at_root_then_getTaskByPath _ docRefId _ taskData uuid Hf
           eq_refl).
Qed.

Lemma createProject_then_addTask_witness :
  exists db',
    TaskStore.addTask
      (TaskStore.createProject [Samples.project Samples.a_b]
         (TaskStore.mkNewProjectData "Refit" "" (TaskStore.mkCustomer "" "" ""))
         "000002" "2024-02-01T00:00:00.000Z" "p2")
      "p2" [] (Samples.taskData "X") "u1" = Ok db'
    /\ TaskStore.getTaskByPath db' "p2" [TaskStore.mkPathItem "u1"]
       = Some (TaskStore.cleanTask
                 (TaskStore.newTask (Samples.taskData "X") "u1")).
Proof.
  exact (proj2 (proj2 (proj2
           (createProject_then_addTask [Samples.project Samples.a_b]
              (TaskStore.mkNewProjectData "Refit" ""
                 (TaskStore.mkCustomer "" "" ""))
              "000002" "2024-02-01T00:00:00.000Z" "p2" eq_refl)))
           (Samples.taskData "X") "u1").
Defined.

(** X25. [getItemByPath] reads the [type] of the first segment only: two
    paths with the same ids, whose first segments have the same type, read
    the same item; and the item read carries the id of the last segment. *)
Theorem getItemByPath_reads_first_type :
  forall (db : DeliverableStore.Firestore) (projectId : string)
         (path path' : list DeliverableStore.PathItem),
    map DeliverableStore.pid path = map DeliverableStore.pid path' ->
    option_map DeliverableStore.ptype (hd_error path)
    = option_map DeliverableStore.ptype (hd_error path') ->
    DeliverableStore.getItemByPath db projectId path
    = DeliverableStore.getItemByPath db projectId path'
    /\ forall n,
        DeliverableStore.getItemByPath db projectId path = Some n ->
        DeliverableStore.id n
        = last (map DeliverableStore.pid path) "".
Proof.
  intros db projectId path path' Hids Hty.
  unfold DeliverableStore.getItemByPath.
  destruct (DeliverableStore.fetchProject db projectId) as [p|];
    [|split; [reflexivity | intros n H; discriminate H]].
  rewrite !getItemByPath_in_resolve. split.
  - destruct path as [|a r]; destruct path' as [|b r']; try discriminate Hids;
      [reflexivity|].
    cbn [hd_error option_map] in Hty. injection Hty as Hty.
    rewrite Hty, Hids. reflexivity.
  - intros n H. destruct path as [|a r]; [discriminate H|].
    destruct (DeliverableStore.is_deliverable _); [|discriminate H].
    symmetry. exact (item_resolve_last_id _ _ _ H).
Qed.

Lemma getItemByPath_reads_first_type_witness :
  DeliverableStore.getItemByPath
    [Samples.iproject Samples.two_deliverables] "p1"
    [DeliverableStore.mkPathItem DeliverableStore.deliverable "d1";
     DeliverableStore.mkPathItem DeliverableStore.subtask "dup"]
  = DeliverableStore.getItemByPath
      [Samples.iproject Samples.two_deliverables] "p1"
      [DeliverableStore.mkPathItem DeliverableStore.deliverable "d1";
       DeliverableStore.mkPathItem DeliverableStore.deliverable "dup"].
Proof.
  exact (proj1 (getItemByPath_reads_first_type
                  [Samples.iproject Samples.two_deliverables] "p1"
                  [DeliverableStore.mkPathItem DeliverableStore.deliverable
                     "d1";
                   DeliverableStore.mkPathItem DeliverableStore.subtask "dup"]
                  [DeliverableStore.mkPathItem DeliverableStore.deliverable
                     "d1";
                   DeliverableStore.mkPathItem DeliverableStore.deliverable
                     "dup"]
                  eq_refl eq_refl)).
Defined.

(** X26. [deleteSubTask], then [getItemByPath]: a path whose second
    segment is the deleted id reads nothing, under every deliverable and
    whatever [deliverableId] was passed. *)
Theorem deleteSubTask_read_back :
  forall (db : DeliverableStore.Firestore)
         (projectId deliverableId taskId : string)
         (project : DeliverableStore.Project)
         (first second : DeliverableStore.PathItem)
         (rest : list DeliverableStore.PathItem),
    DeliverableStore.fetchProject db projectId = Some project ->
    DeliverableStore.pid second = taskId ->
    DeliverableStore.getItemByPath
      (fst (DeliverableStore.deleteSubTask db projectId deliverableId taskId))
      projectId (first :: second :: rest)
    = None.
Proof.
  intros db projectId deliverableId taskId project first second rest Hf Hs.
  unfold DeliverableStore.deleteSubTask. rewrite Hf. cbn [fst].
  rewrite (getItemByPath_updateProject db projectId project _ _ Hf).
  rewrite getItemByPath_in_resolve.
  destruct (DeliverableStore.is_deliverable _); [|reflexivity].
  cbn [DeliverableStore.with_deliverables DeliverableStore.deliverables map
       ItemTree.resolve].
  unfold DeliverableStore.deleteTaskFromItem at 1.
  rewrite (item_find_map _ _ _ (deleteTaskFromItem_cb_id taskId)).
  destruct (find _ (DeliverableStore.deliverables project)) as [m|];
    [|reflexivity].
  cbn [option_map]. rewrite deleteTaskFromItem_cb_eq.
  cbn [DeliverableStore.subTasks DeliverableStore.with_subTasks].
  rewrite item_find_map by (intros x; destruct x; reflexivity).
  rewrite Hs, item_find_filtered. reflexivity.
Qed.

Lemma deleteSubTask_read_back_witness :
  DeliverableStore.getItemByPath
    (fst (DeliverableStore.deleteSubTask
            [Samples.iproject Samples.two_deliverables] "p1" "d1" "dup"))
    "p1"
    [DeliverableStore.mkPathItem DeliverableStore.deliverable "d2";
     DeliverableStore.mkPathItem DeliverableStore.subtask "dup"]
  = None.
Proof.
  exact (deleteSubTask_read_back
           [Samples.iproject Samples.two_deliverables] "p1" "d1" "dup" _
           (DeliverableStore.mkPathItem DeliverableStore.deliverable "d2")
           (DeliverableStore.mkPathItem DeliverableStore.subtask "dup") []
           eq_refl eq_refl).
Defined.
